(** * Minecraft-Overviewer, [chunk.py]: chunk rendering and its image cache

    A shallow embedding of [chunk.py] and the properties of its
    specification.  Python integers are [Z]; the [uint8] cells of the numpy
    arrays are [Z] as well; numpy arrays of shape (16,16,n) are nested lists
    indexed with numpy's rules (negative indices wrap, anything else outside
    the axis raises [IndexError]); exceptions are a [result] type; the
    directory of the chunk file is an association list in listing order. *)

From Stdlib Require Import ZArith String Ascii Lia.
From stdpp Require Import base list gmap strings sorting.

Local Open Scope string_scope.
Local Open Scope Z_scope.
Local Open Scope list_scope.

(** ** Exceptions *)

Inductive exn : Type :=
  | IndexError
  | ValueError
  | IOError.

Inductive result (A : Type) : Type :=
  | Ok (a : A)
  | Raise (e : exn).
Arguments Ok {A} a.
Arguments Raise {A} e.

#[global] Instance exn_eq_dec : EqDecision exn.
Proof. solve_decision. Defined.

#[global] Instance result_eq_dec {A : Type} `{EqDecision A} : EqDecision (result A).
Proof. solve_decision. Defined.

Definition res_bind {A B : Type} (m : result A) (f : A -> result B) : result B :=
  match m with
  | Ok a => f a
  | Raise e => Raise e
  end.

(** ** numpy arrays *)

Module Numpy.

(** A three-dimensional [uint8] array, first axis outermost. *)
Abbreviation array3 := (list (list (list Z))).

(** [l[i]] with Python's rules. *)
Definition index {A : Type} (l : list A) (i : Z) : result A :=
  let n := Z.of_nat (length l) in
  let j := if i <? 0 then i + n else i in
  if (0 <=? j) && (j <? n) then
    match l !! Z.to_nat j with
    | Some a => Ok a
    | None => Raise IndexError
    end
  else Raise IndexError.

(** [a[x,y,z]] *)
Definition get3 (a : array3) (x y z : Z) : result Z :=
  res_bind (index a x) (fun plane =>
  res_bind (index plane y) (fun row => index row z)).

(** [k] consecutive pieces of [n] items each. *)
Fixpoint chunks {A : Type} (n k : nat) (l : list A) : list (list A) :=
  match k with
  | O => []
  | S k' => take n l :: chunks n k' (drop n l)
  end.

(** [numpy.frombuffer(buf, dtype=uint8).reshape((d0,d1,d2))] *)
Definition reshape3 (d0 d1 d2 : nat) (buf : list Z) : result array3 :=
  if Nat.eqb (length buf) (d0 * d1 * d2) then
    Ok (chunks d2 d1 <$> chunks (d1 * d2) d0 buf)
  else Raise ValueError.

Definition map3 {A B : Type} (f : A -> B) (a : list (list (list A)))
  : list (list (list B)) :=
  fmap (M:=list) (fmap (M:=list) (fmap (M:=list) f)) a.

Definition zip3 {A B C : Type} (f : A -> B -> C)
    (a : list (list (list A))) (b : list (list (list B)))
  : list (list (list C)) :=
  zip_with (zip_with (zip_with f)) a b.

(** [row[start::2] = v] on one row of the last axis, from its first cell
    on: [here] tells whether the cell at hand is one of those written
    ([start] is 0) or not ([start] is 1).  The shapes of the source are
    fixed, so [v] has a value for every cell written. *)
Fixpoint assign_stride2 (here : bool) (row v : list Z) : list Z :=
  match row with
  | [] => []
  | r :: row' =>
      if here then
        match v with
        | x :: v' => x :: assign_stride2 false row' v'
        | [] => r :: row'
        end
      else r :: assign_stride2 true row' v
  end.

(** [a[:,:,::2] = v] and [a[:,:,1::2] = v] *)
Definition assign_even3 (a v : array3) : array3 :=
  zip_with (zip_with (assign_stride2 true)) a v.
Definition assign_odd3 (a v : array3) : array3 :=
  zip_with (zip_with (assign_stride2 false)) a v.

(** [a != 0] *)
Definition nonzero3 (a : array3) : list (list (list bool)) :=
  map3 (fun v => negb (v =? 0)) a.

(** [a[mask] = c] *)
Definition assign_mask3 (a : array3) (mask : list (list (list bool))) (c : Z)
  : array3 :=
  zip3 (fun v (m : bool) => if m then c else v) a mask.

End Numpy.

(** ** Module-level tables *)

(** [transparent_blocks] *)
Definition transparent_blocks : gset Z :=
  list_to_set
    [0; 8; 9; 18; 20; 37; 38; 39; 40; 50; 51; 52; 53; 59; 63; 64; 65; 66; 67;
     68; 69; 70; 71; 72; 74; 75; 76; 77; 79; 83; 85].

(** [b in transparent_blocks] *)
Definition transparent (b : Z) : bool := bool_decide (b ∈ transparent_blocks).

(** The identifier cave mode writes into sunlit cells. *)
Definition hidden_id : Z := 21.

Definition rgb : Type := (Z * Z * Z)%type.

(** [range(n)] and [xrange(15,-1,-1)] *)
Definition range (n : Z) : list Z := seqZ 0 n.
Definition xrange_down : list Z := reverse (range 16).

(** One turn of the loop of [generate_depthcolors]: the state is
    [(r, g, b, depth_colors)]; [Image.new("RGB", (24,24), (r,g,b))] is the
    plain colour it is filled with. *)
Definition depth_step (st : Z * Z * Z * list rgb) (z : Z) : Z * Z * Z * list rgb :=
  let '(r, g, b, acc) := st in
  let acc' := acc ++ [(r, g, b)] in
  if z <? 32 then (r, g + 7, b, acc')
  else if z <? 64 then (r - 7, g, b, acc')
  else if z <? 96 then (r, g, b + 7, acc')
  else (r, g - 7, b, acc').

Definition generate_depthcolors : list rgb :=
  snd (fold_left depth_step (range 128) (255, 0, 0, [])).

Definition depth_colors : list rgb := generate_depthcolors.

(** ** Reading the grid

    The per-voxel code only reads [blocks]; [Rd] carries the outcome of a
    computation together with the indices it handed to [blocks[...]], in
    order, up to and including the one that raised. *)

Definition idx : Type := (Z * Z * Z)%type.

Definition Rd (A : Type) : Type := (list idx * result A)%type.

Definition rd_ret {A : Type} (a : A) : Rd A := ([], Ok a).

Definition rd_bind {A B : Type} (m : Rd A) (f : A -> Rd B) : Rd B :=
  match m with
  | (l, Ok a) => let '(l', r) := f a in (l ++ l', r)
  | (l, Raise e) => (l, Raise e)
  end.

Definition rd_lift {A : Type} (r : result A) : Rd A := ([], r).

Notation "'let!' x ':=' m 'in' k" := (rd_bind m (fun x => k))
  (at level 10, x name, m at level 100, k at level 200).

(** [blocks[x,y,z]] *)
Definition read (blocks : Numpy.array3) (x y z : Z) : Rd Z :=
  ([(x, y, z)], Numpy.get3 blocks x y z).

(** [blocks[x,y,z] not in transparent_blocks] *)
Definition not_transparent_at (blocks : Numpy.array3) (x y z : Z) : Rd bool :=
  let! b := read blocks x y z in rd_ret (negb (transparent b)).

(** Python's [a and b]: [b] is evaluated only when [a] is true. *)
Definition rd_and (a b : Rd bool) : Rd bool :=
  let! v := a in if v then b else rd_ret false.

(** The [if]/[elif] chain of [chunk_render] that decides on [continue]:
    [true] when the block is skipped as occluded. *)
Definition occluded (cave : bool) (blocks : Numpy.array3) (x y z : Z) : Rd bool :=
  if cave && ((x =? 0) && negb (y =? 15) && negb (z =? 127)) then
    rd_and (not_transparent_at blocks x (y + 1) z)
           (not_transparent_at blocks x y (z + 1))
  else if cave && ((y =? 15) && negb (x =? 0) && negb (z =? 127)) then
    rd_and (not_transparent_at blocks (x - 1) y z)
           (not_transparent_at blocks x y (z + 1))
  else if cave && ((y =? 15) && (x =? 0)) then
    not_transparent_at blocks x y (z + 1)
  else if negb (x =? 0) && negb (y =? 15) && negb (z =? 127) then
    rd_and (not_transparent_at blocks (x - 1) y z)
      (rd_and (not_transparent_at blocks x (y + 1) z)
              (not_transparent_at blocks x y (z + 1)))
  else rd_ret false.

(** [x != 15 and blocks[x+1,y,z] == 0], [y != 0 and blocks[x,y-1,z] == 0] *)
Definition air_at (guard : bool) (blocks : Numpy.array3) (x y z : Z) : Rd bool :=
  if guard then let! v := read blocks x y z in rd_ret (v =? 0) else rd_ret false.

Section Chunk.

(** The images of PIL, and [textures.blockmap]: for a block id, nothing
    ([if not t]) or the pair of a sprite and its alpha mask. *)
Variable image : Type.
Variable blockmap : Z -> option (image * image).

(** What [img.paste] is given: [t[0]], or in cave mode
    [Image.blend(t[0], depth_colors[z], 0.3)]. *)
Inductive picture : Type :=
  | Plain (im : image)
  | Blend (im : image) (tint : rgb).

(** The calls that change the image, oldest first: a new image is [[]]. *)
Inductive draw_op : Type :=
  | Paste (p : picture) (pos : Z * Z) (mask : image)
  | Line (p1 p2 : Z * Z).

Definition canvas : Type := list draw_op.

(** The two edge lines, after the paste. *)
Definition draw_edges (blocks : Numpy.array3) (x y z imgx imgy : Z)
    (img : canvas) : Rd canvas :=
  let! e1 := air_at (negb (x =? 15)) blocks (x + 1) y z in
  let img := if e1 then img ++ [Line (imgx + 12, imgy) (imgx + 24, imgy + 6)]
             else img in
  let! e2 := air_at (negb (y =? 0)) blocks x (y - 1) z in
  let img := if e2 then img ++ [Line (imgx, imgy + 6) (imgx + 12, imgy)]
             else img in
  rd_ret img.

(** The body of the [try] in the innermost loop. *)
Definition render_block (cave : bool) (blocks : Numpy.array3)
    (x y z imgx imgy : Z) (img : canvas) : Rd canvas :=
  let! blockid := read blocks x y z in
  match blockmap blockid with
  | None => rd_ret img
  | Some t =>
      let! occ := occluded cave blocks x y z in
      if occ then rd_ret img
      else
        let! pic :=
          (if cave then
             let! tint := rd_lift (Numpy.index depth_colors z) in
             rd_ret (Blend (fst t) tint)
           else rd_ret (Plain (fst t))) in
        let img := img ++ [Paste pic (imgx, imgy) (snd t)] in
        if transparent blockid then rd_ret img
        else draw_edges blocks x y z imgx imgy img
  end.

(** [for z in xrange(128): try: ... finally: imgy -= 12] *)
Fixpoint loop_z (cave : bool) (blocks : Numpy.array3) (x y imgx : Z)
    (zs : list Z) (imgy : Z) (img : canvas) : Rd canvas :=
  match zs with
  | [] => rd_ret img
  | z :: zs' =>
      let! img := render_block cave blocks x y z imgx imgy img in
      loop_z cave blocks x y imgx zs' (imgy - 12) img
  end.

(** [for y in xrange(16): imgx = ...; imgy = ...; for z ...] *)
Fixpoint loop_y (cave : bool) (blocks : Numpy.array3) (xoff yoff x : Z)
    (ys : list Z) (img : canvas) : Rd canvas :=
  match ys with
  | [] => rd_ret img
  | y :: ys' =>
      let imgx := xoff + x * 12 + y * 12 in
      let imgy := yoff - x * 6 + y * 6 + 128 * 12 + 16 * 12 / 2 in
      let! img := loop_z cave blocks x y imgx (range 128) imgy img in
      loop_y cave blocks xoff yoff x ys' img
  end.

(** [for x in xrange(15,-1,-1): for y ...] *)
Fixpoint loop_x (cave : bool) (blocks : Numpy.array3) (xoff yoff : Z)
    (xs : list Z) (img : canvas) : Rd canvas :=
  match xs with
  | [] => rd_ret img
  | x :: xs' =>
      let! img := loop_y cave blocks xoff yoff x (range 16) img in
      loop_x cave blocks xoff yoff xs' img
  end.

Definition render_loops (cave : bool) (blocks : Numpy.array3)
    (xoff yoff : Z) (img : canvas) : Rd canvas :=
  loop_x cave blocks xoff yoff xrange_down img.

(** ** Files and objects *)

(** The [Level] structure of a chunk file, as far as [chunk.py] reads
    it: the two raw byte strings. *)
Record level : Type := { Blocks : list Z; SkyLight : list Z }.

#[global] Instance level_eq_dec : EqDecision level.
Proof. solve_decision. Defined.

Definition get_blockarray (lv : level) : result Numpy.array3 :=
  Numpy.reshape3 16 16 128 (Blocks lv).

Definition get_skylight_array (lv : level) : result Numpy.array3 :=
  Numpy.reshape3 16 16 64 (SkyLight lv).

(** A path, already split by [os.path.split] into directory and file
    name; [os.path.join] pairs them again.  The directory is absolute and
    normalised, so that [os.path.abspath] leaves it as it is: one string
    names one directory. *)
Abbreviation path := (string * string)%type.

(** What a file holds: a chunk that [nbt.load] parses, an image that
    [Image.open(..).load()] decodes (what [img.save] writes), or neither. *)
Inductive file : Type :=
  | ChunkData (lv : level)
  | ImageFile (img : canvas)
  | Damaged.

(** The files, in the order [os.listdir] reports them. *)
Abbreviation filesystem := (list (path * file)).

Definition path_eqb (p q : path) : bool :=
  String.eqb (fst p) (fst q) && String.eqb (snd p) (snd q).

Fixpoint lookup_file (p : path) (fs : filesystem) : option file :=
  match fs with
  | [] => None
  | (q, f) :: fs' => if path_eqb q p then Some f else lookup_file p fs'
  end.

Definition os_path_exists (p : path) (fs : filesystem) : bool :=
  match lookup_file p fs with Some _ => true | None => false end.

Definition os_listdir (d : string) (fs : filesystem) : list string :=
  (fun e => snd (fst e)) <$>
    filter (fun e => String.eqb (fst (fst e)) d = true) fs.

Definition os_unlink (p : path) (fs : filesystem) : filesystem :=
  filter (fun e => path_eqb (fst e) p = false) fs.

(** Create the file or replace what it holds.  [os.listdir] promises no
    order, so where a new file shows in the listing is not the code's to
    say: here it goes last.  The lemmas that follow a listing through a
    write are steps of the proofs; what the theorems state of the files
    after a write is which names are there, what they hold and how many
    they are, not their order. *)
Definition write_file (p : path) (f : file) (fs : filesystem) : filesystem :=
  if os_path_exists p fs then
    (fun e => if path_eqb (fst e) p then (fst e, f) else e) <$> fs
  else fs ++ [(p, f)].

(** [nbt.load(filename)[1]['Level']] *)
Definition get_lvldata (p : path) (fs : filesystem) : result level :=
  match lookup_file p fs with
  | Some (ChunkData lv) => Ok lv
  | _ => Raise IOError
  end.

(** A numpy array object; [frombuffer] over a [str] gives a read-only one. *)
Record ndarray : Type := { data : Numpy.array3; writeable : bool }.

(** The attributes of a [ChunkRenderer]; [_blocks] refers to an array
    object of the heap. *)
Record ChunkRenderer : Type :=
  { chunkfile : path; _level : option level; _blocks : option nat }.

Inductive event : Type :=
  | Rendered (cave : bool)
  | Written (p : path)
  | Unlinked (p : path).

Record state : Type :=
  { self : ChunkRenderer;
    fs : filesystem;
    heap : list ndarray;
    events : list event }.

Definition M (A : Type) : Type := state -> result A * state.

Definition ret {A : Type} (a : A) : M A := fun st => (Ok a, st).

Definition bind {A B : Type} (m : M A) (f : A -> M B) : M B :=
  fun st =>
    match m st with
    | (Ok a, st') => f a st'
    | (Raise e, st') => (Raise e, st')
    end.

Definition lift {A : Type} (r : result A) : M A := fun st => (r, st).

Definition get_state : M state := fun st => (Ok st, st).

Notation "'let*' x ':=' m 'in' k" := (bind m (fun x => k))
  (at level 10, x name, m at level 100, k at level 200).

Definition log (e : event) : M unit := fun st =>
  (Ok tt, {| self := self st; fs := fs st; heap := heap st;
             events := events st ++ [e] |}).

Definition set_fs (f : filesystem -> filesystem) : M unit := fun st =>
  (Ok tt, {| self := self st; fs := f (fs st); heap := heap st;
             events := events st |}).

Definition set_self (a : ChunkRenderer) : M unit := fun st =>
  (Ok tt, {| self := a; fs := fs st; heap := heap st; events := events st |}).

(** A new array object; its reference is returned. *)
Definition alloc (a : ndarray) : M nat := fun st =>
  (Ok (length (heap st)),
   {| self := self st; fs := fs st; heap := heap st ++ [a];
      events := events st |}).

Definition deref (l : nat) : M ndarray := fun st =>
  match heap st !! l with
  | Some a => (Ok a, st)
  | None => (Raise ValueError, st)
  end.

(** [a.copy()] *)
Definition np_copy (l : nat) : M nat :=
  let* a := deref l in alloc {| data := data a; writeable := true |}.

(** [a[mask] = c], in place; a read-only array refuses it. *)
Definition np_assign_mask (l : nat) (mask : list (list (list bool))) (c : Z)
  : M unit := fun st =>
  match heap st !! l with
  | Some a =>
      if writeable a then
        (Ok tt,
         {| self := self st; fs := fs st;
            heap := <[l := {| data := Numpy.assign_mask3 (data a) mask c;
                              writeable := true |}]> (heap st);
            events := events st |})
      else (Raise ValueError, st)
  | None => (Raise ValueError, st)
  end.

(** ** ChunkRenderer *)

(** [hashlib.md5]: the hex digest of a byte string. *)
Variable md5_hexdigest : list Z -> string.

(** What [numpy.empty((16,16,128))] holds, cell by cell of the flat
    memory: anything. *)
Variable uninitialised : nat -> Z.

Definition numpy_empty : Numpy.array3 :=
  Numpy.chunks 128 16 <$>
    Numpy.chunks (16 * 128) 16 (uninitialised <$> seq 0 (16 * 16 * 128)).

Definition _load_level : M level :=
  let* st := get_state in
  match _level (self st) with
  | Some lv => ret lv
  | None =>
      let* lv := lift (get_lvldata (chunkfile (self st)) (fs st)) in
      let* _ := set_self {| chunkfile := chunkfile (self st);
                            _level := Some lv;
                            _blocks := _blocks (self st) |} in
      ret lv
  end.

Definition _load_blocks : M nat :=
  let* st := get_state in
  match _blocks (self st) with
  | Some l => ret l
  | None =>
      let* lv := _load_level in
      let* arr := lift (get_blockarray lv) in
      let* l := alloc {| data := arr; writeable := false |} in
      let* st := get_state in
      let* _ := set_self {| chunkfile := chunkfile (self st);
                            _level := _level (self st);
                            _blocks := Some l |} in
      ret l
  end.

(** The version tag ["1"], as a byte. *)
Definition version_tag : list Z := [49].

(** [digest[:6]] *)
Definition first6 (s : string) : string := String.substring 0 6 s.

(** The digest steps of [_hash_blockarray]: [h.update(level['Blocks'])],
    [h.update("1")], [h.hexdigest()[:6]]. *)
Definition hash_of (lv : level) : string :=
  first6 (md5_hexdigest (Blocks lv ++ version_tag)).

Definition _hash_blockarray : M string :=
  let* lv := _load_level in
  ret (hash_of lv).

(** The grid cave mode draws from: the arithmetic of
    [skylight_expanded] and of the masked assignment. *)
Definition skylight_expanded (skylight : Numpy.array3) : Numpy.array3 :=
  let e := numpy_empty in
  let e := Numpy.assign_even3 e (Numpy.map3 (fun v => Z.land v 15) skylight) in
  let e := Numpy.assign_odd3 e (Numpy.map3 (fun v => Z.shiftr v 4) skylight) in
  e.

(** The skylight of cell [z] in the words of the specification, from the
    packed byte at [z/2]: its low four bits when [z] is even, its high
    four bits when [z] is odd. *)
Definition skylight_nibble (byte z : Z) : Z :=
  if Z.even z then Z.land byte 15 else Z.shiftr byte 4.

(** [blocks[skylight_expanded != 0] = 21], as a value. *)
Definition cave_grid (blocks skylight : Numpy.array3) : Numpy.array3 :=
  Numpy.assign_mask3 blocks (Numpy.nonzero3 (skylight_expanded skylight))
    hidden_id.

(** The [if cave:] block of [chunk_render]: the local [blocks] ends up
    referring to a masked copy. *)
Definition cave_mask (blocks : nat) : M nat :=
  let* lv := _load_level in
  let* skylight := lift (get_skylight_array lv) in
  let expanded := skylight_expanded skylight in
  let* blocks := np_copy blocks in
  let* _ := np_assign_mask blocks (Numpy.nonzero3 expanded) hidden_id in
  ret blocks.

(** [chunk_render] from the [if cave:] on, [blocks] being what
    [self.blocks] gave.  The loops only read the array, so they run on
    its contents. *)
Definition draw_chunk (img : option canvas) (xoff yoff : Z) (cave : bool)
    (blocks : nat) : M canvas :=
  let* blocks := (if cave then cave_mask blocks else ret blocks) in
  let img := match img with Some i => i | None => [] end in
  let* b := deref blocks in
  lift (snd (render_loops cave (data b) xoff yoff img)).

Definition chunk_render (img : option canvas) (xoff yoff : Z) (cave : bool)
  : M canvas :=
  let* _ := log (Rendered cave) in
  let* blocks := _load_blocks in
  draw_chunk img xoff yoff cave blocks.

(** [filename.split(".")] *)
Fixpoint split_dot (s : string) : list string :=
  match s with
  | EmptyString => [EmptyString]
  | String c s' =>
      if Ascii.eqb c "."%char then EmptyString :: split_dot s'
      else match split_dot s' with
           | w :: ws => String c w :: ws
           | [] => [String c EmptyString]
           end
  end.

(** [".".join(l)] *)
Fixpoint join_dot (l : list string) : string :=
  match l with
  | [] => EmptyString
  | [w] => w
  | w :: ws => w +:+ "." +:+ join_dot ws
  end.

(** [".".join(filename.split(".")[1:3])] *)
Definition blockid_of (filename : string) : string :=
  join_dot (take 2 (drop 1 (split_dot filename))).

Definition mode_name (cave : bool) : string :=
  if cave then "cave" else "nocave".

(** ["img.{0}.{1}.{2}.png".format(blockid, mode, hash)] *)
Definition dest_filename_of (blockid : string) (cave : bool) (h : string)
  : string :=
  "img." +:+ blockid +:+ "." +:+ mode_name cave +:+ "." +:+ h +:+ ".png".

(** ["img.{0}.{1}.".format(blockid, mode)] *)
Definition old_prefix (blockid : string) (cave : bool) : string :=
  "img." +:+ blockid +:+ "." +:+ mode_name cave +:+ ".".

(** [s.endswith(suffix)] *)
Fixpoint endswith (s suffix : string) : bool :=
  String.eqb s suffix ||
  match s with
  | EmptyString => false
  | String _ s' => endswith s' suffix
  end.

(** The test of the clean-up loop on a name of the listing. *)
Definition is_old_image (blockid : string) (cave : bool) (oldimg : string)
  : bool :=
  String.prefix (old_prefix blockid cave) oldimg && endswith oldimg ".png".

(** [for oldimg in os.listdir(destdir): if ...: os.unlink(...); break] *)
Definition remove_old_image (destdir blockid : string) (cave : bool) : M unit :=
  let* st := get_state in
  match List.find (is_old_image blockid cave) (os_listdir destdir (fs st)) with
  | Some oldimg =>
      let* _ := set_fs (os_unlink (destdir, oldimg)) in
      log (Unlinked (destdir, oldimg))
  | None => ret tt
  end.

(** The method [ChunkRenderer.render_and_save]. *)
Definition render_and_save_method (cave : bool) : M path :=
  let* st := get_state in
  let '(destdir, filename) := chunkfile (self st) in
  let blockid := blockid_of filename in
  let* h := _hash_blockarray in
  let dest_path := (destdir, dest_filename_of blockid cave h) in
  let* st := get_state in
  let* hit :=
    (if os_path_exists dest_path (fs st) then
       match lookup_file dest_path (fs st) with
       | Some (ImageFile _) => ret true
       | _ => ret false
       end
     else
       let* _ := remove_old_image destdir blockid cave in
       ret false) in
  if hit : bool then ret dest_path
  else
    let* img := chunk_render None 0 0 cave in
    let* _ := set_fs (write_file dest_path (ImageFile img)) in
    let* _ := log (Written dest_path) in
    ret dest_path.

(** The module function [render_and_save]: a new [ChunkRenderer], whose
    constructor wants the chunk file to exist, then the method. *)
Definition render_and_save (chunkfile : path) (cave : bool) : M path :=
  let* st := get_state in
  if os_path_exists chunkfile (fs st) then
    let* _ := set_self {| chunkfile := chunkfile; _level := None;
                          _blocks := None |} in
    render_and_save_method cave
  else lift (Raise ValueError).

(** ** What a step leaves alone

    [frame st st']: from [st] to [st'] the files and the events are the
    same, every array object of [st] is there with the contents it had,
    and the attributes of the renderer that were set still hold what they
    held. *)
Definition frame (st st' : state) : Prop :=
  (fs st' = fs st /\ events st' = events st) /\
  (forall l a, heap st !! l = Some a -> heap st' !! l = Some a) /\
  chunkfile (self st') = chunkfile (self st) /\
  (forall lv, _level (self st) = Some lv -> _level (self st') = Some lv) /\
  (forall l, _blocks (self st) = Some l -> _blocks (self st') = Some l).

Definition frames {A : Type} (m : M A) : Prop :=
  forall st, frame st (snd (m st)).

(** The array [self._blocks] refers to is the one [get_blockarray] makes
    of the level, read-only. *)
Definition blocks_loaded (st : state) : Prop :=
  exists lv l b,
    _level (self st) = Some lv /\ _blocks (self st) = Some l /\
    get_blockarray lv = Ok b /\
    heap st !! l = Some {| data := b; writeable := false |}.

(** ** The cache, seen from outside *)

(** The path [render_and_save] computes for a chunk file holding [lv]. *)
Definition dest_path_of (chunkfile : path) (cave : bool) (lv : level) : path :=
  (fst chunkfile,
   dest_filename_of (blockid_of (snd chunkfile)) cave (hash_of lv)).

(** The names in the directory of the chunk file that the clean-up loop
    takes for images of this chunk and mode, in listing order. *)
Definition cache_entries (chunkfile : path) (cave : bool) (fs : filesystem)
  : list string :=
  filter (fun n => is_old_image (blockid_of (snd chunkfile)) cave n = true)
         (os_listdir (fst chunkfile) fs).

Definition is_render (e : event) : bool :=
  match e with Rendered _ => true | _ => false end.
Definition is_write (e : event) : bool :=
  match e with Written _ => true | _ => false end.

Definition renders (evs : list event) : nat :=
  length (filter (fun e => is_render e = true) evs).
Definition writes (evs : list event) : nat :=
  length (filter (fun e => is_write e = true) evs).

(** The end of [render_and_save], after [chunk_render]: save and return
    the path, or let the exception through. *)
Definition save_image (dest : path) (rs : result canvas * state)
  : result path * state :=
  match rs with
  | (Ok img, st) =>
      (Ok dest,
       {| self := self st; fs := write_file dest (ImageFile img) (fs st);
          heap := heap st; events := events st ++ [Written dest] |})
  | (Raise e, st) => (Raise e, st)
  end.

(** The state of a new [ChunkRenderer] that has read its level. *)
Definition renderer_with (chunkfile : path) (lv : option level) (st : state)
  : state :=
  {| self := {| chunkfile := chunkfile; _level := lv; _blocks := None |};
     fs := fs st; heap := heap st; events := events st |}.

(** The level [self.level] gives: the one kept in [_level], or else what
    the chunk file holds. *)
Definition current_level (st : state) : result level :=
  match _level (self st) with
  | Some lv => Ok lv
  | None => get_lvldata (chunkfile (self st)) (fs st)
  end.

(** A channel value an 8-bit image can hold. *)
Definition channel_ok (v : Z) : bool := (0 <=? v) && (v <=? 255).

Definition rgb_ok (c : rgb) : bool :=
  let '(r, g, b) := c in channel_ok r && channel_ok g && channel_ok b.

(** ** The projection of the specification *)

(** The pixel position the specification gives for a voxel. *)
Definition projector (xoff yoff x y z : Z) : Z * Z :=
  (xoff + x * 12 + y * 12,
   yoff - x * 6 + y * 6 + 128 * 12 + 16 * 12 / 2 - z * 12).

(** The voxels in the order the loops visit them. *)
Definition traversal : list idx :=
  x ← xrange_down; y ← range 16; z ← range 128; [(x, y, z)].

Fixpoint rd_fold {A B : Type} (f : B -> A -> Rd A) (l : list B) (a : A) : Rd A :=
  match l with
  | [] => rd_ret a
  | b :: l' => let! a' := f b a in rd_fold f l' a'
  end.

(** The body of the loop at a voxel, handed the projected position. *)
Definition render_at (cave : bool) (blocks : Numpy.array3) (xoff yoff : Z)
    (v : idx) (img : canvas) : Rd canvas :=
  let '(x, y, z) := v in
  render_block cave blocks x y z
    (fst (projector xoff yoff x y z)) (snd (projector xoff yoff x y z)) img.

(** ** Shapes *)

Definition has_shape (d0 d1 d2 : nat) (a : Numpy.array3) : bool :=
  Nat.eqb (length a) d0 &&
  forallb (fun plane =>
    Nat.eqb (length plane) d1 &&
    forallb (fun row : list Z => Nat.eqb (length row) d2) plane) a.

(** A grid holding one block id everywhere. *)
Definition filled (v : Z) : Numpy.array3 :=
  replicate 16 (replicate 16 (replicate 128 v)).

(** [blocks[x,y,z] not in transparent_blocks], as a value. *)
Definition opaque_at (blocks : Numpy.array3) (x y z : Z) : bool :=
  match Numpy.get3 blocks x y z with
  | Ok v => negb (transparent v)
  | Raise _ => false
  end.

Definition in_grid (v : idx) : Prop :=
  let '(x, y, z) := v in 0 <= x < 16 /\ 0 <= y < 16 /\ 0 <= z < 128.

(** The block was drawn: one paste was added to the image, then edge
    lines only. *)
Definition is_line (op : draw_op) : bool :=
  match op with Line _ _ => true | Paste _ _ _ => false end.

Definition drawn_by (r : Rd canvas) (img : canvas) : Prop :=
  exists pic pos mask edges,
    snd r = Ok (img ++ Paste pic pos mask :: edges) /\
    forallb is_line edges = true.

(** The block was skipped: the image is as before. *)
Definition skipped_by (r : Rd canvas) (img : canvas) : Prop :=
  snd r = Ok img.

(** ** The order of the traversal *)

(** [visited_before v w]: the loops come to [v] before [w]: a larger [x]
    first, then a smaller [y], then a smaller [z]. *)
Definition visited_before (v w : idx) : Prop :=
  let '(x, y, z) := v in
  let '(x', y', z') := w in
  x' < x \/ (x = x' /\ (y < y' \/ (y = y' /\ z < z'))).


(** ** Edge lines and the image *)

(** [blocks[x,y,z] == 0], as a value. *)
Definition is_air_at (blocks : Numpy.array3) (x y z : Z) : bool :=
  match Numpy.get3 blocks x y z with
  | Ok v => v =? 0
  | Raise _ => false
  end.

(** The corner a paste is given lies in the rectangle the corners of the
    sprites of a chunk span, offsets apart: 0..360 across, 18..1722 down. *)
Definition paste_in_span (xoff yoff : Z) (op : draw_op) : Prop :=
  match op with
  | Paste _ (px, py) _ =>
      xoff <= px <= xoff + 360 /\ yoff + 18 <= py <= yoff + 1722
  | Line _ _ => True
  end.


(** The shape of a nested list of any cells, as a proposition. *)
Definition shaped {A : Type} (d0 d1 d2 : nat) (a : list (list (list A)))
  : Prop :=
  length a = d0 /\
  Forall (fun plane =>
    length plane = d1 /\ Forall (fun row => length row = d2) plane) a.

(** ** Names and files, seen from outside *)

(** The string holds no dot. *)
Fixpoint no_dot (s : string) : bool :=
  match s with
  | EmptyString => true
  | String c s' => negb (Ascii.eqb c "."%char) && no_dot s'
  end.

(** The file name has at least three parts between dots, as [c.x.z.dat]
    has: its block id is then two of them. *)
Definition well_named (chunkfile : path) : bool :=
  Nat.leb 3 (length (split_dot (snd chunkfile))).

(** A path that is no entry of the chunk and mode. *)
Definition no_entry (chunkfile : path) (cave : bool) (q : path) : Prop :=
  fst q <> fst chunkfile \/ is_old_image (blockid_of (snd chunkfile)) cave (snd q) = false.

(** The files as [chunk_render] finds them on a cache miss: with the
    first old image of the chunk and mode removed when the expected file
    does not exist, as they were when it exists but does not decode. *)
Definition files_at_render (chunkfile : path) (cave : bool) (lv : level)
    (fs : filesystem) : filesystem :=
  match lookup_file (dest_path_of chunkfile cave lv) fs with
  | Some _ => fs
  | None =>
      match head (cache_entries chunkfile cave fs) with
      | Some n => os_unlink (fst chunkfile, n) fs
      | None => fs
      end
  end.

(** The events of the clean-up in the same case. *)
Definition cleanup_events (chunkfile : path) (cave : bool) (lv : level)
    (fs : filesystem) : list event :=
  match lookup_file (dest_path_of chunkfile cave lv) fs with
  | Some _ => []
  | None =>
      match head (cache_entries chunkfile cave fs) with
      | Some n => [Unlinked (fst chunkfile, n)]
      | None => []
      end
  end.

(** The expected cache file is there and decodes. *)
Definition cache_hit (chunkfile : path) (cave : bool) (lv : level)
    (fs : filesystem) : bool :=
  match lookup_file (dest_path_of chunkfile cave lv) fs with
  | Some (ImageFile _) => true
  | _ => false
  end.

(** What [chunk_render(cave=cave)] returns on a new renderer whose chunk
    file holds [lv]: the loops run on the arrays made of the level. *)
Definition rendered_image (cave : bool) (lv : level) : result canvas :=
  match get_blockarray lv with
  | Raise e => Raise e
  | Ok b =>
      if cave then
        match get_skylight_array lv with
        | Raise e => Raise e
        | Ok s => snd (render_loops true (cave_grid b s) 0 0 [])
        end
      else snd (render_loops false b 0 0 [])
  end.

(** One call of [render_and_save] after another, each with a new
    [ChunkRenderer], whatever the calls return. *)
Fixpoint render_all (calls : list (path * bool)) (st : state) : state :=
  match calls with
  | [] => st
  | (cf, cave) :: calls' => render_all calls' (snd (render_and_save cf cave st))
  end.


(** ** Lemmas on reading computations *)

Lemma rd_bind_ret_l {A B : Type} (a : A) (f : A -> Rd B) :
  rd_bind (rd_ret a) f = f a.
Proof. unfold rd_bind, rd_ret. by destruct (f a). Qed.

Lemma rd_bind_ret_r {A : Type} (m : Rd A) : rd_bind m rd_ret = m.
Proof.
  destruct m as [l [a|e]]; simpl; [|done]. by rewrite app_nil_r.
Qed.

Lemma rd_bind_assoc {A B C : Type} (m : Rd A) (f : A -> Rd B) (g : B -> Rd C) :
  rd_bind (rd_bind m f) g = rd_bind m (fun a => rd_bind (f a) g).
Proof.
  destruct m as [l [a|e]]; simpl; [|done].
  destruct (f a) as [l1 [b|e]]; simpl; [|done].
  destruct (g b) as [l2 r]. by rewrite app_assoc.
Qed.

Lemma rd_bind_ext {A B : Type} (m : Rd A) (f g : A -> Rd B) :
  (forall a, f a = g a) -> rd_bind m f = rd_bind m g.
Proof.
  intros H. destruct m as [l [a|e]]; simpl; [|done]. by rewrite H.
Qed.

Lemma rd_fold_app {A B : Type} (f : B -> A -> Rd A) (l1 l2 : list B) (a : A) :
  rd_fold f (l1 ++ l2) a = rd_bind (rd_fold f l1 a) (rd_fold f l2).
Proof.
  revert a. induction l1 as [|b l1 IH]; intros a; cbn [rd_fold app].
  - by rewrite rd_bind_ret_l.
  - rewrite rd_bind_assoc. apply rd_bind_ext. intros a'. apply IH.
Qed.

Lemma rd_fold_ext {A B : Type} (f g : B -> A -> Rd A) (l : list B) (a : A) :
  (forall b a', f b a' = g b a') -> rd_fold f l a = rd_fold g l a.
Proof.
  intros H. revert a. induction l as [|b l IH]; intros a; simpl; [done|].
  rewrite H. by apply rd_bind_ext.
Qed.

(** ** Lemmas on indexing *)

Lemma index_lookup {A : Type} (l : list A) (i : Z) (a : A) :
  0 <= i -> l !! Z.to_nat i = Some a -> Numpy.index l i = Ok a.
Proof.
  intros Hi Hl. unfold Numpy.index.
  pose proof (lookup_lt_Some _ _ _ Hl) as Hlt.
  destruct (Z.ltb_spec i 0); [lia|].
  destruct (Z.leb_spec 0 i); [|lia].
  destruct (Z.ltb_spec i (Z.of_nat (length l))); [|lia].
  simpl. by rewrite Hl.
Qed.

Lemma index_in_range {A : Type} (l : list A) (i : Z) :
  0 <= i < Z.of_nat (length l) -> exists a, Numpy.index l i = Ok a /\ l !! Z.to_nat i = Some a.
Proof.
  intros Hi. destruct (lookup_lt_is_Some_2 l (Z.to_nat i)) as [a Ha]; [lia|].
  exists a. split; [|done]. apply index_lookup; [lia|done].
Qed.

Lemma index_past_end {A : Type} (l : list A) (i : Z) :
  Z.of_nat (length l) <= i -> Numpy.index l i = Raise IndexError.
Proof.
  intros Hi. unfold Numpy.index.
  destruct (Z.ltb_spec i 0); [lia|].
  destruct (Z.leb_spec 0 i); [|lia].
  destruct (Z.ltb_spec i (Z.of_nat (length l))); [lia|]. done.
Qed.

Lemma has_shape_inv (d0 d1 d2 : nat) (a : Numpy.array3) :
  has_shape d0 d1 d2 a = true ->
  length a = d0 /\
  forall plane, plane ∈ a ->
    length plane = d1 /\ forall row, row ∈ plane -> length row = d2.
Proof.
  unfold has_shape. rewrite andb_true_iff, Nat.eqb_eq, forallb_forall.
  intros [H0 H]. split; [done|]. intros plane Hp.
  apply list_elem_of_In, H in Hp.
  rewrite andb_true_iff, Nat.eqb_eq, forallb_forall in Hp.
  destruct Hp as [H1 H2]. split; [done|]. intros row Hr.
  apply list_elem_of_In, H2 in Hr. by apply Nat.eqb_eq.
Qed.

(** Within the shape every cell reads. *)
Lemma get3_in_shape (d0 d1 d2 : nat) (a : Numpy.array3) (x y z : Z) :
  has_shape d0 d1 d2 a = true ->
  0 <= x < Z.of_nat d0 -> 0 <= y < Z.of_nat d1 -> 0 <= z < Z.of_nat d2 ->
  exists v, Numpy.get3 a x y z = Ok v.
Proof.
  intros Hs Hx Hy Hz. apply has_shape_inv in Hs as [H0 H].
  destruct (index_in_range a x) as (plane & Hp & Hpl); [lia|].
  destruct (H plane) as [H1 H2]; [by eapply list_elem_of_lookup_2|].
  destruct (index_in_range plane y) as (row & Hr & Hrl); [lia|].
  destruct (index_in_range row z) as (v & Hv & _).
  { rewrite (H2 row); [lia|by eapply list_elem_of_lookup_2]. }
  exists v. unfold Numpy.get3. rewrite Hp. simpl. rewrite Hr. simpl. done.
Qed.

(** One past the end of the last axis raises. *)
Lemma get3_past_top (d0 d1 d2 : nat) (a : Numpy.array3) (x y z : Z) :
  has_shape d0 d1 d2 a = true ->
  0 <= x < Z.of_nat d0 -> 0 <= y < Z.of_nat d1 -> Z.of_nat d2 <= z ->
  Numpy.get3 a x y z = Raise IndexError.
Proof.
  intros Hs Hx Hy Hz. apply has_shape_inv in Hs as [H0 H].
  destruct (index_in_range a x) as (plane & Hp & Hpl); [lia|].
  destruct (H plane) as [H1 H2]; [by eapply list_elem_of_lookup_2|].
  destruct (index_in_range plane y) as (row & Hr & Hrl); [lia|].
  unfold Numpy.get3. rewrite Hp. simpl. rewrite Hr. simpl.
  apply index_past_end. rewrite (H2 row); [lia|by eapply list_elem_of_lookup_2].
Qed.

(** ** The loops visit every voxel at its projected position *)

Lemma loop_z_fold (cave : bool) (b : Numpy.array3) (x y imgx : Z) (k : nat) :
  forall (z0 imgy : Z) (img : canvas),
    loop_z cave b x y imgx (seqZ z0 (Z.of_nat k)) imgy img =
    rd_fold (fun z i => render_block cave b x y z imgx (imgy - (z - z0) * 12) i)
            (seqZ z0 (Z.of_nat k)) img.
Proof.
  induction k as [|k IH]; intros z0 imgy img; [done|].
  rewrite seqZ_cons by lia.
  replace (Z.pred (Z.of_nat (S k))) with (Z.of_nat k) by lia.
  cbn [loop_z rd_fold].
  replace (imgy - (z0 - z0) * 12) with imgy by lia.
  apply rd_bind_ext. intros img'. rewrite IH.
  apply rd_fold_ext. intros z i. f_equal. lia.
Qed.

Lemma rd_fold_bind_singleton {A B C : Type} (f : C -> A -> Rd A) (g : B -> C)
    (l : list B) (a : A) :
  rd_fold f (l ≫= fun z => [g z]) a = rd_fold (fun z => f (g z)) l a.
Proof.
  revert a. induction l as [|z l IH]; intros a; [done|].
  cbn. apply rd_bind_ext. intros a'. apply IH.
Qed.

Lemma loop_y_fold (cave : bool) (b : Numpy.array3) (xoff yoff x : Z)
    (ys : list Z) (img : canvas) :
  loop_y cave b xoff yoff x ys img =
  rd_fold (render_at cave b xoff yoff)
          (ys ≫= fun y => range 128 ≫= fun z => [(x, y, z)]) img.
Proof.
  revert img. induction ys as [|y ys IH]; intros img; [done|].
  cbn [loop_y mbind list_bind]. rewrite rd_fold_app.
  rewrite rd_fold_bind_singleton.
  unfold range at 1. rewrite (loop_z_fold cave b x y _ 128 0).
  erewrite (rd_fold_ext _ (fun z => render_at cave b xoff yoff (x, y, z))).
  - apply rd_bind_ext. intros img'. apply IH.
  - intros z i. unfold render_at, projector. cbn [fst snd]. f_equal. lia.
Qed.

Lemma loop_x_fold (cave : bool) (b : Numpy.array3) (xoff yoff : Z)
    (xs : list Z) (img : canvas) :
  loop_x cave b xoff yoff xs img =
  rd_fold (render_at cave b xoff yoff)
    (xs ≫= fun x => range 16 ≫= fun y => range 128 ≫= fun z => [(x, y, z)])
    img.
Proof.
  revert img. induction xs as [|x xs IH]; intros img; [done|].
  cbn [loop_x mbind list_bind]. rewrite rd_fold_app, loop_y_fold.
  apply rd_bind_ext. intros img'. apply IH.
Qed.

Lemma draw_edges_lines (b : Numpy.array3) (x y z imgx imgy : Z)
    (img img' : canvas) :
  snd (draw_edges b x y z imgx imgy img) = Ok img' ->
  exists edges, img' = img ++ edges /\ forallb is_line edges = true.
Proof.
  unfold draw_edges, air_at, read, rd_bind, rd_ret.
  intros H.
  repeat match type of H with
         | context [if ?c then _ else _] => destruct c; cbn in H
         | context [match ?r with Ok _ => _ | Raise _ => _ end] =>
             destruct r; cbn in H
         end;
    try discriminate; injection H as <-.
  all: try (eexists []; by rewrite app_nil_r).
  all: try (rewrite <- app_assoc; eexists; split; [done|done]).
  all: eexists; split; [done|done].
Qed.

Lemma snd_rd_bind {A B : Type} (m : Rd A) (f : A -> Rd B) :
  snd (rd_bind m f) = res_bind (snd m) (fun a => snd (f a)).
Proof.
  destruct m as [l [a|e]]; simpl; [|done]. by destruct (f a).
Qed.

Lemma render_block_result (cave : bool) (b : Numpy.array3)
    (x y z imgx imgy : Z) (img img' : canvas) :
  snd (render_block cave b x y z imgx imgy img) = Ok img' ->
  img' = img \/
  exists pic mask edges,
    img' = img ++ Paste pic (imgx, imgy) mask :: edges /\
    forallb is_line edges = true.
Proof.
  unfold render_block. rewrite snd_rd_bind. cbn [read snd].
  destruct (Numpy.get3 b x y z) as [blockid|e]; [|done]. cbn [res_bind].
  destruct (blockmap blockid) as [t|]; [|intros [= <-]; by left].
  rewrite snd_rd_bind.
  destruct (snd (occluded cave b x y z)) as [[|]|e]; cbn [res_bind];
    [intros [= <-]; by left| |done].
  rewrite snd_rd_bind.
  set (pic := snd _). destruct pic as [pic|e]; [|done]. cbn [res_bind].
  intros H. right. exists pic, (snd t).
  destruct (transparent blockid).
  - injection H as <-. exists []. done.
  - apply draw_edges_lines in H as (edges & -> & He).
    exists edges. by rewrite <- app_assoc.
Qed.

(** C3. Every voxel the loops reach is handled at the projected position
    [imgx = xoff + x*12 + y*12], [imgy = yoff - x*6 + y*6 + 128*12 +
    16*12/2 - z*12]: the three loops, which step [imgy] down by 12 after
    every block whether it was drawn or not, equal one pass over the
    voxels in traversal order with the position computed by [projector];
    a block that is drawn gets exactly one paste, at the position handed
    to it; the projection is affine, and one step up in [z] moves it by
    12 pixels vertically and not horizontally. *)
Theorem sprite_pasted_at_projection :
  (forall cave b xoff yoff img,
      render_loops cave b xoff yoff img =
      rd_fold (render_at cave b xoff yoff) traversal img) /\
  (forall cave b xoff yoff x y z img img',
      snd (render_at cave b xoff yoff (x, y, z) img) = Ok img' ->
      img' = img \/
      exists pic mask edges,
        img' = img ++ Paste pic (xoff + x * 12 + y * 12,
                                 yoff - x * 6 + y * 6 + 128 * 12
                                 + 16 * 12 / 2 - z * 12) mask :: edges /\
        forallb is_line edges = true) /\
  (forall xoff yoff x y z,
      projector xoff yoff x y z =
      (xoff + 12 * x + 12 * y, yoff + 1632 - 6 * x + 6 * y - 12 * z)) /\
  (forall xoff yoff x y z,
      projector xoff yoff x y (z + 1) =
      (fst (projector xoff yoff x y z), snd (projector xoff yoff x y z) - 12)).
Proof.
  split; [|split; [|split]].
  - intros. apply loop_x_fold.
  - intros cave b xoff yoff x y z img img' H.
    apply render_block_result in H. exact H.
  - intros. unfold projector. f_equal; [lia|].
    change (16 * 12 / 2) with 96. lia.
  - intros. unfold projector. cbn [fst snd]. f_equal. lia.
Qed.

(** ** The occlusion test *)

Lemma snd_not_transparent_at (b : Numpy.array3) (x y z : Z) (v : Z) :
  Numpy.get3 b x y z = Ok v ->
  snd (not_transparent_at b x y z) = Ok (opaque_at b x y z).
Proof.
  intros H. unfold not_transparent_at, opaque_at.
  rewrite snd_rd_bind. cbn [read snd]. by rewrite H.
Qed.

Lemma snd_rd_and (m1 m2 : Rd bool) (v1 v2 : bool) :
  snd m1 = Ok v1 -> snd m2 = Ok v2 -> snd (rd_and m1 m2) = Ok (v1 && v2).
Proof.
  intros H1 H2. unfold rd_and. rewrite snd_rd_bind, H1. cbn [res_bind].
  by destruct v1.
Qed.

Lemma occluded_normal (b : Numpy.array3) (x y z : Z) :
  has_shape 16 16 128 b = true -> in_grid (x, y, z) ->
  snd (occluded false b x y z) =
  Ok (negb (x =? 0) && negb (y =? 15) && negb (z =? 127) &&
      (opaque_at b (x - 1) y z &&
       (opaque_at b x (y + 1) z && opaque_at b x y (z + 1)))).
Proof.
  intros Hs (Hx & Hy & Hz). unfold occluded. cbn [andb].
  destruct (Z.eqb_spec x 0), (Z.eqb_spec y 15), (Z.eqb_spec z 127);
    cbn [negb andb]; try done.
  destruct (get3_in_shape 16 16 128 b (x - 1) y z) as [v1 H1]; [done|lia..|].
  destruct (get3_in_shape 16 16 128 b x (y + 1) z) as [v2 H2]; [done|lia..|].
  destruct (get3_in_shape 16 16 128 b x y (z + 1)) as [v3 H3]; [done|lia..|].
  apply snd_rd_and; [by eapply snd_not_transparent_at|].
  apply snd_rd_and; by eapply snd_not_transparent_at.
Qed.

Lemma draw_edges_in_shape (b : Numpy.array3) (x y z imgx imgy : Z)
    (img : canvas) :
  has_shape 16 16 128 b = true -> in_grid (x, y, z) ->
  exists edges,
    snd (draw_edges b x y z imgx imgy img) = Ok (img ++ edges) /\
    forallb is_line edges = true.
Proof.
  intros Hs (Hx & Hy & Hz).
  assert (exists e1, snd (air_at (negb (x =? 15)) b (x + 1) y z) = Ok e1)
    as [e1 H1].
  { unfold air_at. destruct (Z.eqb_spec x 15); cbn [negb]; [by eexists|].
    destruct (get3_in_shape 16 16 128 b (x + 1) y z) as [v Hv]; [done|lia..|].
    rewrite snd_rd_bind. cbn [read snd]. rewrite Hv. by eexists. }
  assert (exists e2, snd (air_at (negb (y =? 0)) b x (y - 1) z) = Ok e2)
    as [e2 H2].
  { unfold air_at. destruct (Z.eqb_spec y 0); cbn [negb]; [by eexists|].
    destruct (get3_in_shape 16 16 128 b x (y - 1) z) as [v Hv]; [done|lia..|].
    rewrite snd_rd_bind. cbn [read snd]. rewrite Hv. by eexists. }
  unfold draw_edges. rewrite snd_rd_bind, H1. cbn [res_bind].
  rewrite snd_rd_bind, H2. cbn [res_bind rd_ret snd].
  destruct e1, e2.
  - eexists [_; _]. by rewrite <- app_assoc.
  - by eexists [_].
  - by eexists [_].
  - exists []. by rewrite app_nil_r.
Qed.

Lemma app_cons_neq {A : Type} (l l' : list A) (a : A) : l <> l ++ a :: l'.
Proof.
  intros H. apply (f_equal length) in H. rewrite length_app in H.
  cbn in H. lia.
Qed.

Lemma render_block_normal (b : Numpy.array3) (x y z imgx imgy : Z)
    (img : canvas) (id : Z) (t : image * image) :
  has_shape 16 16 128 b = true -> in_grid (x, y, z) ->
  Numpy.get3 b x y z = Ok id -> blockmap id = Some t ->
  exists edges,
    forallb is_line edges = true /\
    snd (render_block false b x y z imgx imgy img) =
    if negb (x =? 0) && negb (y =? 15) && negb (z =? 127) &&
       (opaque_at b (x - 1) y z &&
        (opaque_at b x (y + 1) z && opaque_at b x y (z + 1)))
    then Ok img
    else Ok (img ++ Paste (Plain (fst t)) (imgx, imgy) (snd t) :: edges).
Proof.
  intros Hs Hg Hid Ht.
  destruct (draw_edges_in_shape b x y z imgx imgy
              (img ++ [Paste (Plain (fst t)) (imgx, imgy) (snd t)]) Hs Hg)
    as (edges & He & Hl).
  exists (if transparent id then [] else edges). split; [by destruct (transparent id)|].
  unfold render_block. rewrite snd_rd_bind. cbn [read snd]. rewrite Hid.
  cbn [res_bind]. rewrite Ht, snd_rd_bind, (occluded_normal b x y z Hs Hg).
  cbn [res_bind]. destruct (_ && _); [done|].
  rewrite rd_bind_ret_l. destruct (transparent id); [done|].
  rewrite He. by rewrite <- app_assoc.
Qed.

Lemma index_replicate {A : Type} (n : nat) (a : A) (i : Z) :
  0 <= i < Z.of_nat n -> Numpy.index (replicate n a) i = Ok a.
Proof.
  intros Hi. apply index_lookup; [lia|]. apply lookup_replicate_2. lia.
Qed.

Lemma get3_filled (v x y z : Z) :
  in_grid (x, y, z) -> Numpy.get3 (filled v) x y z = Ok v.
Proof.
  intros (Hx & Hy & Hz). unfold Numpy.get3, filled.
  rewrite index_replicate by lia. cbn [res_bind].
  rewrite index_replicate by lia. cbn [res_bind].
  apply index_replicate. lia.
Qed.

Lemma has_shape_filled (v : Z) : has_shape 16 16 128 (filled v) = true.
Proof. vm_compute. reflexivity. Qed.

(** C2. Normal mode, a voxel of the grid that has a sprite: it is drawn
    exactly when it is not the case that [x <> 0], [y <> 15], [z <> 127]
    and the cells at [(x-1,y,z)], [(x,y+1,z)] and [(x,y,z+1)] all hold
    blocks outside [transparent_blocks]; otherwise it is skipped.  In a
    grid holding one such block everywhere, the voxels drawn are those
    with [x = 0] or [y = 15] or [z = 127], all others are skipped. *)
Theorem normal_mode_draws_unless_enclosed (b : Numpy.array3)
    (x y z imgx imgy : Z) (img : canvas) (id : Z) (t : image * image) :
  has_shape 16 16 128 b = true -> in_grid (x, y, z) ->
  Numpy.get3 b x y z = Ok id -> blockmap id = Some t ->
  let r := render_block false b x y z imgx imgy img in
  let enclosed :=
    x <> 0 /\ y <> 15 /\ z <> 127 /\
    opaque_at b (x - 1) y z = true /\
    opaque_at b x (y + 1) z = true /\
    opaque_at b x y (z + 1) = true in
  (drawn_by r img <-> ~ enclosed) /\
  (skipped_by r img <-> enclosed) /\
  (b = filled id -> transparent id = false ->
   (drawn_by r img <-> x = 0 \/ y = 15 \/ z = 127) /\
   (skipped_by r img <-> x <> 0 /\ y <> 15 /\ z <> 127)).
Proof.
  intros Hs Hg Hid Ht r enclosed.
  destruct (render_block_normal b x y z imgx imgy img id t Hs Hg Hid Ht)
    as (edges & Hl & Hr). fold r in Hr.
  set (h := _ && _) in Hr.
  assert (h = true <-> enclosed) as Hh.
  { unfold h, enclosed. rewrite !andb_true_iff, !negb_true_iff.
    rewrite !Z.eqb_neq. tauto. }
  assert (drawn_by r img <-> h = false) as Hd.
  { unfold drawn_by. rewrite Hr. destruct h; split.
    - intros (? & ? & ? & ? & [= H] & _). by apply app_cons_neq in H.
    - done.
    - done.
    - intros _. by repeat eexists. }
  assert (skipped_by r img <-> h = true) as Hsk.
  { unfold skipped_by. rewrite Hr. destruct h; split; try done.
    intros [= H]. symmetry in H. by apply app_cons_neq in H. }
  split; [|split].
  - rewrite Hd, <- Hh. by destruct h.
  - by rewrite Hsk.
  - intros -> Hop.
    assert (enclosed <-> x <> 0 /\ y <> 15 /\ z <> 127) as He.
    { unfold enclosed, opaque_at. destruct Hg as (Hx & Hy & Hz). split.
      - tauto.
      - intros (? & ? & ?).
        rewrite !get3_filled, Hop by (cbn; lia). done. }
    split.
    + rewrite Hd. destruct h.
      * split; [done|]. intros Hb. assert (enclosed) as He' by tauto.
        apply He in He'. lia.
      * split; [intros _|done].
        destruct (decide (x = 0)); [tauto|].
        destruct (decide (y = 15)); [tauto|].
        destruct (decide (z = 127)); [tauto|].
        assert (false = true) by (apply Hh, He; done). done.
    + by rewrite Hsk, Hh.
Qed.

(** ** Which cells the per-voxel code reads *)

Lemma reads_bind {A B : Type} (P : idx -> Prop) (m : Rd A) (f : A -> Rd B) :
  Forall P (fst m) -> (forall a, Forall P (fst (f a))) ->
  Forall P (fst (rd_bind m f)).
Proof.
  intros Hm Hf. destruct m as [l [a|e]]; cbn in *; [|done].
  specialize (Hf a). destruct (f a) as [l' r]. cbn in *.
  by apply Forall_app.
Qed.

Lemma reads_not_transparent_at (P : idx -> Prop) (b : Numpy.array3) (x y z : Z) :
  P (x, y, z) -> Forall P (fst (not_transparent_at b x y z)).
Proof.
  intros H. apply reads_bind; [by constructor|]. intros a. constructor.
Qed.

Lemma reads_rd_and (P : idx -> Prop) (m1 m2 : Rd bool) :
  Forall P (fst m1) -> Forall P (fst m2) -> Forall P (fst (rd_and m1 m2)).
Proof.
  intros H1 H2. apply reads_bind; [done|]. intros [|]; [done|constructor].
Qed.

Lemma reads_air_at (P : idx -> Prop) (g : bool) (b : Numpy.array3) (x y z : Z) :
  (g = true -> P (x, y, z)) -> Forall P (fst (air_at g b x y z)).
Proof.
  intros H. destruct g; [|constructor].
  apply reads_bind; [constructor; auto|]. intros a. constructor.
Qed.

(** Away from the top of the facing edge in cave mode, the occlusion test
    stays inside the grid. *)
Lemma occluded_reads_in_grid (cave : bool) (b : Numpy.array3) (x y z : Z) :
  in_grid (x, y, z) ->
  cave = false \/ (x, y, z) <> (0, 15, 127) ->
  Forall in_grid (fst (occluded cave b x y z)).
Proof.
  intros (Hx & Hy & Hz) Hc. unfold occluded.
  destruct (Z.eqb_spec x 0), (Z.eqb_spec y 15), (Z.eqb_spec z 127);
    destruct cave; cbn [negb andb];
    repeat first
      [ apply reads_rd_and
      | apply reads_not_transparent_at; cbn; lia
      | by constructor ].
  subst. destruct Hc as [|Hc]; [done|]. by destruct Hc.
Qed.

Lemma render_block_reads_in_grid (cave : bool) (b : Numpy.array3)
    (x y z imgx imgy : Z) (img : canvas) :
  in_grid (x, y, z) ->
  cave = false \/ (x, y, z) <> (0, 15, 127) ->
  Forall in_grid (fst (render_block cave b x y z imgx imgy img)).
Proof.
  intros Hg Hc. pose proof Hg as (Hx & Hy & Hz). unfold render_block.
  apply reads_bind; [by constructor|]. intros blockid.
  destruct (blockmap blockid) as [t|]; [|constructor].
  apply reads_bind; [by apply occluded_reads_in_grid|]. intros [|]; [constructor|].
  apply reads_bind.
  { destruct cave; [|constructor]. apply reads_bind; [constructor|].
    intros a. constructor. }
  intros pic. destruct (transparent blockid); [constructor|].
  unfold draw_edges. apply reads_bind.
  { apply reads_air_at. rewrite negb_true_iff, Z.eqb_neq. cbn. lia. }
  intros e1. apply reads_bind; [|intros e2; constructor].
  apply reads_air_at. rewrite negb_true_iff, Z.eqb_neq. cbn. lia.
Qed.

(** Everywhere in the grid, in both modes, the only index handed to
    [blocks] that lies outside the grid is [(0,15,128)], and in cave mode
    alone. *)
Definition in_grid_or_above_edge (cave : bool) (v : idx) : Prop :=
  in_grid v \/ (cave = true /\ v = (0, 15, 128)).

Lemma render_block_reads (cave : bool) (b : Numpy.array3)
    (x y z imgx imgy : Z) (img : canvas) :
  in_grid (x, y, z) ->
  Forall (in_grid_or_above_edge cave)
    (fst (render_block cave b x y z imgx imgy img)).
Proof.
  intros Hg.
  destruct (decide (cave = false \/ (x, y, z) <> (0, 15, 127))) as [Hc|Hc].
  { eapply Forall_impl; [by apply render_block_reads_in_grid|].
    intros v Hv. by left. }
  assert (cave = true /\ (x, y, z) = (0, 15, 127)) as [-> [= -> -> ->]].
  { destruct cave; [|tauto]. split; [done|].
    destruct (decide ((x, y, z) = (0, 15, 127))); [done|tauto]. }
  unfold render_block.
  apply reads_bind; [constructor; [by left|constructor]|]. intros blockid.
  destruct (blockmap blockid) as [t|]; [|constructor].
  apply reads_bind.
  { unfold occluded. cbn [Z.eqb negb andb Pos.eqb].
    apply reads_not_transparent_at. by right. }
  intros [|]; [constructor|].
  apply reads_bind.
  { apply reads_bind; [constructor|]. intros a. constructor. }
  intros pic. destruct (transparent blockid); [constructor|].
  unfold draw_edges. apply reads_bind.
  { apply reads_air_at. intros _. left. cbn. lia. }
  intros e1. apply reads_bind; [|intros e2; constructor].
  apply reads_air_at. intros _. left. cbn. lia.
Qed.

Lemma reads_rd_fold {A B : Type} (P : idx -> Prop) (Q : B -> Prop)
    (f : B -> A -> Rd A) (l : list B) (a : A) :
  Forall Q l -> (forall b a', Q b -> Forall P (fst (f b a'))) ->
  Forall P (fst (rd_fold f l a)).
Proof.
  intros Hl Hf. revert a. induction Hl as [|b l Hb Hl IH]; intros a.
  - constructor.
  - cbn [rd_fold]. apply reads_bind; [by apply Hf|]. intros a'. apply IH.
Qed.

Lemma traversal_in_grid : Forall in_grid traversal.
Proof.
  apply Forall_forall. intros [[x y] z] H. unfold traversal in H.
  apply list_elem_of_bind in H as (x' & H & Hx).
  apply list_elem_of_bind in H as (y' & H & Hy).
  apply list_elem_of_bind in H as (z' & H & Hz).
  apply list_elem_of_singleton in H as [= -> -> ->].
  unfold xrange_down in Hx. rewrite elem_of_reverse in Hx.
  unfold range in *. apply elem_of_seqZ in Hx, Hy, Hz. cbn. lia.
Qed.

(** The reads of a whole render. *)
Lemma render_loops_reads (cave : bool) (b : Numpy.array3) (xoff yoff : Z)
    (img : canvas) :
  Forall (in_grid_or_above_edge cave)
    (fst (render_loops cave b xoff yoff img)).
Proof.
  unfold render_loops. rewrite loop_x_fold.
  apply (reads_rd_fold _ in_grid); [apply traversal_in_grid|].
  intros [[x y] z] img' Hg. by apply render_block_reads.
Qed.

(** C1. In cave mode the voxel at the top of the facing edge,
    [(0,15,127)], when its block has a sprite, takes the third branch of
    the occlusion test, which reads [blocks[0,15,128]]: the index is
    outside the last axis and the read raises [IndexError]. *)
Theorem cave_edge_top_reads_outside (b : Numpy.array3) (imgx imgy : Z)
    (img : canvas) (id : Z) (t : image * image) :
  has_shape 16 16 128 b = true ->
  Numpy.get3 b 0 15 127 = Ok id -> blockmap id = Some t ->
  render_block true b 0 15 127 imgx imgy img =
  ([(0, 15, 127); (0, 15, 128)], Raise IndexError) /\
  ~ in_grid (0, 15, 128).
Proof.
  intros Hs Hid Ht. split; [|cbn; lia].
  unfold render_block, read. cbn [rd_bind]. rewrite Hid, Ht.
  unfold occluded. cbn [Z.eqb negb andb Pos.eqb].
  unfold not_transparent_at, read. cbn [rd_bind].
  change (127 + 1) with 128.
  rewrite (get3_past_top 16 16 128 b 0 15 128 Hs) by lia. done.
Qed.

(** ** The expanded skylight and the cave grid *)

Lemma even_succ_div2 (k : nat) :
  Nat.even k = true -> (S k / 2 = k / 2)%nat.
Proof.
  intros H. apply Nat.even_spec in H as [m ->].
  replace (S (2 * m)) with (1 + m * 2)%nat by lia.
  rewrite Nat.div_add by lia.
  replace (2 * m)%nat with (m * 2)%nat by lia.
  by rewrite Nat.div_mul by lia.
Qed.

Lemma odd_succ_div2 (k : nat) :
  Nat.even k = false -> (S k / 2 = S (k / 2))%nat.
Proof.
  intros H. rewrite <- Nat.negb_odd in H.
  apply negb_false_iff, Nat.odd_spec in H as [m ->].
  replace (S (2 * m + 1)) with ((m + 1) * 2)%nat by lia.
  rewrite Nat.div_mul by lia.
  replace (2 * m + 1)%nat with (1 + m * 2)%nat by lia.
  rewrite Nat.div_add by lia. simpl. lia.
Qed.

Lemma even_to_nat (z : Z) : 0 <= z -> Nat.even (Z.to_nat z) = Z.even z.
Proof.
  intros Hz. destruct (Z.even z) eqn:E.
  - apply Z.even_spec in E as [m ->]. apply Nat.even_spec.
    exists (Z.to_nat m). lia.
  - rewrite <- Z.negb_odd in E.
    apply negb_false_iff, Z.odd_spec in E as [m ->].
    rewrite <- Nat.negb_odd. apply negb_false_iff, Nat.odd_spec.
    exists (Z.to_nat m). lia.
Qed.

(** A cell of a row after [row[start::2] = v]. *)
Lemma lookup_assign_stride2 (row : list Z) :
  forall (here : bool) (v : list Z) (k : nat),
    Numpy.assign_stride2 here row v !! k =
    r ← row !! k;
    Some (if Bool.eqb (Nat.even k) here
          then default r (v !! (k / 2)%nat) else r).
Proof.
  induction row as [|r row IH]; intros here v k; [done|].
  destruct k as [|k].
  - destruct here; [destruct v|]; done.
  - cbn [Numpy.assign_stride2]. destruct here.
    + destruct v as [|x v].
      * cbn. destruct (row !! k); cbn; [|done]. by destruct (Bool.eqb _ _).
      * cbn [lookup list_lookup]. rewrite IH.
        destruct (row !! k) as [r'|]; cbn [mbind option_bind]; [|done].
        rewrite Nat.even_succ, <- Nat.negb_even.
        destruct (Nat.even k) eqn:E; cbn [negb Bool.eqb]; [done|].
        by rewrite (odd_succ_div2 k E).
    + cbn [lookup list_lookup]. rewrite IH.
      destruct (row !! k) as [r'|]; cbn [mbind option_bind]; [|done].
      rewrite Nat.even_succ, <- Nat.negb_even.
      destruct (Nat.even k) eqn:E; cbn [negb Bool.eqb]; [|done].
      by rewrite (even_succ_div2 k E).
Qed.

(** Both assignments together fill every cell of a row of 2n cells from
    the n packed bytes, whatever the row held. *)
Lemma lookup_expanded_row (g r : list Z) (k : nat) (byte : Z) :
  (k < length g)%nat -> r !! (k / 2)%nat = Some byte ->
  Numpy.assign_stride2 false
    (Numpy.assign_stride2 true g ((fun v => Z.land v 15) <$> r))
    ((fun v => Z.shiftr v 4) <$> r) !! k =
  Some (if Nat.even k then Z.land byte 15 else Z.shiftr byte 4).
Proof.
  intros Hk Hb. rewrite !lookup_assign_stride2.
  destruct (lookup_lt_is_Some_2 g k Hk) as [g0 ->]. cbn [mbind option_bind].
  rewrite !list_lookup_fmap, Hb. cbn.
  by destruct (Nat.even k).
Qed.

Lemma has_shape_lookup (d0 d1 d2 : nat) (a : Numpy.array3) (i j k : nat) :
  has_shape d0 d1 d2 a = true ->
  (i < d0)%nat -> (j < d1)%nat -> (k < d2)%nat ->
  exists plane row v,
    a !! i = Some plane /\ plane !! j = Some row /\ row !! k = Some v /\
    length row = d2.
Proof.
  intros Hs Hi Hj Hk. apply has_shape_inv in Hs as [H0 H].
  destruct (lookup_lt_is_Some_2 a i) as [plane Hp]; [lia|].
  destruct (H plane) as [H1 H2]; [by eapply list_elem_of_lookup_2|].
  destruct (lookup_lt_is_Some_2 plane j) as [row Hr]; [lia|].
  assert (length row = d2) as Hl by (apply H2; by eapply list_elem_of_lookup_2).
  destruct (lookup_lt_is_Some_2 row k) as [v Hv]; [lia|].
  by exists plane, row, v.
Qed.

Lemma get3_lookup (a : Numpy.array3) (x y z : Z) (plane : list (list Z))
    (row : list Z) (v : Z) :
  0 <= x -> 0 <= y -> 0 <= z ->
  a !! Z.to_nat x = Some plane -> plane !! Z.to_nat y = Some row ->
  row !! Z.to_nat z = Some v ->
  Numpy.get3 a x y z = Ok v.
Proof.
  intros Hx Hy Hz Hp Hr Hv. unfold Numpy.get3.
  rewrite (index_lookup a x plane Hx Hp). cbn [res_bind].
  rewrite (index_lookup plane y row Hy Hr). cbn [res_bind].
  by apply index_lookup.
Qed.

Lemma has_shape_numpy_empty : has_shape 16 16 128 numpy_empty = true.
Proof. vm_compute. reflexivity. Qed.

(** Every cell of [skylight_expanded] is the nibble of its packed byte;
    nothing of what [numpy.empty] held is left. *)
Lemma lookup_skylight_expanded (s : Numpy.array3) (i j k : nat) :
  has_shape 16 16 64 s = true ->
  (i < 16)%nat -> (j < 16)%nat -> (k < 128)%nat ->
  exists sp srow byte ep erow,
    s !! i = Some sp /\ sp !! j = Some srow /\
    srow !! (k / 2)%nat = Some byte /\
    skylight_expanded s !! i = Some ep /\ ep !! j = Some erow /\
    erow !! k = Some (if Nat.even k then Z.land byte 15 else Z.shiftr byte 4).
Proof.
  intros Hs Hi Hj Hk.
  assert (k / 2 < 64)%nat as Hk2 by (apply Nat.Div0.div_lt_upper_bound; lia).
  destruct (has_shape_lookup 16 16 64 s i j (k / 2) Hs Hi Hj Hk2)
    as (sp & srow & byte & Hsp & Hsr & Hb & _).
  destruct (has_shape_lookup 16 16 128 numpy_empty i j k
              has_shape_numpy_empty Hi Hj Hk)
    as (gp & grow & g0 & Hgp & Hgr & _ & Hgl).
  exists sp, srow, byte.
  exists (zip_with (Numpy.assign_stride2 false)
            (zip_with (Numpy.assign_stride2 true) gp
               (fmap (M:=list) (fmap (M:=list) (fun v => Z.land v 15)) sp))
            (fmap (M:=list) (fmap (M:=list) (fun v => Z.shiftr v 4)) sp)).
  exists (Numpy.assign_stride2 false
            (Numpy.assign_stride2 true grow ((fun v => Z.land v 15) <$> srow))
            ((fun v => Z.shiftr v 4) <$> srow)).
  repeat split; try done.
  - unfold skylight_expanded, Numpy.assign_odd3, Numpy.assign_even3, Numpy.map3.
    by rewrite !lookup_zip_with, !list_lookup_fmap, Hgp, Hsp.
  - by rewrite !lookup_zip_with, !list_lookup_fmap, Hgr, Hsr.
  - apply lookup_expanded_row; [lia|done].
Qed.

Lemma get3_cave_grid (b s : Numpy.array3) (x y z : Z) :
  has_shape 16 16 128 b = true -> has_shape 16 16 64 s = true ->
  in_grid (x, y, z) ->
  exists v byte,
    Numpy.get3 b x y z = Ok v /\
    Numpy.get3 s x y (z / 2) = Ok byte /\
    Numpy.get3 (skylight_expanded s) x y z = Ok (skylight_nibble byte z) /\
    Numpy.get3 (cave_grid b s) x y z =
    Ok (if skylight_nibble byte z =? 0 then v else hidden_id).
Proof.
  intros Hb Hs (Hx & Hy & Hz).
  destruct (has_shape_lookup 16 16 128 b (Z.to_nat x) (Z.to_nat y)
              (Z.to_nat z) Hb) as (bp & brow & v & Hbp & Hbr & Hv & _);
    [lia..|].
  destruct (lookup_skylight_expanded s (Z.to_nat x) (Z.to_nat y)
              (Z.to_nat z) Hs)
    as (sp & srow & byte & ep & erow & Hsp & Hsr & Hby & Hep & Her & He);
    [lia..|].
  rewrite even_to_nat in He by lia. fold (skylight_nibble byte z) in He.
  exists v, byte. repeat split.
  - apply (get3_lookup b x y z bp brow v); (lia || done).
  - apply (get3_lookup s x y (z / 2) sp srow byte); try (lia || done).
    + apply Z.div_pos; lia.
    + by rewrite Z2Nat.inj_div by lia.
  - apply (get3_lookup _ x y z ep erow); (lia || done).
  - eapply (get3_lookup _ x y z); [lia..| | |].
    + unfold cave_grid, Numpy.assign_mask3, Numpy.zip3, Numpy.nonzero3, Numpy.map3.
      by rewrite lookup_zip_with, list_lookup_fmap, Hbp, Hep.
    + by rewrite lookup_zip_with, list_lookup_fmap, Hbr, Her.
    + rewrite lookup_zip_with, list_lookup_fmap, Hv, He. cbn.
      by destruct (skylight_nibble byte z =? 0).
Qed.

(** ** Frames of the methods *)

Lemma frame_refl (st : state) : frame st st.
Proof. by repeat split. Qed.

Lemma frame_trans (st1 st2 st3 : state) :
  frame st1 st2 -> frame st2 st3 -> frame st1 st3.
Proof.
  intros ([F1 E1] & H1 & C1 & L1 & B1) ([F2 E2] & H2 & C2 & L2 & B2).
  repeat split; [congruence|congruence|auto|congruence|auto|auto].
Qed.

Lemma frames_bind {A B : Type} (m : M A) (f : A -> M B) :
  frames m -> (forall a, frames (f a)) -> frames (bind m f).
Proof.
  intros Hm Hf st. unfold bind. specialize (Hm st).
  destruct (m st) as [[a|e] st1]; cbn in *; [|done].
  eapply frame_trans; [done|apply Hf].
Qed.

Lemma frames_ret {A : Type} (a : A) : frames (ret a).
Proof. intros st. apply frame_refl. Qed.

Lemma frames_lift {A : Type} (r : result A) : frames (lift r).
Proof. intros st. apply frame_refl. Qed.

Lemma frames_get_state : frames get_state.
Proof. intros st. apply frame_refl. Qed.

Lemma frames_deref (l : nat) : frames (deref l).
Proof.
  intros st. unfold deref. destruct (heap st !! l); apply frame_refl.
Qed.

Lemma frames_alloc (a : ndarray) : frames (alloc a).
Proof.
  intros st. repeat split; try done. cbn. intros l a' H.
  by apply lookup_app_l_Some.
Qed.

Lemma frames_load_level : frames _load_level.
Proof.
  intros st. unfold _load_level, bind, get_state, lift, set_self, ret.
  destruct (_level (self st)) eqn:E; [apply frame_refl|].
  destruct (get_lvldata _ _); [|apply frame_refl].
  repeat split; try done. cbn. congruence.
Qed.

Lemma frames_load_blocks : frames _load_blocks.
Proof.
  intros st. unfold _load_blocks. unfold bind at 1. cbn [get_state].
  destruct (_blocks (self st)) eqn:E; [apply frame_refl|].
  unfold bind. pose proof (frames_load_level st) as F1.
  destruct (_load_level st) as [[lv|e] st1]; cbn in *; [|done].
  unfold lift. destruct (get_blockarray lv) as [arr|e]; [|done].
  cbn. destruct F1 as ([F Ev] & H & C & L & B).
  split; [done|]. split; [|split; [done|split; [done|]]]; cbn.
  - intros l a Hl. by apply lookup_app_l_Some, H.
  - congruence.
Qed.

(** The copy and the masked assignment of cave mode: the array written is
    the one just made. *)
Lemma frames_copy_assign (l : nat) (mask : list (list (list bool))) (c : Z) :
  frames (let* l' := np_copy l in
          let* _ := np_assign_mask l' mask c in
          ret l').
Proof.
  intros st. unfold np_copy, deref, alloc, np_assign_mask, bind, ret.
  destruct (heap st !! l) as [a|] eqn:E; [|apply frame_refl].
  cbn. rewrite lookup_app_r by lia. rewrite Nat.sub_diag. cbn.
  repeat split; try done. cbn. intros l0 a0 H0.
  pose proof (lookup_lt_Some _ _ _ H0).
  rewrite list_lookup_insert_ne by lia. by apply lookup_app_l_Some.
Qed.

Lemma frames_draw_chunk (img : option canvas) (xoff yoff : Z) (cave : bool)
    (l : nat) :
  frames (draw_chunk img xoff yoff cave l).
Proof.
  unfold draw_chunk. apply frames_bind.
  - destruct cave; [|apply frames_ret]. unfold cave_mask.
    apply frames_bind; [apply frames_load_level|]. intros lv.
    apply frames_bind; [apply frames_lift|]. intros s.
    apply frames_copy_assign.
  - intros l'. apply frames_bind; [apply frames_deref|]. intros a.
    apply frames_lift.
Qed.

(** [chunk_render] records that it ran, and leaves the rest alone. *)
Lemma frame_chunk_render (img : option canvas) (xoff yoff : Z) (cave : bool)
    (st : state) :
  frame {| self := self st; fs := fs st; heap := heap st;
           events := events st ++ [Rendered cave] |}
        (snd (chunk_render img xoff yoff cave st)).
Proof.
  assert (frames (let* blocks := _load_blocks in
                  draw_chunk img xoff yoff cave blocks)) as H.
  { apply frames_bind; [apply frames_load_blocks|]. intros l.
    apply frames_draw_chunk. }
  apply H.
Qed.

Lemma blocks_loaded_frame (st st' : state) :
  frame st st' -> blocks_loaded st -> blocks_loaded st'.
Proof.
  intros (F & H & C & L & B) (lv & l & b & Hlv & Hl & Hb & Hh).
  exists lv, l, b. auto.
Qed.

Lemma load_level_eq (st : state) :
  _load_level st =
  match _level (self st) with
  | Some lv => (Ok lv, st)
  | None =>
      match get_lvldata (chunkfile (self st)) (fs st) with
      | Ok lv =>
          (Ok lv,
           {| self := {| chunkfile := chunkfile (self st); _level := Some lv;
                         _blocks := _blocks (self st) |};
              fs := fs st; heap := heap st; events := events st |})
      | Raise e => (Raise e, st)
      end
  end.
Proof.
  unfold _load_level, bind, get_state, lift, set_self, ret.
  destruct (_level (self st)); [done|]. by destruct (get_lvldata _ _).
Qed.

Lemma load_blocks_eq (st : state) :
  _load_blocks st =
  match _blocks (self st) with
  | Some l => (Ok l, st)
  | None =>
      match _load_level st with
      | (Ok lv, st1) =>
          match get_blockarray lv with
          | Ok arr =>
              (Ok (length (heap st1)),
               {| self := {| chunkfile := chunkfile (self st1);
                             _level := _level (self st1);
                             _blocks := Some (length (heap st1)) |};
                  fs := fs st1;
                  heap := heap st1 ++ [{| data := arr; writeable := false |}];
                  events := events st1 |})
          | Raise e => (Raise e, st1)
          end
      | (Raise e, st1) => (Raise e, st1)
      end
  end.
Proof.
  unfold _load_blocks. unfold bind at 1. cbn [get_state].
  destruct (_blocks (self st)); [done|]. unfold bind at 1.
  destruct (_load_level st) as [[lv|e] st1]; [|done].
  unfold bind, lift. by destruct (get_blockarray lv).
Qed.

(** After [self.blocks] the array is loaded, if it was before or was not
    there at all; when loading fails there is still none. *)
Lemma load_blocks_loaded (st : state) :
  _blocks (self st) = None \/ blocks_loaded st ->
  match _load_blocks st with
  | (Ok l, st1) => blocks_loaded st1 /\ _blocks (self st1) = Some l
  | (Raise _, st1) => _blocks (self st1) = None
  end.
Proof.
  intros Hpre. rewrite load_blocks_eq.
  destruct (_blocks (self st)) as [l0|] eqn:E.
  { destruct Hpre as [|Hpre]; [done|]. done. }
  rewrite load_level_eq.
  destruct (_level (self st)) as [lv|] eqn:El.
  - destruct (get_blockarray lv) as [b|e] eqn:Eb; [|done]. cbn.
    split; [|done]. exists lv, (length (heap st)), b. cbn.
    repeat split; try done.
    rewrite lookup_app_r by lia. by rewrite Nat.sub_diag.
  - destruct (get_lvldata _ _) as [lv|e]; [|done].
    destruct (get_blockarray lv) as [b|e] eqn:Eb; [|done]. cbn.
    split; [|done]. exists lv, (length (heap st)), b. cbn.
    repeat split; try done.
    rewrite lookup_app_r by lia. by rewrite Nat.sub_diag.
Qed.

Lemma chunk_render_eq (img : option canvas) (xoff yoff : Z) (cave : bool)
    (st : state) :
  chunk_render img xoff yoff cave st =
  match _load_blocks {| self := self st; fs := fs st; heap := heap st;
                        events := events st ++ [Rendered cave] |} with
  | (Ok l, st1) => draw_chunk img xoff yoff cave l st1
  | (Raise e, st1) => (Raise e, st1)
  end.
Proof. reflexivity. Qed.

(** C7. Cave mode writes to a copy: through [chunk_render(cave=True)],
    whether it returns or raises, every array object that existed before
    the call holds what it held, [self._blocks] still refers to the same
    object once set, the files are untouched, and the block array loaded
    from the chunk file is the read-only array [get_blockarray] made of
    the level, cell for cell. *)
Theorem cave_render_leaves_blocks_alone (st : state) (img : option canvas)
    (xoff yoff : Z) :
  let st' := snd (chunk_render img xoff yoff true st) in
  (forall l a, heap st !! l = Some a -> heap st' !! l = Some a) /\
  (forall l, _blocks (self st) = Some l -> _blocks (self st') = Some l) /\
  fs st' = fs st /\
  (_blocks (self st) = None \/ blocks_loaded st ->
   forall l, _blocks (self st') = Some l -> blocks_loaded st').
Proof.
  cbv zeta.
  pose proof (frame_chunk_render img xoff yoff true st)
    as ([F E] & H & C & L & B).
  repeat split; try done.
  intros Hpre l. rewrite chunk_render_eq.
  set (st0 := {| self := self st; fs := fs st; heap := heap st;
                 events := events st ++ [Rendered true] |}).
  assert (_blocks (self st0) = None \/ blocks_loaded st0) as Hpre0.
  { destruct Hpre as [|Hpre]; [by left|by right]. }
  apply load_blocks_loaded in Hpre0.
  destruct (_load_blocks st0) as [[l0|e] st1].
  - destruct Hpre0 as [Hld _]. intros _.
    eapply blocks_loaded_frame; [|exact Hld]. apply frames_draw_chunk.
  - cbn. congruence.
Qed.

Lemma load_level_current (st : state) (lv : level) :
  current_level st = Ok lv ->
  exists st1,
    _load_level st = (Ok lv, st1) /\ _level (self st1) = Some lv /\
    _blocks (self st1) = _blocks (self st) /\ heap st1 = heap st /\
    fs st1 = fs st /\ events st1 = events st /\
    chunkfile (self st1) = chunkfile (self st).
Proof.
  unfold current_level. rewrite load_level_eq.
  destruct (_level (self st)) eqn:E.
  - intros [= ->]. by exists st.
  - intros ->. by eexists.
Qed.

(** The grid the loops of cave mode run on. *)
Lemma chunk_render_cave_grid (st : state) (img : option canvas)
    (xoff yoff : Z) (lv : level) (b s : Numpy.array3) :
  current_level st = Ok lv -> _blocks (self st) = None ->
  get_blockarray lv = Ok b -> get_skylight_array lv = Ok s ->
  fst (chunk_render img xoff yoff true st) =
  snd (render_loops true (cave_grid b s) xoff yoff
         (match img with Some i => i | None => [] end)).
Proof.
  intros Hlv Hn Hb Hs. unfold cave_grid.
  rewrite chunk_render_eq, load_blocks_eq. cbn [self].
  rewrite Hn.
  set (st0 := {| self := self st; fs := fs st; heap := heap st;
                 events := events st ++ [Rendered true] |}).
  destruct (load_level_current st0 lv Hlv)
    as (st1 & -> & Hl1 & Hb1 & Hh1 & _). rewrite Hb.
  unfold draw_chunk, cave_mask. unfold bind at 1. unfold bind at 1.
  rewrite load_level_eq. cbn [self _level]. rewrite Hl1.
  unfold bind at 1. unfold lift at 1. rewrite Hs.
  generalize (Numpy.nonzero3 (skylight_expanded s)). intros mask.
  generalize (render_loops true). intros loops.
  unfold np_copy, deref, alloc, np_assign_mask, bind, ret, lift.
  cbn [heap self fs events].
  rewrite lookup_app_r by lia. rewrite Nat.sub_diag.
  cbn [lookup list_lookup data writeable heap self fs events].
  rewrite lookup_app_r by (rewrite length_app; cbn [length]; lia).
  rewrite length_app. cbn [length].
  replace (length (heap st1) + 1 - (length (heap st1) + 1))%nat with 0%nat by lia.
  cbn [lookup list_lookup data writeable heap self fs events].
  rewrite list_lookup_insert_eq by (rewrite !length_app; cbn [length]; lia).
  done.
Qed.

Lemma chunks_length {A : Type} (n k : nat) (l : list A) :
  length (Numpy.chunks n k l) = k.
Proof. revert l. induction k as [|k IH]; intros l; cbn; [done|]. by rewrite IH. Qed.

Lemma chunks_item_length {A : Type} (n k : nat) (l c : list A) :
  length l = (n * k)%nat -> c ∈ Numpy.chunks n k l -> length c = n.
Proof.
  revert l. induction k as [|k IH]; intros l Hl Hc; cbn in Hc.
  - by apply elem_of_nil in Hc.
  - apply elem_of_cons in Hc as [->|Hc].
    + rewrite length_take. lia.
    + apply (IH (drop n l)); [|done]. rewrite length_drop. lia.
Qed.

Lemma reshape3_has_shape (d0 d1 d2 : nat) (buf : list Z) (a : Numpy.array3) :
  Numpy.reshape3 d0 d1 d2 buf = Ok a -> has_shape d0 d1 d2 a = true.
Proof.
  unfold Numpy.reshape3. destruct (Nat.eqb_spec (length buf) (d0 * d1 * d2));
    [|done].
  intros [= <-]. unfold has_shape. apply andb_true_iff. split.
  - apply Nat.eqb_eq. by rewrite length_fmap, chunks_length.
  - apply forallb_forall. intros plane Hp.
    apply list_elem_of_In, list_elem_of_fmap in Hp as (flat & -> & Hf).
    apply chunks_item_length in Hf; [|lia].
    apply andb_true_iff. split.
    + apply Nat.eqb_eq, chunks_length.
    + apply forallb_forall. intros row Hr. apply list_elem_of_In in Hr.
      apply Nat.eqb_eq. eapply chunks_item_length; [|done]. lia.
Qed.

(** C4. Cave mode draws from the grid [cave_grid]: a renderer that has
    not loaded its block array yet runs the loops on it; each cell of
    the expanded skylight is the low four bits of the packed byte at
    [z/2] when [z] is even and its high four bits when [z] is odd; a cell
    of the grid holds the hidden identifier 21 when that value is not
    zero, and the block of the chunk when it is zero. *)
Theorem cave_grid_hides_lit_cells (st : state) (img : option canvas)
    (xoff yoff : Z) (lv : level) (b s : Numpy.array3) :
  current_level st = Ok lv -> _blocks (self st) = None ->
  get_blockarray lv = Ok b -> get_skylight_array lv = Ok s ->
  fst (chunk_render img xoff yoff true st) =
  snd (render_loops true (cave_grid b s) xoff yoff
         (match img with Some i => i | None => [] end)) /\
  forall x y z, in_grid (x, y, z) ->
    exists v byte,
      Numpy.get3 b x y z = Ok v /\
      Numpy.get3 s x y (z / 2) = Ok byte /\
      Numpy.get3 (skylight_expanded s) x y z =
        Ok (if Z.even z then Z.land byte 15 else Z.shiftr byte 4) /\
      Numpy.get3 (cave_grid b s) x y z =
        Ok (if (if Z.even z then Z.land byte 15 else Z.shiftr byte 4) =? 0
            then v else 21).
Proof.
  intros Hlv Hn Hb Hs. split; [by eapply chunk_render_cave_grid|].
  intros x y z Hg. apply get3_cave_grid; [| |done].
  - by eapply reshape3_has_shape.
  - by eapply reshape3_has_shape.
Qed.

(** ** The tables *)

(** C9. [generate_depthcolors] makes 128 colours, the first (255,0,0),
    and every channel of every one of them is within 0..255: the green
    channel climbs to 217 and stands at 224 from z=32 on, red falls from
    255 to 38 and stands at 31 from z=64 on, blue climbs to 217 and
    stands at 224 from z=96 on, green falls from 224 to 7. *)
Theorem depth_colors_within_range :
  length depth_colors = 128%nat /\
  depth_colors !! 0%nat = Some (255, 0, 0) /\
  Forall (fun c : rgb =>
            let '(r, g, b) := c in
            0 <= r <= 255 /\ 0 <= g <= 255 /\ 0 <= b <= 255) depth_colors /\
  depth_colors =
    fmap (M:=list)
      (fun z => if z <? 32 then (255, 7 * z, 0)
                else if z <? 64 then (255 - 7 * (z - 32), 224, 0)
                else if z <? 96 then (31, 224, 7 * (z - 64))
                else (31, 224 - 7 * (z - 96), 224))
      (range 128).
Proof.
  split; [by vm_compute|]. split; [by vm_compute|]. split; [|by vm_compute].
  assert (forallb rgb_ok depth_colors = true) as H by (by vm_compute).
  apply Forall_forall. intros [[r g] b] Hc.
  apply list_elem_of_In in Hc.
  apply (proj1 (forallb_forall _ _) H) in Hc.
  unfold rgb_ok, channel_ok in Hc. lia.
Qed.

(** C8. The identifier 21 that cave mode writes into lit cells is not in
    [transparent_blocks], while 0 (air) and 20 (glass) are; so a cell of
    the cave grid whose skylight is not zero is never transparent for
    the test [blocks[..] not in transparent_blocks]. *)
Theorem hidden_marker_is_opaque :
  hidden_id = 21 /\
  (hidden_id ∉ transparent_blocks) /\ transparent hidden_id = false /\
  (0 ∈ transparent_blocks) /\ (20 ∈ transparent_blocks) /\
  forall b s x y z byte,
    has_shape 16 16 128 b = true -> has_shape 16 16 64 s = true ->
    in_grid (x, y, z) ->
    Numpy.get3 s x y (z / 2) = Ok byte -> skylight_nibble byte z <> 0 ->
    Numpy.get3 (cave_grid b s) x y z = Ok hidden_id /\
    snd (not_transparent_at (cave_grid b s) x y z) = Ok true.
Proof.
  split; [done|]. split; [by vm_compute|]. split; [by vm_compute|].
  split; [by vm_compute|]. split; [by vm_compute|].
  intros b s x y z byte Hb Hs Hg Hbyte Hn.
  destruct (get3_cave_grid b s x y z Hb Hs Hg) as (v & byte' & _ & Hb' & _ & Hc).
  rewrite Hbyte in Hb'. injection Hb' as <-.
  apply Z.eqb_neq in Hn. rewrite Hn in Hc. split; [done|].
  erewrite snd_not_transparent_at by done. unfold opaque_at. by rewrite Hc.
Qed.

(** ** The cache *)

Lemma remove_old_image_eq (d b : string) (cave : bool) (st : state) :
  remove_old_image d b cave st =
  match List.find (is_old_image b cave) (os_listdir d (fs st)) with
  | Some n =>
      (Ok tt,
       {| self := self st; fs := os_unlink (d, n) (fs st); heap := heap st;
          events := events st ++ [Unlinked (d, n)] |})
  | None => (Ok tt, st)
  end.
Proof.
  unfold remove_old_image, bind, get_state.
  by destruct (List.find _ _).
Qed.

(** [render_and_save], step by step. *)
Lemma render_and_save_eq (cf : path) (cave : bool) (st : state) :
  render_and_save cf cave st =
  if os_path_exists cf (fs st) then
    match get_lvldata cf (fs st) with
    | Raise e => (Raise e, renderer_with cf None st)
    | Ok lv =>
        let st1 := renderer_with cf (Some lv) st in
        let dest := dest_path_of cf cave lv in
        match lookup_file dest (fs st) with
        | Some (ImageFile _) => (Ok dest, st1)
        | Some _ => save_image dest (chunk_render None 0 0 cave st1)
        | None =>
            save_image dest
              (chunk_render None 0 0 cave
                 (snd (remove_old_image (fst cf) (blockid_of (snd cf)) cave st1)))
        end
    end
  else (Raise ValueError, st).
Proof.
  unfold render_and_save. unfold bind at 1. cbn [get_state].
  destruct (os_path_exists cf (fs st)); [|done].
  unfold bind at 1. cbn [set_self]. fold (renderer_with cf None st).
  unfold render_and_save_method. unfold bind at 1.
  cbn [get_state renderer_with self chunkfile]. destruct cf as [d f].
  unfold bind at 1. unfold _hash_blockarray. unfold bind at 1.
  rewrite load_level_eq. cbn [renderer_with self _level chunkfile fs].
  destruct (get_lvldata (d, f) (fs st)) as [lv|e]; [|done].
  cbn [ret _blocks heap events].
  change {| self := {| chunkfile := (d, f); _level := Some lv; _blocks := None |};
            fs := fs st; heap := heap st; events := events st |}
    with (renderer_with (d, f) (Some lv) st).
  unfold dest_path_of. cbn [fst snd].
  set (dest := (d, dest_filename_of (blockid_of f) cave (hash_of lv))).
  unfold bind at 1. cbn [get_state]. unfold bind at 1.
  cbn [renderer_with fs heap events self]. unfold os_path_exists.
  destruct (lookup_file dest (fs st)) as [[lv'|c|]|].
  - unfold ret at 1. unfold save_image, bind.
    by destruct (chunk_render None 0 0 cave _) as [[img|e] st2].
  - done.
  - unfold ret at 1. unfold save_image, bind.
    by destruct (chunk_render None 0 0 cave _) as [[img|e] st2].
  - unfold bind at 1. rewrite !remove_old_image_eq.
    unfold renderer_with. cbn [fst snd fs self heap events].
    destruct (List.find _ _); unfold ret at 1; unfold save_image, bind;
      cbn [fst snd fs self heap events];
      by destruct (chunk_render None 0 0 cave _) as [[img|e] st2].
Qed.

Lemma path_eqb_eq (p q : path) : path_eqb p q = true <-> p = q.
Proof.
  destruct p as [d n], q as [d' n']. unfold path_eqb. cbn [fst snd].
  rewrite andb_true_iff, !String.eqb_eq. split; [by intros [-> ->]|].
  by intros [= -> ->].
Qed.

Lemma path_eqb_refl (p : path) : path_eqb p p = true.
Proof. by apply path_eqb_eq. Qed.

Lemma lookup_write_file (p : path) (f : file) (fs0 : filesystem) :
  lookup_file p (write_file p f fs0) = Some f.
Proof.
  unfold write_file, os_path_exists.
  destruct (lookup_file p fs0) as [f0|] eqn:E.
  - induction fs0 as [|[q g] fs0 IH]; [done|]. cbn in *.
    destruct (path_eqb q p) eqn:Eq; cbn; rewrite Eq; [done|]. by apply IH.
  - induction fs0 as [|[q g] fs0 IH]; cbn in *; [by rewrite path_eqb_refl|].
    destruct (path_eqb q p); [done|]. by apply IH.
Qed.

Lemma get_lvldata_Ok (p : path) (fs0 : filesystem) (lv : level) :
  get_lvldata p fs0 = Ok lv <-> lookup_file p fs0 = Some (ChunkData lv).
Proof.
  unfold get_lvldata. destruct (lookup_file p fs0) as [[lv'|c|]|]; split;
    intros H; try done; congruence.
Qed.

Lemma hash_blockarray_current (st : state) (lv : level) :
  current_level st = Ok lv -> fst (_hash_blockarray st) = Ok (hash_of lv).
Proof.
  intros H. destruct (load_level_current st lv H) as (st1 & E & _).
  unfold _hash_blockarray, bind. by rewrite E.
Qed.

(** A hit: the expected file is there and decodes. *)
Lemma render_and_save_hit (cf : path) (cave : bool) (st : state)
    (lv : level) (c : canvas) :
  get_lvldata cf (fs st) = Ok lv ->
  lookup_file (dest_path_of cf cave lv) (fs st) = Some (ImageFile c) ->
  render_and_save cf cave st =
  (Ok (dest_path_of cf cave lv), renderer_with cf (Some lv) st).
Proof.
  intros Hlv Hc. rewrite render_and_save_eq. unfold os_path_exists.
  rewrite (proj1 (get_lvldata_Ok _ _ _) Hlv), Hlv. cbv zeta. by rewrite Hc.
Qed.

(** C10. The hash is made of the [Blocks] bytes and the version tag
    alone: two levels with the same [Blocks] have the same hash and the
    same cache path, whatever their [SkyLight]; [_hash_blockarray]
    returns that hash; and in cave mode a chunk whose [Blocks] are those
    of the level an image was cached for gets this image back from
    [render_and_save], with no file changed and nothing rendered,
    written or removed. *)
Theorem hash_ignores_skylight :
  (forall lv1 lv2 : level,
      Blocks lv1 = Blocks lv2 ->
      hash_of lv1 = hash_of lv2 /\
      forall cf cave, dest_path_of cf cave lv1 = dest_path_of cf cave lv2) /\
  (forall st1 st2 lv1 lv2,
      current_level st1 = Ok lv1 -> current_level st2 = Ok lv2 ->
      Blocks lv1 = Blocks lv2 ->
      fst (_hash_blockarray st1) = Ok (hash_of lv1) /\
      fst (_hash_blockarray st2) = fst (_hash_blockarray st1)) /\
  (forall cf st lv_old lv_new c,
      get_lvldata cf (fs st) = Ok lv_new ->
      Blocks lv_old = Blocks lv_new ->
      lookup_file (dest_path_of cf true lv_old) (fs st) = Some (ImageFile c) ->
      exists st',
        render_and_save cf true st = (Ok (dest_path_of cf true lv_old), st') /\
        fs st' = fs st /\ events st' = events st).
Proof.
  assert (forall lv1 lv2 : level,
             Blocks lv1 = Blocks lv2 -> hash_of lv1 = hash_of lv2) as Hh.
  { intros lv1 lv2 H. unfold hash_of. by rewrite H. }
  split; [|split].
  - intros lv1 lv2 H. split; [by apply Hh|].
    intros cf cave. unfold dest_path_of. by rewrite (Hh lv1 lv2 H).
  - intros st1 st2 lv1 lv2 H1 H2 H.
    rewrite (hash_blockarray_current st1 lv1 H1).
    rewrite (hash_blockarray_current st2 lv2 H2).
    by rewrite (Hh lv1 lv2 H).
  - intros cf st lv_old lv_new c Hlv H Hc.
    assert (dest_path_of cf true lv_old = dest_path_of cf true lv_new) as Hd.
    { unfold dest_path_of. by rewrite (Hh lv_old lv_new H). }
    rewrite Hd in *. exists (renderer_with cf (Some lv_new) st).
    split; [by eapply render_and_save_hit|]. done.
Qed.

(** C6 as the code has it. When a call of [render_and_save] returns and
    the chunk file still holds the same level, the next call for the same
    chunk and mode returns the same path, changes no file and renders,
    writes and removes nothing.  The first call rendered as often as it
    wrote: once when the expected file was missing or did not decode,
    not at all when it was there and decoded. *)
Theorem second_call_is_cache_hit (cf : path) (cave : bool) (st0 st1 : state)
    (p : path) :
  render_and_save cf cave st0 = (Ok p, st1) ->
  get_lvldata cf (fs st1) = get_lvldata cf (fs st0) ->
  (exists st2,
      render_and_save cf cave st1 = (Ok p, st2) /\
      fs st2 = fs st1 /\ events st2 = events st1) /\
  (exists lv new,
      get_lvldata cf (fs st0) = Ok lv /\ p = dest_path_of cf cave lv /\
      events st1 = events st0 ++ new /\
      renders new = writes new /\
      renders new =
      match lookup_file p (fs st0) with
      | Some (ImageFile _) => 0%nat
      | _ => 1%nat
      end).
Proof.
  intros H Hsame. rewrite render_and_save_eq in H.
  destruct (os_path_exists cf (fs st0)); [|done].
  destruct (get_lvldata cf (fs st0)) as [lv|e] eqn:Hlv; [|done].
  cbv zeta in H.
  assert (forall stx img st2,
             chunk_render None 0 0 cave stx = (Ok img, st2) ->
             save_image (dest_path_of cf cave lv) (Ok img, st2) = (Ok p, st1) ->
             p = dest_path_of cf cave lv /\
             lookup_file p (fs st1) = Some (ImageFile img) /\
             events st1 = events stx ++ [Rendered cave; Written p]) as Hmiss.
  { intros stx img st2 Hr Hs. injection Hs as <- <-. cbn [fs events].
    split; [done|]. split; [apply lookup_write_file|].
    pose proof (frame_chunk_render None 0 0 cave stx) as ([_ Ev] & _).
    rewrite Hr in Ev. cbn [snd events] in Ev. rewrite Ev.
    by rewrite <- app_assoc. }
  assert (forall img, lookup_file p (fs st1) = Some (ImageFile img) ->
             p = dest_path_of cf cave lv ->
             exists st2, render_and_save cf cave st1 = (Ok p, st2) /\
                         fs st2 = fs st1 /\ events st2 = events st1) as Hhit.
  { intros img Hl ->. exists (renderer_with cf (Some lv) st1).
    split; [|done]. eapply render_and_save_hit; [congruence|done]. }
  destruct (lookup_file (dest_path_of cf cave lv) (fs st0))
    as [[lv'|c|]|] eqn:Hl.
  - destruct (chunk_render None 0 0 cave _) as [[img|e] st2] eqn:Hr; [|done].
    destruct (Hmiss _ _ _ Hr H) as (-> & Hl1 & Ev). split; [by eapply Hhit|].
    exists lv. eexists. rewrite Hl. by repeat split.
  - injection H as <- <-. split.
    + eapply (Hhit c); [done|done].
    + exists lv, []. rewrite Hl. by rewrite app_nil_r.
  - destruct (chunk_render None 0 0 cave _) as [[img|e] st2] eqn:Hr; [|done].
    destruct (Hmiss _ _ _ Hr H) as (-> & Hl1 & Ev). split; [by eapply Hhit|].
    exists lv. eexists. rewrite Hl. by repeat split.
  - rewrite remove_old_image_eq in H. cbn [renderer_with fs] in H.
    destruct (List.find _ _) as [n|];
      destruct (chunk_render None 0 0 cave _) as [[img|e] st2] eqn:Hr;
      try done;
      destruct (Hmiss _ _ _ Hr H) as (-> & Hl1 & Ev);
      (split; [by eapply Hhit|]);
      exists lv; eexists; rewrite Hl; cbn [snd events renderer_with] in Ev.
    + rewrite <- app_assoc in Ev. by repeat split.
    + by repeat split.
Qed.

(** ** The clean-up loop *)

Lemma find_head_filter {A : Type} (P : A -> bool) (l : list A) :
  List.find P l = head (filter (fun x => P x = true) l).
Proof.
  induction l as [|x l IH]; [done|]. cbn [List.find].
  rewrite filter_cons. destruct (P x) eqn:E.
  - by rewrite decide_True.
  - by rewrite decide_False by congruence.
Qed.

Lemma filter_other_not_in (n : string) (l : list string) :
  n ∉ l -> filter (fun m => m <> n) l = l.
Proof.
  induction l as [|x l IH]; intros H; [done|].
  apply not_elem_of_cons in H as [Hx Hl].
  rewrite filter_cons, decide_True by done. by rewrite IH.
Qed.

(** Without the first name that passes, the names that pass are the
    others. *)
Lemma filter_without_first (P : string -> bool) (l : list string) (n : string) :
  NoDup l -> head (filter (fun x => P x = true) l) = Some n ->
  filter (fun x => P x = true) (filter (fun m => m <> n) l) =
  tail (filter (fun x => P x = true) l).
Proof.
  induction l as [|x l IH]; intros Hnd Hh; [done|].
  apply NoDup_cons in Hnd as [Hx Hnd].
  rewrite filter_cons in Hh. rewrite (filter_cons (fun x => P x = true)).
  destruct (decide (P x = true)) as [Hp|Hp].
  - injection Hh as <-. rewrite filter_cons, decide_False by (intros H; by apply H).
    by rewrite filter_other_not_in.
  - assert (x <> n) as Hxn.
    { intros ->. apply Hp.
      assert (n ∈ filter (fun x => P x = true) l) as Hin.
      { destruct (filter _ l); [done|]. injection Hh as ->. left. }
      by apply list_elem_of_filter in Hin as [? _]. }
    rewrite filter_cons, decide_True by done.
    rewrite filter_cons, decide_False by done. by apply IH.
Qed.

Lemma listdir_cons (d : string) (e : path * file) (fs0 : filesystem) :
  os_listdir d (e :: fs0) =
  if String.eqb (fst (fst e)) d then snd (fst e) :: os_listdir d fs0
  else os_listdir d fs0.
Proof.
  unfold os_listdir. rewrite filter_cons.
  destruct (String.eqb (fst (fst e)) d) eqn:E.
  - by rewrite decide_True.
  - by rewrite decide_False by (cbv beta; congruence).
Qed.

Lemma unlink_cons (p : path) (e : path * file) (fs0 : filesystem) :
  os_unlink p (e :: fs0) =
  if path_eqb (fst e) p then os_unlink p fs0 else e :: os_unlink p fs0.
Proof.
  unfold os_unlink. rewrite filter_cons.
  destruct (path_eqb (fst e) p) eqn:E.
  - by rewrite decide_False by (cbv beta; congruence).
  - by rewrite decide_True.
Qed.

Lemma listdir_unlink (d n : string) (fs0 : filesystem) :
  os_listdir d (os_unlink (d, n) fs0) =
  filter (fun m => m <> n) (os_listdir d fs0).
Proof.
  induction fs0 as [|[[d' n'] f] fs0 IH]; [done|].
  rewrite unlink_cons, listdir_cons. cbn [fst snd].
  destruct (path_eqb (d', n') (d, n)) eqn:Hp.
  - apply path_eqb_eq in Hp. injection Hp as -> ->.
    rewrite String.eqb_refl, filter_cons.
    by rewrite decide_False by (intros H; by apply H).
  - rewrite listdir_cons. cbn [fst snd].
    destruct (String.eqb d' d) eqn:Hd; [|done].
    rewrite filter_cons, decide_True; [by rewrite IH|].
    intros ->. apply String.eqb_eq in Hd as ->.
    by rewrite path_eqb_refl in Hp.
Qed.

Lemma listdir_NoDup (d : string) (fs0 : filesystem) :
  NoDup (fst <$> fs0) -> NoDup (os_listdir d fs0).
Proof.
  unfold os_listdir. induction fs0 as [|[[d' n'] f] fs0 IH]; intros H.
  - constructor.
  - rewrite fmap_cons in H. apply NoDup_cons in H as [Hx H].
    rewrite filter_cons. cbn [fst snd].
    destruct (decide ((d' =? d)%string = true)) as [Hd|Hd]; [|by apply IH].
    rewrite fmap_cons. apply NoDup_cons. split; [|by apply IH].
    cbn [fst snd]. intros Hin. apply Hx.
    apply list_elem_of_fmap in Hin as ([[d2 n2] f2] & Hn & Hin).
    apply list_elem_of_filter in Hin as [Hd2 Hin]. cbn [fst snd] in *.
    apply String.eqb_eq in Hd, Hd2. subst.
    apply list_elem_of_fmap. by exists (d, n2, f2).
Qed.

Lemma listdir_write_new (d n : string) (f : file) (fs0 : filesystem) :
  lookup_file (d, n) fs0 = None ->
  os_listdir d (write_file (d, n) f fs0) = os_listdir d fs0 ++ [n].
Proof.
  intros H. unfold write_file, os_path_exists. rewrite H.
  unfold os_listdir. rewrite filter_app, fmap_app. f_equal.
  rewrite filter_cons. cbn [fst snd].
  by rewrite decide_True by apply String.eqb_refl.
Qed.

Lemma lookup_unlink_None (p q : path) (fs0 : filesystem) :
  lookup_file p fs0 = None -> lookup_file p (os_unlink q fs0) = None.
Proof.
  unfold os_unlink. induction fs0 as [|[p' f] fs0 IH]; [done|].
  cbn [lookup_file]. destruct (path_eqb p' p) eqn:E; [done|]. intros H.
  rewrite filter_cons. cbn [fst].
  destruct (decide (path_eqb p' q = false)); [|by apply IH].
  cbn [lookup_file]. rewrite E. by apply IH.
Qed.

Lemma prefix_app (a b c : string) :
  String.prefix (a +:+ b) (a +:+ c) = String.prefix b c.
Proof.
  induction a as [|ch a IH]; [done|]. simpl.
  destruct (ascii_dec ch ch); [apply IH|done].
Qed.

Lemma endswith_app (a s suffix : string) :
  endswith s suffix = true -> endswith (a +:+ s) suffix = true.
Proof.
  intros H. induction a as [|ch a IH]; [done|]. simpl.
  rewrite IH. apply orb_true_r.
Qed.

(** The name written is one the clean-up loop would take. *)
Lemma dest_filename_is_old_image (b : string) (cave : bool) (h : string) :
  is_old_image b cave (dest_filename_of b cave h) = true.
Proof.
  unfold is_old_image, dest_filename_of, old_prefix.
  apply andb_true_iff. split.
  - rewrite !prefix_app. by destruct h.
  - do 5 apply endswith_app. apply endswith_app with (s := ".png"). done.
Qed.

Lemma cache_entries_write_new (cf : path) (cave : bool) (lv : level)
    (img : canvas) (fs0 : filesystem) :
  lookup_file (dest_path_of cf cave lv) fs0 = None ->
  cache_entries cf cave
    (write_file (dest_path_of cf cave lv) (ImageFile img) fs0) =
  cache_entries cf cave fs0 ++ [snd (dest_path_of cf cave lv)].
Proof.
  intros H. unfold cache_entries. unfold dest_path_of at 1.
  rewrite listdir_write_new by done. rewrite filter_app. f_equal.
  rewrite filter_cons, decide_True; [done|].
  apply dest_filename_is_old_image.
Qed.

Lemma cache_entries_unlink_first (cf : path) (cave : bool) (fs0 : filesystem)
    (n : string) :
  NoDup (fst <$> fs0) -> head (cache_entries cf cave fs0) = Some n ->
  cache_entries cf cave (os_unlink (fst cf, n) fs0) =
  tail (cache_entries cf cave fs0).
Proof.
  intros Hnd Hh. unfold cache_entries in *. rewrite listdir_unlink.
  apply (filter_without_first (is_old_image (blockid_of (snd cf)) cave));
    [by apply listdir_NoDup|done].
Qed.

(** ** Normal mode always returns *)

Lemma render_block_normal_ok (b : Numpy.array3) (x y z imgx imgy : Z)
    (img : canvas) :
  has_shape 16 16 128 b = true -> in_grid (x, y, z) ->
  exists img', snd (render_block false b x y z imgx imgy img) = Ok img'.
Proof.
  intros Hs Hg. pose proof Hg as (Hx & Hy & Hz).
  destruct (get3_in_shape 16 16 128 b x y z Hs) as [id Hid]; [lia..|].
  destruct (blockmap id) as [t|] eqn:Ht.
  - destruct (render_block_normal b x y z imgx imgy img id t Hs Hg Hid Ht)
      as (edges & _ & ->).
    destruct (_ && _); by eexists.
  - exists img. unfold render_block. rewrite snd_rd_bind. cbn [read snd].
    rewrite Hid. cbn [res_bind]. by rewrite Ht.
Qed.

Lemma rd_fold_ok {A B : Type} (Q : B -> Prop) (f : B -> A -> Rd A)
    (l : list B) (a : A) :
  Forall Q l -> (forall b a', Q b -> exists a'', snd (f b a') = Ok a'') ->
  exists a', snd (rd_fold f l a) = Ok a'.
Proof.
  intros Hl Hf. revert a. induction Hl as [|b l Hb Hl IH]; intros a.
  - by exists a.
  - cbn [rd_fold]. rewrite snd_rd_bind.
    destruct (Hf b a Hb) as [a1 ->]. cbn [res_bind]. apply IH.
Qed.

Lemma render_loops_normal_ok (b : Numpy.array3) (xoff yoff : Z) (img : canvas) :
  has_shape 16 16 128 b = true ->
  exists img', snd (render_loops false b xoff yoff img) = Ok img'.
Proof.
  intros Hs. unfold render_loops. rewrite loop_x_fold.
  apply (rd_fold_ok in_grid); [apply traversal_in_grid|].
  intros [[x y] z] img' Hg. by apply render_block_normal_ok.
Qed.

(** The grid the loops of normal mode run on. *)
Lemma chunk_render_normal_grid (st : state) (img : option canvas)
    (xoff yoff : Z) (lv : level) (b : Numpy.array3) :
  current_level st = Ok lv -> _blocks (self st) = None ->
  get_blockarray lv = Ok b ->
  fst (chunk_render img xoff yoff false st) =
  snd (render_loops false b xoff yoff
         (match img with Some i => i | None => [] end)).
Proof.
  intros Hlv Hn Hb.
  rewrite chunk_render_eq, load_blocks_eq. cbn [self].
  rewrite Hn.
  set (st0 := {| self := self st; fs := fs st; heap := heap st;
                 events := events st ++ [Rendered false] |}).
  destruct (load_level_current st0 lv Hlv)
    as (st1 & -> & Hl1 & Hb1 & Hh1 & _). rewrite Hb.
  unfold draw_chunk. unfold bind at 1. unfold ret at 1.
  generalize (render_loops false). intros loops.
  unfold deref, bind, lift. cbn [heap self fs events].
  rewrite lookup_app_r by lia. rewrite Nat.sub_diag.
  done.
Qed.

(** In normal mode a chunk file whose [Blocks] are 16*16*128 bytes always
    gets its image: [render_and_save] returns the cache path. *)
Lemma normal_render_and_save_returns (cf : path) (st : state) (lv : level) :
  get_lvldata cf (fs st) = Ok lv ->
  length (Blocks lv) = (16 * 16 * 128)%nat ->
  fst (render_and_save cf false st) = Ok (dest_path_of cf false lv).
Proof.
  intros Hlv Hlen.
  assert (exists b, get_blockarray lv = Ok b /\ has_shape 16 16 128 b = true)
    as (b & Hb & Hs).
  { unfold get_blockarray, Numpy.reshape3.
    destruct (Nat.eqb_spec (length (Blocks lv)) (16 * 16 * 128)); [|done].
    eexists. split; [done|].
    apply (reshape3_has_shape 16 16 128 (Blocks lv)).
    unfold Numpy.reshape3.
    by destruct (Nat.eqb_spec (length (Blocks lv)) (16 * 16 * 128)). }
  assert (forall stx, current_level stx = Ok lv -> _blocks (self stx) = None ->
            fst (save_image (dest_path_of cf false lv)
                   (chunk_render None 0 0 false stx)) =
            Ok (dest_path_of cf false lv)) as Hrun.
  { intros stx H1 H2.
    pose proof (chunk_render_normal_grid stx None 0 0 lv b H1 H2 Hb) as E.
    destruct (render_loops_normal_ok b 0 0 [] Hs) as [img' Hi].
    cbv beta iota in E. rewrite Hi in E.
    destruct (chunk_render None 0 0 false stx) as [r st2]. cbn in E.
    by subst r. }
  rewrite render_and_save_eq. unfold os_path_exists.
  rewrite (proj1 (get_lvldata_Ok _ _ _) Hlv), Hlv. cbv zeta.
  destruct (lookup_file (dest_path_of cf false lv) (fs st)) as [[lv'|c|]|];
    try done; try (by apply Hrun).
  rewrite remove_old_image_eq.
  destruct (List.find _ _); by apply Hrun.
Qed.

(** ** Cave mode, voxel by voxel *)

Lemma depth_colors_index (z : Z) :
  0 <= z < 128 -> exists c, Numpy.index depth_colors z = Ok c.
Proof.
  intros Hz. destruct (index_in_range depth_colors z) as (c & Hc & _).
  - assert (length depth_colors = 128%nat) as -> by (by vm_compute). lia.
  - by exists c.
Qed.

Lemma occluded_cave (b : Numpy.array3) (x y z : Z) :
  has_shape 16 16 128 b = true -> in_grid (x, y, z) ->
  (x, y, z) <> (0, 15, 127) ->
  snd (occluded true b x y z) =
  Ok (if (x =? 0) && negb (y =? 15) && negb (z =? 127) then
        opaque_at b x (y + 1) z && opaque_at b x y (z + 1)
      else if (y =? 15) && negb (x =? 0) && negb (z =? 127) then
        opaque_at b (x - 1) y z && opaque_at b x y (z + 1)
      else if (y =? 15) && (x =? 0) then opaque_at b x y (z + 1)
      else negb (x =? 0) && negb (y =? 15) && negb (z =? 127) &&
           (opaque_at b (x - 1) y z &&
            (opaque_at b x (y + 1) z && opaque_at b x y (z + 1)))).
Proof.
  intros Hs (Hx & Hy & Hz) Hne. unfold occluded. cbn [andb].
  assert (forall x' y' z', 0 <= x' < 16 -> 0 <= y' < 16 -> 0 <= z' < 128 ->
            snd (not_transparent_at b x' y' z') = Ok (opaque_at b x' y' z'))
    as Hnt.
  { intros x' y' z' Hx' Hy' Hz'.
    destruct (get3_in_shape 16 16 128 b x' y' z' Hs) as [v Hv]; [lia..|].
    by eapply snd_not_transparent_at. }
  destruct (Z.eqb_spec x 0), (Z.eqb_spec y 15), (Z.eqb_spec z 127);
    cbn [negb andb]; subst; try done.
  - apply Hnt; lia.
  - apply snd_rd_and; apply Hnt; lia.
  - apply snd_rd_and; apply Hnt; lia.
  - apply snd_rd_and; [apply Hnt; lia|]. apply snd_rd_and; apply Hnt; lia.
Qed.

(** The outcome of [render_block] in cave mode, away from the top of the
    facing edge. *)
Lemma render_block_cave (b : Numpy.array3) (x y z imgx imgy : Z)
    (img : canvas) (id : Z) (t : image * image) :
  has_shape 16 16 128 b = true -> in_grid (x, y, z) ->
  (x, y, z) <> (0, 15, 127) ->
  Numpy.get3 b x y z = Ok id -> blockmap id = Some t ->
  exists tint edges,
    Numpy.index depth_colors z = Ok tint /\
    forallb is_line edges = true /\
    snd (render_block true b x y z imgx imgy img) =
    if (if (x =? 0) && negb (y =? 15) && negb (z =? 127) then
          opaque_at b x (y + 1) z && opaque_at b x y (z + 1)
        else if (y =? 15) && negb (x =? 0) && negb (z =? 127) then
          opaque_at b (x - 1) y z && opaque_at b x y (z + 1)
        else if (y =? 15) && (x =? 0) then opaque_at b x y (z + 1)
        else negb (x =? 0) && negb (y =? 15) && negb (z =? 127) &&
             (opaque_at b (x - 1) y z &&
              (opaque_at b x (y + 1) z && opaque_at b x y (z + 1))))
    then Ok img
    else Ok (img ++ Paste (Blend (fst t) tint) (imgx, imgy) (snd t) :: edges).
Proof.
  intros Hs Hg Hne Hid Ht. pose proof Hg as (Hx & Hy & Hz).
  destruct (depth_colors_index z Hz) as [tint Htint].
  destruct (draw_edges_in_shape b x y z imgx imgy
              (img ++ [Paste (Blend (fst t) tint) (imgx, imgy) (snd t)]) Hs Hg)
    as (edges & He & Hl).
  exists tint, (if transparent id then [] else edges).
  split; [done|]. split; [by destruct (transparent id)|].
  unfold render_block. rewrite snd_rd_bind. cbn [read snd]. rewrite Hid.
  cbn [res_bind]. rewrite Ht, snd_rd_bind.
  rewrite (occluded_cave b x y z Hs Hg Hne). cbn [res_bind].
  match goal with |- _ = (if ?h then _ else _) => destruct h end; [done|].
  rewrite snd_rd_bind, snd_rd_bind.
  cbn [rd_lift snd]. rewrite Htint. cbn [res_bind rd_ret snd].
  destruct (transparent id); [done|]. rewrite He. by rewrite <- app_assoc.
Qed.

(** X1. Cave mode, a voxel of the grid that has a sprite, anywhere but at
    the top of the facing edge.  It is skipped exactly in these cases, all
    of them below the top layer: on the face [x = 0] off the edge, when the
    cells at [y+1] and [z+1] are both opaque; on the face [y = 15] off the
    edge, when the cells at [x-1] and [z+1] are both opaque; on the edge
    [x = 0], [y = 15], when the cell at [z+1] is opaque; inside, when the
    cells at [x-1], [y+1] and [z+1] are all opaque.  Otherwise it is drawn,
    and what is pasted is the sprite blended with the depth colour of
    [z], at the position handed over, under the sprite's mask. *)
Theorem cave_mode_visibility (b : Numpy.array3) (x y z imgx imgy : Z)
    (img : canvas) (id : Z) (t : image * image) :
  has_shape 16 16 128 b = true -> in_grid (x, y, z) ->
  (x, y, z) <> (0, 15, 127) ->
  Numpy.get3 b x y z = Ok id -> blockmap id = Some t ->
  let r := render_block true b x y z imgx imgy img in
  let enclosed :=
    z <> 127 /\ opaque_at b x y (z + 1) = true /\
    ((x = 0 /\ y <> 15 /\ opaque_at b x (y + 1) z = true) \/
     (y = 15 /\ x <> 0 /\ opaque_at b (x - 1) y z = true) \/
     (y = 15 /\ x = 0) \/
     (x <> 0 /\ y <> 15 /\ opaque_at b (x - 1) y z = true /\
      opaque_at b x (y + 1) z = true)) in
  (skipped_by r img <-> enclosed) /\
  (~ enclosed ->
   exists tint edges,
     Numpy.index depth_colors z = Ok tint /\
     forallb is_line edges = true /\
     snd r = Ok (img ++ Paste (Blend (fst t) tint) (imgx, imgy) (snd t)
                        :: edges)).
Proof.
  intros Hs Hg Hne Hid Ht r enclosed. pose proof Hg as (Hx & Hy & Hz).
  destruct (render_block_cave b x y z imgx imgy img id t Hs Hg Hne Hid Ht)
    as (tint & edges & Htint & Hl & Hr). fold r in Hr.
  set (h := if (x =? 0) && negb (y =? 15) && negb (z =? 127) then _ else _)
    in Hr.
  assert (h = true <-> enclosed) as Hh.
  { unfold h, enclosed.
    destruct (Z.eqb_spec x 0), (Z.eqb_spec y 15), (Z.eqb_spec z 127);
      cbn [negb andb]; rewrite ?andb_true_iff; subst;
      try (split; [done|]; intros H; exfalso; by destruct H as (? & _));
      try (exfalso; by apply Hne);
      split; intros H; try tauto; try lia;
      destruct H as (? & ? & [H|[H|[H|H]]]); lia || tauto. }
  split.
  - unfold skipped_by. rewrite Hr, <- Hh. destruct h; split; try done.
    intros [= H]. symmetry in H. by apply app_cons_neq in H.
  - intros Hn. exists tint, edges. split; [done|]. split; [done|].
    rewrite Hr. destruct h; [|done]. exfalso. by apply Hn, Hh.
Qed.

(** ** Every voxel once, in painter's order *)

Lemma seqZ_sorted (k : nat) (m : Z) : StronglySorted Z.lt (seqZ m (Z.of_nat k)).
Proof.
  revert m. induction k as [|k IH]; intros m; [constructor|].
  rewrite seqZ_cons by lia.
  replace (Z.pred (Z.of_nat (S k))) with (Z.of_nat k) by lia.
  constructor; [apply IH|].
  apply Forall_forall. intros j Hj. apply elem_of_seqZ in Hj. lia.
Qed.

Lemma sorted_reverse {A : Type} (R : relation A) (l : list A) :
  StronglySorted R l -> StronglySorted (fun a b => R b a) (reverse l).
Proof.
  induction 1 as [|a l Hl IH Ha]; [constructor|].
  rewrite reverse_cons. apply StronglySorted_app_2; [|done|repeat constructor].
  intros x1 x2 H1 H2. apply list_elem_of_singleton in H2 as ->.
  rewrite elem_of_reverse in H1. rewrite Forall_forall in Ha. by apply Ha.
Qed.

Lemma sorted_bind {A B : Type} (R1 : relation A) (R : relation B)
    (f : A -> list B) (l : list A) :
  StronglySorted R1 l ->
  (forall a, a ∈ l -> StronglySorted R (f a)) ->
  (forall a1 a2 b1 b2, R1 a1 a2 -> b1 ∈ f a1 -> b2 ∈ f a2 -> R b1 b2) ->
  StronglySorted R (l ≫= f).
Proof.
  intros Hl Hf Hx. induction Hl as [|a l Hl IH Ha]; [constructor|].
  rewrite bind_cons. apply StronglySorted_app_2.
  - intros b1 b2 H1 H2. apply list_elem_of_bind in H2 as (a2 & H2 & Ha2).
    rewrite Forall_forall in Ha. eapply Hx; [by apply Ha|done..].
  - apply Hf. left.
  - apply IH. intros a' Ha'. apply Hf. by right.
Qed.

Lemma sorted_NoDup {A : Type} (R : relation A) (l : list A) :
  (forall a, ~ R a a) -> StronglySorted R l -> NoDup l.
Proof.
  intros Hirr. induction 1 as [|a l Hl IH Ha]; constructor; [|done].
  intros Hin. rewrite Forall_forall in Ha. by apply Ha, Hirr in Hin.
Qed.

Lemma elem_of_traversal (v : idx) : v ∈ traversal <-> in_grid v.
Proof.
  split; [apply (proj1 (Forall_forall _ _) traversal_in_grid)|].
  destruct v as [[x y] z]. intros (Hx & Hy & Hz). unfold traversal.
  apply list_elem_of_bind. exists x. split.
  - apply list_elem_of_bind. exists y. split.
    + apply list_elem_of_bind. exists z. split; [left|].
      apply elem_of_seqZ. lia.
    + apply elem_of_seqZ. lia.
  - unfold xrange_down. rewrite elem_of_reverse. apply elem_of_seqZ. lia.
Qed.

Lemma traversal_sorted : StronglySorted visited_before traversal.
Proof.
  unfold traversal.
  apply (sorted_bind (fun a b => b < a)).
  - apply (sorted_reverse Z.lt), (seqZ_sorted 16 0).
  - intros x _. apply (sorted_bind Z.lt).
    + apply (seqZ_sorted 16 0).
    + intros y _. apply (sorted_bind Z.lt).
      * apply (seqZ_sorted 128 0).
      * intros z _. repeat constructor.
      * intros z1 z2 b1 b2 Hz H1 H2.
        apply list_elem_of_singleton in H1 as ->.
        apply list_elem_of_singleton in H2 as ->. cbn. lia.
    + intros y1 y2 b1 b2 Hy H1 H2.
      apply list_elem_of_bind in H1 as (z1 & H1 & _).
      apply list_elem_of_bind in H2 as (z2 & H2 & _).
      apply list_elem_of_singleton in H1 as ->.
      apply list_elem_of_singleton in H2 as ->. cbn. lia.
  - intros x1 x2 b1 b2 Hx H1 H2.
    apply list_elem_of_bind in H1 as (y1 & H1 & _).
    apply list_elem_of_bind in H1 as (z1 & H1 & _).
    apply list_elem_of_bind in H2 as (y2 & H2 & _).
    apply list_elem_of_bind in H2 as (z2 & H2 & _).
    apply list_elem_of_singleton in H1 as ->.
    apply list_elem_of_singleton in H2 as ->. cbn. lia.
Qed.

Lemma traversal_NoDup : NoDup traversal.
Proof.
  apply (sorted_NoDup visited_before); [|apply traversal_sorted].
  intros [[x y] z]. cbn. lia.
Qed.

Lemma traversal_last : last traversal = Some (0, 15, 127).
Proof. by vm_compute. Qed.

(** ** Whole renders: when they return and what they read *)

Lemma fst_rd_bind {A B : Type} (m : Rd A) (f : A -> Rd B) :
  fst (rd_bind m f) =
  fst m ++ match snd m with Ok a => fst (f a) | Raise _ => [] end.
Proof.
  destruct m as [l [a|e]]; cbn; [|by rewrite app_nil_r]. by destruct (f a).
Qed.

Lemma rd_fold_snoc {A B : Type} (f : B -> A -> Rd A) (l : list B) (b : B)
    (a : A) :
  rd_fold f (l ++ [b]) a = rd_bind (rd_fold f l a) (f b).
Proof.
  rewrite rd_fold_app. apply rd_bind_ext. intros a'. cbn [rd_fold].
  apply rd_bind_ret_r.
Qed.

Lemma render_loops_fold (cave : bool) (b : Numpy.array3) (xoff yoff : Z)
    (img : canvas) :
  render_loops cave b xoff yoff img =
  rd_fold (render_at cave b xoff yoff) traversal img.
Proof. apply loop_x_fold. Qed.

(** All voxels but the last of the traversal are in the grid and away from
    the top of the facing edge. *)
Lemma traversal_front :
  exists front,
    traversal = front ++ [(0, 15, 127)] /\
    Forall (fun v => in_grid v /\ v <> (0, 15, 127)) front.
Proof.
  destruct (proj1 (last_Some _ _) traversal_last) as [front Hf].
  exists front. split; [done|].
  pose proof traversal_NoDup as Hnd. pose proof traversal_in_grid as Hg.
  rewrite Hf in Hnd, Hg. apply NoDup_app in Hnd as (_ & Hnd & _).
  apply Forall_app in Hg as [Hg _]. rewrite Forall_forall in Hg.
  apply Forall_forall. intros v Hv. split; [by apply Hg|].
  intros ->. apply (Hnd _ Hv). left.
Qed.

Lemma render_block_no_sprite (cave : bool) (b : Numpy.array3)
    (x y z imgx imgy : Z) (img : canvas) (id : Z) :
  Numpy.get3 b x y z = Ok id -> blockmap id = None ->
  render_block cave b x y z imgx imgy img = ([(x, y, z)], Ok img).
Proof.
  intros Hid Hn. unfold render_block, read. cbn [rd_bind]. by rewrite Hid, Hn.
Qed.

Lemma render_at_reads_own_voxel_first (cave : bool) (b : Numpy.array3)
    (xoff yoff : Z) (v : idx) (img : canvas) :
  head (fst (render_at cave b xoff yoff v img)) = Some v.
Proof.
  destruct v as [[x y] z]. unfold render_at, render_block, read.
  cbn [rd_bind]. destruct (Numpy.get3 b x y z) as [id|e]; [|done].
  by destruct (match blockmap id with Some _ => _ | None => _ end).
Qed.

Lemma rd_fold_log {A : Type} (Q : idx -> Prop) (f : idx -> A -> Rd A)
    (l : list idx) (a : A) :
  Forall Q l -> (forall v a', Q v -> f v a' = ([v], Ok a')) ->
  rd_fold f l a = (l, Ok a).
Proof.
  intros Hl Hf. induction Hl as [|v l Hv Hl IH]; [done|].
  cbn [rd_fold]. rewrite (Hf v a Hv). cbn [rd_bind]. by rewrite IH.
Qed.

(** X2. The three loops run the body of the innermost loop once for each
    voxel of [traversal], in the order of that list, and the body at a
    voxel starts by reading [blocks] at that voxel; on a grid where no
    block has a sprite the indices the loops hand to [blocks] are the
    traversal itself.  The traversal holds every voxel of the grid, no
    other, and each once: 32768 in all; it is in painter's order, [x]
    from 15 down, then [y] from 0 up, then [z] from 0 up, so that of two
    voxels the one with the smaller [x], or else the larger [y], or else
    the larger [z], is handled, and painted, later. *)
Theorem loops_visit_each_voxel_once_in_order :
  (forall cave b xoff yoff img,
      render_loops cave b xoff yoff img =
      rd_fold (render_at cave b xoff yoff) traversal img) /\
  (forall cave b xoff yoff v img,
      head (fst (render_at cave b xoff yoff v img)) = Some v) /\
  (forall cave b xoff yoff img,
      (forall x y z, in_grid (x, y, z) ->
         exists id, Numpy.get3 b x y z = Ok id /\ blockmap id = None) ->
      fst (render_loops cave b xoff yoff img) = traversal) /\
  (forall v, v ∈ traversal <-> in_grid v) /\
  NoDup traversal /\
  Z.of_nat (length traversal) = 32768 /\
  StronglySorted visited_before traversal /\
  head traversal = Some (15, 0, 0) /\ last traversal = Some (0, 15, 127).
Proof.
  split; [apply render_loops_fold|].
  split; [apply render_at_reads_own_voxel_first|].
  split.
  { intros cave b xoff yoff img H. rewrite render_loops_fold.
    rewrite (rd_fold_log in_grid); [done|apply traversal_in_grid|].
    intros [[x y] z] img' Hg. destruct (H x y z Hg) as (id & Hid & Hn).
    cbn [render_at].
    by rewrite (render_block_no_sprite cave b x y z _ _ _ id). }
  split; [apply elem_of_traversal|]. split; [apply traversal_NoDup|].
  split; [by vm_compute|]. split; [apply traversal_sorted|].
  split; [by vm_compute|apply traversal_last].
Qed.

Lemma render_block_cave_ok (b : Numpy.array3) (x y z imgx imgy : Z)
    (img : canvas) :
  has_shape 16 16 128 b = true -> in_grid (x, y, z) ->
  (x, y, z) <> (0, 15, 127) ->
  exists img', snd (render_block true b x y z imgx imgy img) = Ok img'.
Proof.
  intros Hs Hg Hne. pose proof Hg as (Hx & Hy & Hz).
  destruct (get3_in_shape 16 16 128 b x y z Hs) as [id Hid]; [lia..|].
  destruct (blockmap id) as [t|] eqn:Ht.
  - destruct (render_block_cave b x y z imgx imgy img id t Hs Hg Hne Hid Ht)
      as (tint & edges & _ & _ & ->).
    match goal with |- context [if ?h then _ else _] => destruct h end;
      by eexists.
  - exists img. by rewrite (render_block_no_sprite true b x y z _ _ _ id).
Qed.

Lemma render_block_cave_edge_top (b : Numpy.array3) (imgx imgy : Z)
    (img : canvas) (id : Z) (t : image * image) :
  has_shape 16 16 128 b = true ->
  Numpy.get3 b 0 15 127 = Ok id -> blockmap id = Some t ->
  render_block true b 0 15 127 imgx imgy img =
  ([(0, 15, 127); (0, 15, 128)], Raise IndexError).
Proof.
  intros Hs Hid Ht.
  unfold render_block, read. cbn [rd_bind]. rewrite Hid, Ht.
  unfold occluded. cbn [Z.eqb negb andb Pos.eqb].
  unfold not_transparent_at, read. cbn [rd_bind].
  change (127 + 1) with 128.
  rewrite (get3_past_top 16 16 128 b 0 15 128 Hs) by lia. done.
Qed.

(** X3. Normal mode on a grid of 16 x 16 x 128 cells never raises: the
    loops return an image, and every index they hand to [blocks] lies
    inside the grid. *)
Theorem normal_render_returns_and_stays_in_grid (b : Numpy.array3)
    (xoff yoff : Z) (img : canvas) :
  has_shape 16 16 128 b = true ->
  (exists img', snd (render_loops false b xoff yoff img) = Ok img') /\
  Forall in_grid (fst (render_loops false b xoff yoff img)).
Proof.
  intros Hs. split; [by apply render_loops_normal_ok|].
  rewrite render_loops_fold.
  apply (reads_rd_fold _ in_grid); [apply traversal_in_grid|].
  intros [[x y] z] img' Hg. apply render_block_reads_in_grid; [done|by left].
Qed.

(** X4. Cave mode on a grid of 16 x 16 x 128 cells raises exactly when the
    cell at the top of the facing edge, [(0,15,127)], holds a block with a
    sprite.  Then the render ends in [IndexError] at the last voxel of the
    traversal, and the last index it handed to [blocks] is [(0,15,128)].
    When that block has no sprite the loops return an image and every
    index stays inside the grid. *)
Theorem cave_render_raises_iff_sprite_on_edge_top (b : Numpy.array3)
    (xoff yoff : Z) (img : canvas) :
  has_shape 16 16 128 b = true ->
  exists id,
    Numpy.get3 b 0 15 127 = Ok id /\
    match blockmap id with
    | Some _ =>
        snd (render_loops true b xoff yoff img) = Raise IndexError /\
        last (fst (render_loops true b xoff yoff img)) = Some (0, 15, 128)
    | None =>
        (exists img', snd (render_loops true b xoff yoff img) = Ok img') /\
        Forall in_grid (fst (render_loops true b xoff yoff img))
    end.
Proof.
  intros Hs.
  destruct (get3_in_shape 16 16 128 b 0 15 127 Hs) as [id Hid]; [lia..|].
  exists id. split; [done|].
  destruct traversal_front as (front & Hf & Hfront).
  rewrite render_loops_fold, Hf, rd_fold_snoc.
  destruct (rd_fold_ok (fun v => in_grid v /\ v <> (0, 15, 127))
              (render_at true b xoff yoff) front img Hfront) as [img1 H1].
  { intros [[x y] z] a [Hg Hne]. by apply render_block_cave_ok. }
  assert (Forall in_grid (fst (rd_fold (render_at true b xoff yoff) front img)))
    as Hr1.
  { apply (reads_rd_fold _ (fun v => in_grid v /\ v <> (0, 15, 127)));
      [done|].
    intros [[x y] z] a [Hg Hne].
    apply render_block_reads_in_grid; [done|by right]. }
  rewrite snd_rd_bind, fst_rd_bind, H1. cbn [res_bind render_at].
  destruct (blockmap id) as [t|] eqn:Ht.
  - rewrite (render_block_cave_edge_top b _ _ img1 id t Hs Hid Ht).
    cbn [fst snd]. split; [done|].
    change [(0, 15, 127); (0, 15, 128)]
      with ([(0, 15, 127)] ++ [(0, 15, 128)]).
    rewrite app_assoc. apply last_snoc.
  - rewrite (render_block_no_sprite true b 0 15 127 _ _ img1 id Hid Ht).
    cbn [fst snd]. split; [by eexists|].
    apply Forall_app. split; [done|]. repeat constructor; lia.
Qed.

(** ** What ends up on the image *)

Lemma rd_fold_fixed {A B : Type} (Q : B -> Prop) (f : B -> A -> Rd A)
    (l : list B) (a : A) :
  Forall Q l -> (forall b, Q b -> snd (f b a) = Ok a) ->
  snd (rd_fold f l a) = Ok a.
Proof.
  intros Hl Hf. induction Hl as [|b l Hb Hl IH]; [done|].
  cbn [rd_fold]. rewrite snd_rd_bind, (Hf b Hb). apply IH.
Qed.

Lemma rd_fold_invariant {A B : Type} (P : A -> Prop) (Q : B -> Prop)
    (f : B -> A -> Rd A) (l : list B) :
  Forall Q l ->
  (forall b a a', Q b -> P a -> snd (f b a) = Ok a' -> P a') ->
  forall a a', P a -> snd (rd_fold f l a) = Ok a' -> P a'.
Proof.
  intros Hl Hf. induction Hl as [|b l Hb Hl IH]; intros a a' Ha.
  - by intros [= <-].
  - cbn [rd_fold]. rewrite snd_rd_bind.
    destruct (snd (f b a)) as [a1|e] eqn:E; [|done]. cbn [res_bind].
    apply IH. by eapply Hf.
Qed.

(** X5. A grid none of whose blocks has a sprite, such as a chunk of air,
    leaves the image as it was, in normal mode and in cave mode alike, and
    the render does not raise. *)
Theorem nothing_drawn_without_sprites (cave : bool) (b : Numpy.array3)
    (xoff yoff : Z) (img : canvas) :
  (forall x y z, in_grid (x, y, z) ->
     exists id, Numpy.get3 b x y z = Ok id /\ blockmap id = None) ->
  snd (render_loops cave b xoff yoff img) = Ok img.
Proof.
  intros H. rewrite render_loops_fold.
  apply (rd_fold_fixed in_grid); [apply traversal_in_grid|].
  intros [[x y] z] Hg. destruct (H x y z Hg) as (id & Hid & Hn).
  cbn [render_at]. by rewrite (render_block_no_sprite cave b x y z _ _ _ id).
Qed.

Lemma air_at_in_shape (g : bool) (b : Numpy.array3) (x y z : Z) :
  has_shape 16 16 128 b = true -> (g = true -> in_grid (x, y, z)) ->
  snd (air_at g b x y z) = Ok (g && is_air_at b x y z).
Proof.
  intros Hs Hg. unfold air_at, is_air_at. destruct g; [|done].
  destruct (Hg eq_refl) as (Hx & Hy & Hz).
  destruct (get3_in_shape 16 16 128 b x y z Hs) as [v Hv]; [lia..|].
  rewrite snd_rd_bind. cbn [read snd]. by rewrite Hv.
Qed.

Lemma draw_edges_spec (b : Numpy.array3) (x y z imgx imgy : Z) (img : canvas) :
  has_shape 16 16 128 b = true -> in_grid (x, y, z) ->
  snd (draw_edges b x y z imgx imgy img) =
  Ok (img ++
      (if negb (x =? 15) && is_air_at b (x + 1) y z
       then [Line (imgx + 12, imgy) (imgx + 24, imgy + 6)] else []) ++
      (if negb (y =? 0) && is_air_at b x (y - 1) z
       then [Line (imgx, imgy + 6) (imgx + 12, imgy)] else [])).
Proof.
  intros Hs (Hx & Hy & Hz). unfold draw_edges.
  rewrite snd_rd_bind, air_at_in_shape; [|done|].
  2: { rewrite negb_true_iff, Z.eqb_neq. cbn. lia. }
  cbn [res_bind]. rewrite snd_rd_bind, air_at_in_shape; [|done|].
  2: { rewrite negb_true_iff, Z.eqb_neq. cbn. lia. }
  cbn [res_bind rd_ret snd].
  destruct (_ && _), (_ && _); by rewrite <- ?app_assoc, ?app_nil_r.
Qed.

(** X6. What a drawn block adds to the image, in either mode: its paste at
    the position handed over, under the sprite's mask; then, for a block
    that is not transparent only, a line from [(imgx+12, imgy)] to
    [(imgx+24, imgy+6)] when [x <> 15] and the cell at [x+1] holds 0, and a
    line from [(imgx, imgy+6)] to [(imgx+12, imgy)] when [y <> 0] and the
    cell at [y-1] holds 0; a transparent block gets no line, and the last
    column and the first row get none on that side. *)
Theorem drawn_block_paste_and_edges (cave : bool) (b : Numpy.array3)
    (x y z imgx imgy : Z) (img : canvas) (id : Z) (t : image * image) :
  has_shape 16 16 128 b = true -> in_grid (x, y, z) ->
  Numpy.get3 b x y z = Ok id -> blockmap id = Some t ->
  drawn_by (render_block cave b x y z imgx imgy img) img ->
  exists pic,
    (if cave then exists tint, Numpy.index depth_colors z = Ok tint /\
                               pic = Blend (fst t) tint
     else pic = Plain (fst t)) /\
    snd (render_block cave b x y z imgx imgy img) =
    Ok (img ++ [Paste pic (imgx, imgy) (snd t)] ++
        (if negb (transparent id) && (negb (x =? 15) && is_air_at b (x + 1) y z)
         then [Line (imgx + 12, imgy) (imgx + 24, imgy + 6)] else []) ++
        (if negb (transparent id) && (negb (y =? 0) && is_air_at b x (y - 1) z)
         then [Line (imgx, imgy + 6) (imgx + 12, imgy)] else [])).
Proof.
  intros Hs Hg Hid Ht Hd. pose proof Hg as (Hx & Hy & Hz).
  destruct (depth_colors_index z Hz) as [tint Htint].
  set (pic := if cave then Blend (fst t) tint else Plain (fst t)).
  exists pic. split.
  { subst pic. destruct cave; [by exists tint|done]. }
  destruct Hd as (pic' & pos & mask & edges & Hr & _). revert Hr.
  unfold render_block. rewrite snd_rd_bind. cbn [read snd]. rewrite Hid.
  cbn [res_bind]. rewrite Ht, snd_rd_bind.
  destruct (snd (occluded cave b x y z)) as [[|]|e]; cbn [res_bind]; try done.
  { intros [= H]. by apply app_cons_neq in H. }
  intros _.
  assert (forall pic0 : picture,
            snd (let img0 := img ++ [Paste pic0 (imgx, imgy) (snd t)] in
                 if transparent id then rd_ret img0
                 else draw_edges b x y z imgx imgy img0) =
            Ok (img ++ [Paste pic0 (imgx, imgy) (snd t)] ++
                (if negb (transparent id) &&
                    (negb (x =? 15) && is_air_at b (x + 1) y z)
                 then [Line (imgx + 12, imgy) (imgx + 24, imgy + 6)] else []) ++
                (if negb (transparent id) &&
                    (negb (y =? 0) && is_air_at b x (y - 1) z)
                 then [Line (imgx, imgy + 6) (imgx + 12, imgy)] else [])))
    as Hdraw.
  { intros pic0. cbv zeta. destruct (transparent id); cbn [negb andb].
    - done.
    - rewrite (draw_edges_spec b x y z imgx imgy _ Hs Hg).
      by rewrite <- app_assoc. }
  subst pic. destruct cave.
  - rewrite snd_rd_bind, snd_rd_bind. cbn [rd_lift snd]. rewrite Htint.
    cbn [res_bind rd_ret snd]. apply Hdraw.
  - rewrite rd_bind_ret_l. apply Hdraw.
Qed.

(** X7. Every paste of a render lands with its corner between 0 and 360
    across and between 18 and 1722 down, counted from the offsets: the 24
    pixel sprites fit the 384 pixel width, while the corner of the lowest
    one, at [(0,15,0)], is at 1722, less than 24 above the height 1728. *)
Theorem pastes_land_in_span (cave : bool) (b : Numpy.array3) (xoff yoff : Z)
    (img img' : canvas) :
  snd (render_loops cave b xoff yoff img) = Ok img' ->
  (exists new, img' = img ++ new /\ Forall (paste_in_span xoff yoff) new) /\
  projector xoff yoff 0 15 0 = (xoff + 180, yoff + 1722) /\
  projector xoff yoff 15 0 127 = (xoff + 180, yoff + 18) /\
  projector xoff yoff 0 0 0 = (xoff, yoff + 1632) /\
  projector xoff yoff 15 15 0 = (xoff + 360, yoff + 1632).
Proof.
  intros H. split; [|clear H; unfold projector; change (16 * 12 / 2) with 96;
                      repeat split; f_equal; lia].
  rewrite render_loops_fold in H. revert H.
  apply (rd_fold_invariant
           (fun i => exists new, i = img ++ new /\
                                 Forall (paste_in_span xoff yoff) new)
           in_grid (render_at cave b xoff yoff) traversal
           traversal_in_grid).
  - intros [[x y] z] a a' (Hx & Hy & Hz) (new & -> & Hnew) Hr.
    cbn [render_at] in Hr. apply render_block_result in Hr.
    destruct Hr as [->|(pic & mask & edges & -> & Hl)]; [by exists new|].
    exists (new ++ Paste pic (fst (projector xoff yoff x y z),
                             snd (projector xoff yoff x y z)) mask :: edges).
    split; [by rewrite <- app_assoc|].
    apply Forall_app. split; [done|]. constructor.
    + unfold projector. cbn [paste_in_span fst snd].
      change (16 * 12 / 2) with 96. lia.
    + apply Forall_forall. intros op Hop.
      apply list_elem_of_In in Hop.
      apply (proj1 (forallb_forall _ _) Hl) in Hop. by destruct op.
  - exists []. by rewrite app_nil_r.
Qed.

(** ** Where a voxel sits in the byte strings *)

Lemma lookup_chunks {A : Type} (n k : nat) :
  forall (l : list A) (i : nat),
    (i < k)%nat -> Numpy.chunks n k l !! i = Some (take n (drop (i * n) l)).
Proof.
  induction k as [|k IH]; intros l i Hi; [lia|].
  destruct i as [|i]; [done|].
  cbn [Numpy.chunks lookup list_lookup]. rewrite IH by lia.
  by rewrite drop_drop.
Qed.

(** A cell of a reshaped buffer, by its place in the buffer (C order, last
    axis fastest). *)
Lemma reshape3_lookup (d0 d1 d2 : nat) (buf : list Z) (a : Numpy.array3)
    (i j k : nat) :
  Numpy.reshape3 d0 d1 d2 buf = Ok a ->
  (i < d0)%nat -> (j < d1)%nat -> (k < d2)%nat ->
  exists plane row v,
    a !! i = Some plane /\ plane !! j = Some row /\ row !! k = Some v /\
    buf !! (i * (d1 * d2) + (j * d2 + k))%nat = Some v.
Proof.
  unfold Numpy.reshape3.
  destruct (Nat.eqb_spec (length buf) (d0 * d1 * d2)) as [Hlen|]; [|done].
  intros [= <-] Hi Hj Hk.
  assert (j * d2 + k < d1 * d2)%nat as Hjk by nia.
  assert (i * (d1 * d2) + (j * d2 + k) < length buf)%nat as Hijk by nia.
  destruct (lookup_lt_is_Some_2 buf _ Hijk) as [v Hv].
  eexists _, _, v. split; [|split; [|split; [|done]]].
  - rewrite list_lookup_fmap, lookup_chunks by done. done.
  - by rewrite lookup_chunks.
  - rewrite lookup_take_lt by done. rewrite lookup_drop.
    rewrite lookup_take_lt by done. by rewrite lookup_drop.
Qed.

(** X8. [get_blockarray] wants exactly 16*16*128 bytes and raises
    [ValueError] on any other length; the block of voxel [(x,y,z)] is then
    byte [x*2048 + y*128 + z] of [Blocks]. *)
Theorem block_of_voxel_is_byte_of_Blocks :
  (forall lv, Z.of_nat (length (Blocks lv)) <> 32768 ->
              get_blockarray lv = Raise ValueError) /\
  (forall lv, Z.of_nat (length (Blocks lv)) = 32768 ->
              exists b, get_blockarray lv = Ok b) /\
  (forall lv b x y z,
      get_blockarray lv = Ok b -> in_grid (x, y, z) ->
      exists v,
        Blocks lv !! Z.to_nat (x * 2048 + y * 128 + z) = Some v /\
        Numpy.get3 b x y z = Ok v).
Proof.
  split; [|split].
  - intros lv H. unfold get_blockarray, Numpy.reshape3.
    destruct (Nat.eqb_spec (length (Blocks lv)) (16 * 16 * 128)); [lia|done].
  - intros lv H. unfold get_blockarray, Numpy.reshape3.
    destruct (Nat.eqb_spec (length (Blocks lv)) (16 * 16 * 128));
      [by eexists|lia].
  - intros lv b x y z Hb (Hx & Hy & Hz).
    destruct (reshape3_lookup 16 16 128 (Blocks lv) b (Z.to_nat x)
                (Z.to_nat y) (Z.to_nat z) Hb)
      as (plane & row & v & Hp & Hr & Hv & Hbuf); [lia..|].
    exists v. split.
    + rewrite <- Hbuf. f_equal. lia.
    + eapply get3_lookup; [lia..|done|done|done].
Qed.

(** X9. [get_skylight_array] wants exactly 16*16*64 bytes; the skylight of
    voxel [(x,y,z)] in cave mode is a nibble of byte [x*1024 + y*64 + z/2]
    of [SkyLight]: the low one when [z] is even, the high one when [z] is
    odd. *)
Theorem skylight_of_voxel_is_nibble_of_SkyLight :
  (forall lv, Z.of_nat (length (SkyLight lv)) <> 16384 ->
              get_skylight_array lv = Raise ValueError) /\
  (forall lv s x y z,
      get_skylight_array lv = Ok s -> in_grid (x, y, z) ->
      exists byte,
        SkyLight lv !! Z.to_nat (x * 1024 + y * 64 + z / 2) = Some byte /\
        Numpy.get3 (skylight_expanded s) x y z =
          Ok (if Z.even z then Z.land byte 15 else Z.shiftr byte 4)).
Proof.
  split.
  - intros lv H. unfold get_skylight_array, Numpy.reshape3.
    destruct (Nat.eqb_spec (length (SkyLight lv)) (16 * 16 * 64)); [lia|done].
  - intros lv s x y z Hs (Hx & Hy & Hz).
    assert (0 <= z / 2 < 64) as Hz2.
    { split; [apply Z.div_pos; lia|]. apply Z.div_lt_upper_bound; lia. }
    destruct (reshape3_lookup 16 16 64 (SkyLight lv) s (Z.to_nat x)
                (Z.to_nat y) (Z.to_nat (z / 2)) Hs)
      as (plane & row & byte & Hp & Hr & Hv & Hbuf); [lia..|].
    exists byte. split.
    + rewrite <- Hbuf. f_equal. lia.
    + destruct (get3_cave_grid (filled 0) s x y z (has_shape_filled 0)
                  (reshape3_has_shape _ _ _ _ _ Hs))
        as (v & byte' & _ & Hb' & He & _); [done|].
      assert (Numpy.get3 s x y (z / 2) = Ok byte) as Hb.
      { eapply get3_lookup; [lia..|done|done|done]. }
      rewrite Hb in Hb'. injection Hb' as <-. exact He.
Qed.

(** ** The lazy attributes *)

(** X10. [self.level] reads the chunk file at most once: a successful
    access keeps the level in [_level] and touches nothing else, and from
    then on every access returns that level without looking at the files,
    whatever they hold by then; a failed access keeps nothing, so the next
    one reads the file again. *)
Theorem level_is_read_once (st : state) :
  match _load_level st with
  | (Ok lv, st1) =>
      current_level st = Ok lv /\
      _level (self st1) = Some lv /\
      chunkfile (self st1) = chunkfile (self st) /\
      _blocks (self st1) = _blocks (self st) /\
      fs st1 = fs st /\ heap st1 = heap st /\ events st1 = events st /\
      forall st2, self st2 = self st1 -> _load_level st2 = (Ok lv, st2)
  | (Raise e, st1) =>
      e = IOError /\ st1 = st /\ _level (self st) = None /\
      get_lvldata (chunkfile (self st)) (fs st) = Raise IOError
  end.
Proof.
  rewrite load_level_eq. unfold current_level.
  destruct (_level (self st)) as [lv|] eqn:E.
  - repeat split; try done. intros st2 H2. rewrite load_level_eq, H2.
    by rewrite E.
  - destruct (get_lvldata _ _) as [lv|e] eqn:Eg.
    + repeat split; try done. intros st2 H2. rewrite load_level_eq, H2. done.
    + assert (e = IOError) as ->.
      { unfold get_lvldata in Eg.
        destruct (lookup_file _ _) as [[?|?|]|]; congruence. }
      done.
Qed.

Lemma level_is_read_once_aux (st : state) :
  match _load_level st with
  | (Ok lv, st1) =>
      current_level st = Ok lv /\
      _level (self st1) = Some lv /\
      chunkfile (self st1) = chunkfile (self st) /\
      _blocks (self st1) = _blocks (self st) /\
      fs st1 = fs st /\ heap st1 = heap st /\ events st1 = events st
  | (Raise e, st1) => e = IOError /\ st1 = st /\ _level (self st) = None
  end.
Proof.
  rewrite load_level_eq. unfold current_level.
  destruct (_level (self st)) as [lv|] eqn:E; [done|].
  destruct (get_lvldata _ _) as [lv|e] eqn:Eg; [done|].
  unfold get_lvldata in Eg.
  destruct (lookup_file _ _) as [[?|?|]|]; by simplify_eq.
Qed.

(** X11. [self.blocks] makes the array at most once: a successful access
    leaves [_blocks] referring to an array object, either the one it
    referred to before or a new read-only one appended to the heap, and
    every later access returns the same reference and changes nothing; a
    failed access leaves no array behind. *)
Theorem blocks_array_is_made_once (st : state) :
  match _load_blocks st with
  | (Ok l, st1) =>
      _blocks (self st1) = Some l /\
      (_blocks (self st) = Some l /\ st1 = st \/
       _blocks (self st) = None /\ l = length (heap st) /\
       exists lv arr,
         current_level st = Ok lv /\ get_blockarray lv = Ok arr /\
         heap st1 = heap st ++ [{| data := arr; writeable := false |}]) /\
      forall st2, self st2 = self st1 -> _load_blocks st2 = (Ok l, st2)
  | (Raise e, st1) =>
      _blocks (self st1) = None /\ heap st1 = heap st /\ fs st1 = fs st /\
      (e = IOError \/ e = ValueError)
  end.
Proof.
  rewrite load_blocks_eq.
  destruct (_blocks (self st)) as [l|] eqn:E.
  { split; [done|]. split; [by left|]. intros st2 H2.
    rewrite load_blocks_eq, H2. by rewrite E. }
  pose proof (level_is_read_once_aux st) as H.
  destruct (_load_level st) as [[lv|e] st1].
  - destruct H as (Hc & Hl & Hcf & Hb & Hf & Hh & He).
    destruct (get_blockarray lv) as [arr|e] eqn:Ea.
    + split; [done|]. split.
      * right. split; [done|]. split; [by rewrite Hh|].
        exists lv, arr. cbn. by rewrite Hh.
      * intros st2 H2. rewrite load_blocks_eq, H2. done.
    + split; [congruence|]. split; [done|]. split; [done|]. right.
      unfold get_blockarray, Numpy.reshape3 in Ea.
      destruct (Nat.eqb _ _); congruence.
  - destruct H as (-> & -> & _). split; [done|]. split; [done|].
    split; [done|]. by left.
Qed.

(** ** Names *)

Lemma split_dot_nonempty (s : string) : split_dot s <> [].
Proof.
  destruct s as [|c s]; [done|]. cbn.
  destruct (Ascii.eqb c "."); [done|]. by destruct (split_dot s).
Qed.

Lemma join_dot_cons (w : string) (ws : list string) :
  ws <> [] -> join_dot (w :: ws) = w +:+ "." +:+ join_dot ws.
Proof. by destruct ws. Qed.

Lemma join_split_dot (s : string) : join_dot (split_dot s) = s.
Proof.
  induction s as [|c s IH]; [done|]. cbn [split_dot].
  destruct (Ascii.eqb_spec c ".") as [->|Hc].
  - rewrite join_dot_cons by apply split_dot_nonempty. by rewrite IH.
  - destruct (split_dot s) as [|w [|w' ws]] eqn:E.
    + by destruct (split_dot_nonempty s).
    + cbn in *. by rewrite IH.
    + rewrite join_dot_cons by done. rewrite join_dot_cons in IH by done.
      by rewrite <- IH.
Qed.

Lemma split_dot_no_dot (s : string) :
  Forall (fun w => no_dot w = true) (split_dot s).
Proof.
  induction s as [|c s IH]; [by repeat constructor|]. cbn [split_dot].
  destruct (Ascii.eqb c ".") eqn:Hc; [by constructor|].
  destruct (split_dot s) as [|w ws] eqn:E; [by apply split_dot_nonempty in E|].
  apply Forall_cons in IH as [Hw Hws]. constructor; [|done].
  cbn. by rewrite Hc, Hw.
Qed.

Lemma split_dot_word (s : string) : no_dot s = true -> split_dot s = [s].
Proof.
  induction s as [|c s IH]; [done|]. cbn. intros H.
  apply andb_true_iff in H as [Hc Hs]. apply negb_true_iff in Hc.
  by rewrite Hc, IH.
Qed.

Lemma string_app_cons (c : ascii) (a s : string) :
  String c a +:+ s = String c (a +:+ s).
Proof. done. Qed.

Lemma split_dot_app (a s : string) :
  no_dot a = true -> split_dot (a +:+ "." +:+ s) = a :: split_dot s.
Proof.
  induction a as [|c a IH]; [done|]. cbn [no_dot]. intros H.
  apply andb_true_iff in H as [Hc Ha]. apply negb_true_iff in Hc.
  rewrite string_app_cons. cbn [split_dot]. by rewrite Hc, IH.
Qed.

Lemma string_app_assoc (a b c : string) : (a +:+ b) +:+ c = a +:+ (b +:+ c).
Proof.
  induction a as [|ch a IH]; [done|]. by rewrite !string_app_cons, IH.
Qed.

Lemma string_app_inj (a b c : string) : a +:+ b = a +:+ c -> b = c.
Proof.
  induction a as [|ch a IH]; [done|]. rewrite !string_app_cons.
  intros [= H]. by apply IH.
Qed.

(** Two prefixes of one name that start with a word and a dot start with
    the same word. *)
Lemma prefix_word (a1 a2 r1 r2 n : string) :
  no_dot a1 = true -> no_dot a2 = true ->
  String.prefix (a1 +:+ "." +:+ r1) n = true ->
  String.prefix (a2 +:+ "." +:+ r2) n = true ->
  a1 = a2 /\
  exists n', String.prefix r1 n' = true /\ String.prefix r2 n' = true.
Proof.
  revert a2 n. induction a1 as [|c a1 IH]; intros a2 n H1 H2 P1 P2.
  - destruct n as [|d n]; [done|].
    change ("" +:+ "." +:+ r1) with (String "." r1) in P1.
    cbn [String.prefix] in P1.
    destruct (ascii_dec "." d) as [<-|]; [|done].
    destruct a2 as [|c2 a2].
    + change ("" +:+ "." +:+ r2) with (String "." r2) in P2.
      cbn [String.prefix] in P2.
      destruct (ascii_dec "." "."); [|done]. split; [done|]. by exists n.
    + rewrite string_app_cons in P2. cbn [String.prefix no_dot] in P2, H2.
      destruct (ascii_dec c2 ".") as [->|]; [|done].
      by rewrite Ascii.eqb_refl in H2.
  - destruct n as [|d n]; [done|].
    rewrite string_app_cons in P1. cbn [String.prefix no_dot] in P1, H1.
    destruct (ascii_dec c d) as [<-|]; [|done].
    apply andb_true_iff in H1 as [Hc H1].
    destruct a2 as [|c2 a2].
    + change ("" +:+ "." +:+ r2) with (String "." r2) in P2.
      cbn [String.prefix] in P2.
      destruct (ascii_dec "." c) as [<-|]; [|done].
      by rewrite Ascii.eqb_refl in Hc.
    + rewrite string_app_cons in P2. cbn [String.prefix no_dot] in P2, H2.
      destruct (ascii_dec c2 c) as [->|]; [|done].
      apply andb_true_iff in H2 as [_ H2].
      destruct (IH a2 n H1 H2 P1 P2) as (-> & n' & ? & ?).
      split; [done|]. by exists n'.
Qed.

(** The names the clean-up loop takes for one chunk and mode are taken
    for no other chunk or mode, when the block ids are two words. *)
Lemma old_images_disjoint (x1 z1 x2 z2 : string) (cave1 cave2 : bool)
    (n : string) :
  no_dot x1 = true -> no_dot z1 = true ->
  no_dot x2 = true -> no_dot z2 = true ->
  is_old_image (x1 +:+ "." +:+ z1) cave1 n = true ->
  is_old_image (x2 +:+ "." +:+ z2) cave2 n = true ->
  x1 = x2 /\ z1 = z2 /\ cave1 = cave2.
Proof.
  intros Hx1 Hz1 Hx2 Hz2 H1 H2. unfold is_old_image, old_prefix in *.
  apply andb_true_iff in H1 as [H1 _]. apply andb_true_iff in H2 as [H2 _].
  rewrite !string_app_assoc in H1, H2.
  destruct (prefix_word "img" "img" _ _ n eq_refl eq_refl H1 H2)
    as (_ & n1 & P1 & P2).
  destruct (prefix_word x1 x2 _ _ n1 Hx1 Hx2 P1 P2) as (-> & n2 & Q1 & Q2).
  destruct (prefix_word z1 z2 _ _ n2 Hz1 Hz2 Q1 Q2) as (-> & n3 & R1 & R2).
  split; [done|]. split; [done|].
  assert (no_dot (mode_name cave1) = true) as M1 by (by destruct cave1).
  assert (no_dot (mode_name cave2) = true) as M2 by (by destruct cave2).
  destruct (prefix_word (mode_name cave1) (mode_name cave2) "" "" n3 M1 M2)
    as (E & _); [done..|].
  by destruct cave1, cave2.
Qed.

(** Splitting a name at its dots and joining the parts with dots gives
    the name back; no part holds a dot, there is at least one part, and a
    name with no dot is its only part. *)
Lemma split_and_join_at_dots (s : string) :
  join_dot (split_dot s) = s /\
  Forall (fun w => no_dot w = true) (split_dot s) /\
  split_dot s <> [] /\
  (no_dot s = true -> split_dot s = [s]).
Proof.
  split; [apply join_split_dot|]. split; [apply split_dot_no_dot|].
  split; [apply split_dot_nonempty|apply split_dot_word].
Qed.

Lemma blockid_of_words (p x z rest : string) :
  no_dot p = true -> no_dot x = true -> no_dot z = true ->
  blockid_of (p +:+ "." +:+ x +:+ "." +:+ z +:+ "." +:+ rest) = x +:+ "." +:+ z.
Proof.
  intros Hp Hx Hz. unfold blockid_of.
  rewrite !split_dot_app by done. cbn [drop take join_dot]. done.
Qed.

(** X12. The block id of a file name [p.x.z.rest], such as [c.x.z.dat],
    whose first three parts hold no dot is [x.z], whatever follows; a name
    with a single dot gives the part after the dot, and a name with no dot
    gives the empty block id. *)
Theorem blockid_of_chunk_file_name (p x z rest : string) :
  no_dot p = true -> no_dot x = true -> no_dot z = true ->
  blockid_of (p +:+ "." +:+ x +:+ "." +:+ z +:+ "." +:+ rest) = x +:+ "." +:+ z /\
  blockid_of (p +:+ "." +:+ x +:+ "." +:+ z) = x +:+ "." +:+ z /\
  blockid_of (p +:+ "." +:+ x) = x /\
  blockid_of p = "".
Proof.
  intros Hp Hx Hz. split; [by apply blockid_of_words|].
  unfold blockid_of. rewrite !split_dot_app by done.
  rewrite !split_dot_word by done. done.
Qed.

(** ** The files after [render_and_save] *)

Lemma lookup_None_paths (p : path) (fs0 : filesystem) :
  lookup_file p fs0 = None <-> p ∉ fst <$> fs0.
Proof.
  induction fs0 as [|[q f] fs0 IH]; [split; [intros _; apply not_elem_of_nil|done]|].
  cbn [lookup_file]. rewrite fmap_cons, not_elem_of_cons. cbn [fst].
  destruct (path_eqb q p) eqn:E.
  - apply path_eqb_eq in E as ->. split; [done|]. by intros [? _].
  - rewrite IH. split; [|by intros [_ ?]]. intros H. split; [|done].
    intros ->. by rewrite path_eqb_refl in E.
Qed.

Lemma lookup_unlink_other (p q : path) (fs0 : filesystem) :
  q <> p -> lookup_file q (os_unlink p fs0) = lookup_file q fs0.
Proof.
  intros Hne. induction fs0 as [|[p' f] fs0 IH]; [done|].
  rewrite unlink_cons. cbn [fst lookup_file].
  destruct (path_eqb p' p) eqn:E.
  - apply path_eqb_eq in E as ->.
    destruct (path_eqb p q) eqn:E'; [|done].
    apply path_eqb_eq in E'. by subst.
  - cbn [lookup_file]. by rewrite IH.
Qed.

Lemma lookup_unlink_same (p : path) (fs0 : filesystem) :
  lookup_file p (os_unlink p fs0) = None.
Proof.
  induction fs0 as [|[p' f] fs0 IH]; [done|].
  rewrite unlink_cons. cbn [fst].
  destruct (path_eqb p' p) eqn:E; [done|]. cbn [lookup_file]. by rewrite E.
Qed.

Lemma lookup_write_other (p q : path) (f : file) (fs0 : filesystem) :
  q <> p -> lookup_file q (write_file p f fs0) = lookup_file q fs0.
Proof.
  intros Hne. unfold write_file. destruct (os_path_exists p fs0).
  - induction fs0 as [|[p' g] fs0 IH]; [done|]. rewrite fmap_cons.
    cbn [fst lookup_file]. destruct (path_eqb p' p) eqn:E.
    + apply path_eqb_eq in E as ->. cbn [lookup_file].
      destruct (path_eqb p q) eqn:E'; [|done].
      apply path_eqb_eq in E'. by subst.
    + cbn [lookup_file]. by rewrite IH.
  - induction fs0 as [|[p' g] fs0 IH].
    + cbn. destruct (path_eqb p q) eqn:E'; [|done].
      apply path_eqb_eq in E'. by subst.
    + cbn [app lookup_file]. by rewrite IH.
Qed.

Lemma paths_write (p : path) (f : file) (fs0 : filesystem) :
  fst <$> write_file p f fs0 =
  if os_path_exists p fs0 then fst <$> fs0 else (fst <$> fs0) ++ [p].
Proof.
  unfold write_file. destruct (os_path_exists p fs0).
  - rewrite <- list_fmap_compose. apply list_fmap_ext. intros i [q g] _.
    cbn. by destruct (path_eqb q p).
  - by rewrite fmap_app.
Qed.

Lemma paths_unlink (p : path) (fs0 : filesystem) :
  fst <$> os_unlink p fs0 = filter (fun q => q <> p) (fst <$> fs0).
Proof.
  induction fs0 as [|[q g] fs0 IH]; [done|].
  rewrite unlink_cons, fmap_cons, filter_cons. cbn [fst].
  destruct (path_eqb q p) eqn:E.
  - apply path_eqb_eq in E as ->.
    by rewrite decide_False by (intros H; by apply H).
  - rewrite decide_True; [by rewrite fmap_cons, IH|].
    intros ->. by rewrite path_eqb_refl in E.
Qed.

(** The listing of a directory depends on the paths only. *)
Lemma listdir_paths (d : string) (fs0 : filesystem) :
  os_listdir d fs0 =
  snd <$> filter (fun q => String.eqb (fst q) d = true) (fst <$> fs0).
Proof.
  unfold os_listdir. induction fs0 as [|[q g] fs0 IH]; [done|].
  rewrite fmap_cons, !filter_cons. cbn [fst].
  destruct (decide ((fst q =? d)%string = true)); [|done].
  rewrite !fmap_cons. cbn [fst snd]. by rewrite IH.
Qed.

(** What [render_and_save] returns and leaves behind, case by case. *)
Lemma render_and_save_outcome (cf : path) (cave : bool) (st : state) :
  let r := render_and_save cf cave st in
  match get_lvldata cf (fs st) with
  | Raise _ =>
      (exists e, fst r = Raise e) /\ fs (snd r) = fs st /\
      events (snd r) = events st
  | Ok lv =>
      let dest := dest_path_of cf cave lv in
      if cache_hit cf cave lv (fs st) then
        fst r = Ok dest /\ fs (snd r) = fs st /\ events (snd r) = events st
      else
        let fs1 := files_at_render cf cave lv (fs st) in
        let evs :=
          events st ++ cleanup_events cf cave lv (fs st) ++ [Rendered cave] in
        (exists e, fst r = Raise e /\ fs (snd r) = fs1 /\
                   events (snd r) = evs) \/
        (exists img, fst r = Ok dest /\
                     fs (snd r) = write_file dest (ImageFile img) fs1 /\
                     events (snd r) = evs ++ [Written dest])
  end.
Proof.
  intros r. subst r. rewrite render_and_save_eq. unfold os_path_exists.
  destruct (get_lvldata cf (fs st)) as [lv|e] eqn:Hlv.
  2:{ destruct (lookup_file cf (fs st)); [|by eauto]. by eauto. }
  rewrite (proj1 (get_lvldata_Ok _ _ _) Hlv). cbv zeta.
  unfold cache_hit, files_at_render, cleanup_events.
  assert (forall stx,
            let rs := chunk_render None 0 0 cave stx in
            let r := save_image (dest_path_of cf cave lv) rs in
            (exists e, fst r = Raise e /\ fs (snd r) = fs stx /\
               events (snd r) = events stx ++ [Rendered cave]) \/
            (exists img, fst r = Ok (dest_path_of cf cave lv) /\
               fs (snd r) =
                 write_file (dest_path_of cf cave lv) (ImageFile img) (fs stx) /\
               events (snd r) =
                 (events stx ++ [Rendered cave]) ++
                 [Written (dest_path_of cf cave lv)])) as Hrun.
  { intros stx.
    pose proof (frame_chunk_render None 0 0 cave stx) as ([F Ev] & _).
    cbn [fs events] in F, Ev.
    destruct (chunk_render None 0 0 cave stx) as [[img|e] st2];
      cbn [save_image fst snd fs events] in *.
    - right. exists img. by rewrite F, Ev.
    - left. exists e. by rewrite F, Ev. }
  destruct (lookup_file (dest_path_of cf cave lv) (fs st)) as [[lv'|c|]|].
  - rewrite app_assoc, app_nil_r. apply (Hrun (renderer_with cf (Some lv) st)).
  - done.
  - rewrite app_assoc, app_nil_r. apply (Hrun (renderer_with cf (Some lv) st)).
  - rewrite remove_old_image_eq, find_head_filter.
    cbn [renderer_with fs]. fold (cache_entries cf cave (fs st)).
    destruct (head (cache_entries cf cave (fs st))) as [n|]; cbn [snd].
    + rewrite app_assoc. apply (Hrun (Build_state _ _ _ _)).
    + rewrite app_assoc, app_nil_r.
      apply (Hrun (renderer_with cf (Some lv) st)).
Qed.

Lemma cache_entries_paths (cf : path) (cave : bool) (fs1 fs2 : filesystem) :
  fst <$> fs1 = fst <$> fs2 ->
  cache_entries cf cave fs1 = cache_entries cf cave fs2.
Proof. intros H. unfold cache_entries. by rewrite !listdir_paths, H. Qed.

Lemma write_NoDup (p : path) (f : file) (fs0 : filesystem) :
  NoDup (fst <$> fs0) -> NoDup (fst <$> write_file p f fs0).
Proof.
  intros H. rewrite paths_write. unfold os_path_exists.
  destruct (lookup_file p fs0) eqn:E; [done|].
  apply lookup_None_paths in E. apply NoDup_app. split; [done|].
  split; [|apply NoDup_singleton].
  intros q Hq ->%list_elem_of_singleton. done.
Qed.

Lemma unlink_NoDup (p : path) (fs0 : filesystem) :
  NoDup (fst <$> fs0) -> NoDup (fst <$> os_unlink p fs0).
Proof. intros H. rewrite paths_unlink. by apply NoDup_filter. Qed.

Lemma files_at_render_NoDup (cf : path) (cave : bool) (lv : level)
    (fs0 : filesystem) :
  NoDup (fst <$> fs0) -> NoDup (fst <$> files_at_render cf cave lv fs0).
Proof.
  intros H. unfold files_at_render.
  destruct (lookup_file _ _); [done|].
  destruct (head _); [by apply unlink_NoDup|done].
Qed.

Lemma render_and_save_NoDup (cf : path) (cave : bool) (st : state) :
  NoDup (fst <$> fs st) ->
  NoDup (fst <$> fs (snd (render_and_save cf cave st))).
Proof.
  intros H. pose proof (render_and_save_outcome cf cave st) as Ho.
  cbv zeta in Ho. destruct (get_lvldata cf (fs st)) as [lv|e].
  - destruct (cache_hit cf cave lv (fs st)).
    + destruct Ho as (_ & -> & _). done.
    + destruct Ho as [(e & _ & -> & _)|(img & _ & -> & _)].
      * by apply files_at_render_NoDup.
      * by apply write_NoDup, files_at_render_NoDup.
  - destruct Ho as (_ & -> & _). done.
Qed.

(** The entries of the chunk and mode a call is for, after the call. *)
Lemma cache_entries_after (cf : path) (cave : bool) (st : state) (lv : level) :
  NoDup (fst <$> fs st) -> get_lvldata cf (fs st) = Ok lv ->
  let r := render_and_save cf cave st in
  let old := cache_entries cf cave (fs st) in
  cache_entries cf cave (fs (snd r)) =
  match lookup_file (dest_path_of cf cave lv) (fs st) with
  | Some _ => old
  | None =>
      tail old ++
      match fst r with
      | Ok _ => [snd (dest_path_of cf cave lv)]
      | Raise _ => []
      end
  end.
Proof.
  intros Hnd Hlv r old. subst r old.
  pose proof (render_and_save_outcome cf cave st) as Ho.
  cbv zeta in Ho. rewrite Hlv in Ho.
  unfold cache_hit, files_at_render in Ho.
  destruct (lookup_file (dest_path_of cf cave lv) (fs st)) as [f|] eqn:El.
  - assert (os_path_exists (dest_path_of cf cave lv) (fs st) = true) as Hex
      by (unfold os_path_exists; by rewrite El).
    assert ((exists e, fst (render_and_save cf cave st) = Raise e /\
               fs (snd (render_and_save cf cave st)) = fs st) \/
            (exists img, fs (snd (render_and_save cf cave st)) =
               write_file (dest_path_of cf cave lv) (ImageFile img) (fs st)) \/
            fs (snd (render_and_save cf cave st)) = fs st) as Hc.
    { destruct f as [lv'|c|];
        [destruct Ho as [(e & ? & ? & _)|(img & _ & ? & _)]; eauto
        |destruct Ho as (_ & ? & _); eauto
        |destruct Ho as [(e & ? & ? & _)|(img & _ & ? & _)]; eauto]. }
    destruct Hc as [(e & _ & ->)|[(img & ->)| ->]]; [done| |done].
    apply cache_entries_paths. by rewrite paths_write, Hex.
  - assert (cache_entries cf cave
              (match head (cache_entries cf cave (fs st)) with
               | Some n => os_unlink (fst cf, n) (fs st)
               | None => fs st
               end) = tail (cache_entries cf cave (fs st))) as Ht.
    { destruct (head (cache_entries cf cave (fs st))) as [n|] eqn:Hh.
      - by apply cache_entries_unlink_first.
      - by destruct (cache_entries cf cave (fs st)). }
    assert (lookup_file (dest_path_of cf cave lv)
              (match head (cache_entries cf cave (fs st)) with
               | Some n => os_unlink (fst cf, n) (fs st)
               | None => fs st
               end) = None) as Hn.
    { destruct (head _); [by apply lookup_unlink_None|done]. }
    destruct Ho as [(e & -> & -> & _)|(img & -> & -> & _)].
    + by rewrite app_nil_r.
    + rewrite cache_entries_write_new by done. by rewrite Ht.
Qed.

Lemma listdir_lookup (d n : string) (fs0 : filesystem) :
  n ∈ os_listdir d fs0 -> exists f, lookup_file (d, n) fs0 = Some f.
Proof.
  intros Hin. destruct (lookup_file (d, n) fs0) as [f|] eqn:E; [by exists f|].
  apply lookup_None_paths in E. destruct E.
  unfold os_listdir in Hin.
  apply list_elem_of_fmap in Hin as ([[d' n'] f] & -> & Hin).
  apply list_elem_of_filter in Hin as [Hd Hin]. cbn [fst snd] in *.
  apply String.eqb_eq in Hd as ->.
  apply list_elem_of_fmap. by exists (d, n', f).
Qed.

(** C5, where the code parts from it. When the expected cache file does
    not exist, the clean-up loop of [render_and_save] removes the first
    name [os.listdir] reports that starts with [img.<blockid>.<mode>.] and
    ends with [.png], and stops: every other old image of the chunk and
    mode is still there after the call, holding what it held.  So the
    entries of the pair after the call are the old ones but the first,
    and the new one when the render returned, in whatever order; with two
    old images or more and a render that returns, two entries or more
    remain, where the claim leaves at most one.  Only when at most one was
    there before is at most one there after. *)
Theorem cleanup_stops_after_first_old_image (cf : path) (cave : bool)
    (st : state) (lv : level) :
  NoDup (fst <$> fs st) ->
  get_lvldata cf (fs st) = Ok lv ->
  lookup_file (dest_path_of cf cave lv) (fs st) = None ->
  let r := render_and_save cf cave st in
  let old := cache_entries cf cave (fs st) in
  (forall n, head old = Some n ->
     lookup_file (fst cf, n) (fs (snd r)) = None) /\
  (forall n, n ∈ tail old ->
     exists f, lookup_file (fst cf, n) (fs st) = Some f /\
               lookup_file (fst cf, n) (fs (snd r)) = Some f) /\
  Permutation (cache_entries cf cave (fs (snd r)))
    (tail old ++ match fst r with
                 | Ok _ => [snd (dest_path_of cf cave lv)]
                 | Raise _ => []
                 end) /\
  events (snd r) =
    events st ++
    match head old with Some n => [Unlinked (fst cf, n)] | None => [] end ++
    [Rendered cave] ++
    match fst r with Ok p => [Written p] | Raise _ => [] end /\
  ((2 <= length old)%nat -> fst r = Ok (dest_path_of cf cave lv) ->
   (2 <= length (cache_entries cf cave (fs (snd r))))%nat) /\
  ((length old <= 1)%nat ->
   (length (cache_entries cf cave (fs (snd r))) <= 1)%nat).
Proof.
  intros Hnd Hlv Hnone r old.
  pose proof (cache_entries_after cf cave st lv Hnd Hlv) as Hc.
  cbv zeta in Hc. rewrite Hnone in Hc. fold r old in Hc.
  pose proof (render_and_save_outcome cf cave st) as Ho.
  cbv zeta in Ho. rewrite Hlv in Ho.
  unfold cache_hit, files_at_render, cleanup_events in Ho.
  rewrite Hnone in Ho. fold r old in Ho.
  assert (forall n, n ∈ old ->
            exists f, lookup_file (fst cf, n) (fs st) = Some f /\
                      (fst cf, n) <> dest_path_of cf cave lv) as Hthere.
  { intros n Hn. apply list_elem_of_filter in Hn as [_ Hn].
    destruct (listdir_lookup _ _ _ Hn) as [f Hf]. exists f. split; [done|].
    intros E. rewrite E in Hf. congruence. }
  assert (NoDup old) as Hndo.
  { apply NoDup_filter. by apply listdir_NoDup. }
  split; [|split; [|split; [|split; [|split]]]].
  - intros n Hh. rewrite Hh in Ho.
    assert (n ∈ old) as Hn.
    { destruct old; [done|]. injection Hh as ->. left. }
    destruct (Hthere n Hn) as (f & _ & Hne).
    destruct Ho as [(e & _ & -> & _)|(img & _ & -> & _)].
    + apply lookup_unlink_same.
    + rewrite lookup_write_other by done. apply lookup_unlink_same.
  - intros n Hn.
    assert (n ∈ old) as Hn'.
    { destruct old; [done|]. by right. }
    destruct (Hthere n Hn') as (f & Hf & Hne). exists f. split; [done|].
    assert (lookup_file (fst cf, n)
              match head old with
              | Some n0 => os_unlink (fst cf, n0) (fs st)
              | None => fs st
              end = Some f) as H1.
    { destruct old as [|h t]; [done|]. cbn [head tail] in *.
      apply NoDup_cons in Hndo as [Hh _].
      rewrite lookup_unlink_other; [done|]. intros [= ->]. done. }
    destruct Ho as [(e & _ & -> & _)|(img & _ & -> & _)]; [done|].
    by rewrite lookup_write_other.
  - by rewrite Hc.
  - destruct Ho as [(e & -> & _ & ->)|(img & -> & _ & ->)].
    + by rewrite app_nil_r.
    + by rewrite <- !app_assoc.
  - intros Hlen Hr. rewrite Hc, Hr, length_app. cbn [length].
    destruct old; cbn [length tail] in *; lia.
  - intros Hlen. rewrite Hc, length_app.
    assert (length (tail old) = 0)%nat as ->.
    { destruct old as [|? [|? ?]]; cbn in *; lia. }
    destruct (fst r); cbn; lia.
Qed.

(** X13. One call keeps the cache in order, whatever it returns: when no
    two files have the same path before, none have after, and when the
    chunk and mode had at most one cache entry before, they have at most
    one after. *)
Theorem one_call_keeps_at_most_one_entry (cf : path) (cave : bool)
    (st : state) :
  NoDup (fst <$> fs st) ->
  let r := render_and_save cf cave st in
  NoDup (fst <$> fs (snd r)) /\
  ((length (cache_entries cf cave (fs st)) <= 1)%nat ->
   (length (cache_entries cf cave (fs (snd r))) <= 1)%nat).
Proof.
  intros Hnd r. split; [by apply render_and_save_NoDup|]. subst r.
  destruct (get_lvldata cf (fs st)) as [lv|e] eqn:Hlv.
  - rewrite (cache_entries_after cf cave st lv Hnd Hlv).
    destruct (lookup_file _ _); [done|]. intros Hlen.
    rewrite length_app.
    assert (length (tail (cache_entries cf cave (fs st))) = 0)%nat as ->.
    { destruct (cache_entries cf cave (fs st)) as [|? [|? ?]]; cbn in *; lia. }
    destruct (fst _); cbn; lia.
  - pose proof (render_and_save_outcome cf cave st) as Ho.
    cbv zeta in Ho. rewrite Hlv in Ho. destruct Ho as (_ & -> & _). done.
Qed.

(** X14. A cache file that is there but does not decode is rendered again
    and overwritten in place: no file is removed or added, no other file
    changes, and when the render returns the file holds the new image;
    when the render raises the files are as they were. *)
Theorem damaged_cache_file_is_rewritten (cf : path) (cave : bool)
    (st : state) (lv : level) (f : file) :
  get_lvldata cf (fs st) = Ok lv ->
  lookup_file (dest_path_of cf cave lv) (fs st) = Some f ->
  (forall c, f <> ImageFile c) ->
  let r := render_and_save cf cave st in
  let dest := dest_path_of cf cave lv in
  fst <$> fs (snd r) = fst <$> fs st /\
  (forall q, q <> dest -> lookup_file q (fs (snd r)) = lookup_file q (fs st)) /\
  match fst r with
  | Ok p =>
      p = dest /\
      (exists img, lookup_file dest (fs (snd r)) = Some (ImageFile img)) /\
      events (snd r) = events st ++ [Rendered cave; Written dest]
  | Raise e =>
      fs (snd r) = fs st /\ events (snd r) = events st ++ [Rendered cave]
  end.
Proof.
  intros Hlv Hl Hf r dest. subst r dest.
  pose proof (render_and_save_outcome cf cave st) as Ho.
  cbv zeta in Ho. rewrite Hlv in Ho.
  unfold cache_hit, files_at_render, cleanup_events in Ho. rewrite Hl in Ho.
  assert (os_path_exists (dest_path_of cf cave lv) (fs st) = true) as Hex
    by (unfold os_path_exists; by rewrite Hl).
  assert (match f with ImageFile _ => true | _ => false end = false) as Hm.
  { destruct f as [?|c|]; [done| |done]. by destruct (Hf c). }
  assert ((exists e, fst (render_and_save cf cave st) = Raise e /\
             fs (snd (render_and_save cf cave st)) = fs st /\
             events (snd (render_and_save cf cave st)) =
               events st ++ [] ++ [Rendered cave]) \/
          (exists img,
             fst (render_and_save cf cave st) = Ok (dest_path_of cf cave lv) /\
             fs (snd (render_and_save cf cave st)) =
               write_file (dest_path_of cf cave lv) (ImageFile img) (fs st) /\
             events (snd (render_and_save cf cave st)) =
               (events st ++ [] ++ [Rendered cave]) ++
               [Written (dest_path_of cf cave lv)])) as Hc.
  { destruct f as [?|c|]; [done| |done]. by destruct (Hf c). }
  clear Ho. destruct Hc as [(e & -> & -> & ->)|(img & -> & -> & ->)].
  - done.
  - split; [by rewrite paths_write, Hex|].
    split; [intros q Hq; by apply lookup_write_other|].
    split; [done|]. split; [exists img; apply lookup_write_file|].
    by rewrite <- app_assoc.
Qed.

(** X15. Whenever [render_and_save] returns, the path it returns is the
    cache path of the level the chunk file held, in the directory of the
    chunk file, and the file at that path decodes as an image. *)
Theorem returned_path_holds_an_image (cf : path) (cave : bool) (st : state)
    (p : path) :
  fst (render_and_save cf cave st) = Ok p ->
  exists lv img,
    lookup_file cf (fs st) = Some (ChunkData lv) /\
    p = dest_path_of cf cave lv /\ fst p = fst cf /\
    lookup_file p (fs (snd (render_and_save cf cave st))) =
      Some (ImageFile img).
Proof.
  intros Hr. pose proof (render_and_save_outcome cf cave st) as Ho.
  cbv zeta in Ho. destruct (get_lvldata cf (fs st)) as [lv|e] eqn:Hlv.
  2:{ destruct Ho as ((e' & He) & _). congruence. }
  apply get_lvldata_Ok in Hlv. exists lv. unfold cache_hit in Ho.
  destruct (lookup_file (dest_path_of cf cave lv) (fs st))
    as [[lv'|c|]|] eqn:El.
  2:{ destruct Ho as (Hp & -> & _). rewrite Hr in Hp. injection Hp as ->.
      by exists c. }
  all: destruct Ho as [(e & He & _)|(img & Hp & -> & _)]; [congruence|];
    rewrite Hr in Hp; injection Hp as ->; exists img;
    by rewrite lookup_write_file.
Qed.

(** The clean-up touches only names of the directory of the chunk file
    that pass its test, and the name saved to is one of those. *)
Lemma files_at_render_keeps (cf : path) (cave : bool) (lv : level)
    (fs0 : filesystem) (q : path) :
  no_entry cf cave q ->
  q <> dest_path_of cf cave lv /\
  lookup_file q (files_at_render cf cave lv fs0) = lookup_file q fs0.
Proof.
  unfold no_entry. intros Hq. split.
  - intros ->. unfold dest_path_of in Hq. cbn [fst snd] in Hq.
    rewrite dest_filename_is_old_image in Hq. by destruct Hq.
  - unfold files_at_render.
    destruct (lookup_file (dest_path_of cf cave lv) fs0); [done|].
    destruct (head (cache_entries cf cave fs0)) as [n|] eqn:Hh; [|done].
    apply lookup_unlink_other. intros ->. cbn [fst snd] in Hq.
    assert (n ∈ cache_entries cf cave fs0) as Hin.
    { destruct (cache_entries cf cave fs0); [done|].
      injection Hh as ->. left. }
    apply list_elem_of_filter in Hin as [Hn _]. rewrite Hn in Hq.
    by destruct Hq.
Qed.

(** X16. [render_and_save] changes no file outside the directory of the
    chunk file, and in that directory none whose name does not both start
    with [img.<blockid>.<mode>.] and end with [.png]: such a file is there
    after the call exactly when it was before, holding what it held. *)
Theorem files_outside_the_cache_are_kept (cf : path) (cave : bool)
    (st : state) (q : path) :
  fst q <> fst cf \/ is_old_image (blockid_of (snd cf)) cave (snd q) = false ->
  lookup_file q (fs (snd (render_and_save cf cave st))) =
  lookup_file q (fs st).
Proof.
  intros Hq. pose proof (render_and_save_outcome cf cave st) as Ho.
  cbv zeta in Ho. destruct (get_lvldata cf (fs st)) as [lv|e] eqn:Hlv.
  2:{ by destruct Ho as (_ & -> & _). }
  destruct (files_at_render_keeps cf cave lv (fs st) q Hq) as [Hd H1].
  destruct (cache_hit cf cave lv (fs st)).
  - by destruct Ho as (_ & -> & _).
  - destruct Ho as [(e & _ & -> & _)|(img & _ & -> & _)]; [done|].
    by rewrite lookup_write_other.
Qed.

Lemma well_named_blockid (cf : path) :
  well_named cf = true ->
  exists x z, no_dot x = true /\ no_dot z = true /\
              blockid_of (snd cf) = x +:+ "." +:+ z.
Proof.
  unfold well_named, blockid_of. intros H. apply Nat.leb_le in H.
  pose proof (split_dot_no_dot (snd cf)) as Hf.
  destruct (split_dot (snd cf)) as [|p [|x [|z rest]]]; cbn in H; try lia.
  apply Forall_cons in Hf as [_ Hf]. apply Forall_cons in Hf as [Hx Hf].
  apply Forall_cons in Hf as [Hz _]. by exists x, z.
Qed.

(** X17. The images of another chunk, and those of the same chunk in the
    other mode, are kept: for chunk files named like [c.x.z.dat], a name
    that the clean-up loop would take for one block id and mode is neither
    removed nor rewritten by [render_and_save] for a different block id or
    mode, in whatever directory. *)
Theorem images_of_other_chunks_and_modes_are_kept (cf cf' : path)
    (cave cave' : bool) (st : state) (d n : string) :
  well_named cf = true -> well_named cf' = true ->
  (blockid_of (snd cf'), cave') <> (blockid_of (snd cf), cave) ->
  is_old_image (blockid_of (snd cf')) cave' n = true ->
  lookup_file (d, n) (fs (snd (render_and_save cf cave st))) =
  lookup_file (d, n) (fs st).
Proof.
  intros Hw Hw' Hne Hn.
  assert (no_entry cf cave (d, n)) as Hq.
  { right. cbn [snd].
    destruct (is_old_image (blockid_of (snd cf)) cave n) eqn:E; [|done].
    destruct (well_named_blockid cf Hw) as (x & z & Hx & Hz & Hb).
    destruct (well_named_blockid cf' Hw') as (x' & z' & Hx' & Hz' & Hb').
    rewrite Hb in E, Hne. rewrite Hb' in Hn, Hne.
    destruct (old_images_disjoint x z x' z' cave cave' n) as (-> & -> & ->);
      done. }
  pose proof (render_and_save_outcome cf cave st) as Ho.
  cbv zeta in Ho. destruct (get_lvldata cf (fs st)) as [lv|e] eqn:Hlv.
  2:{ by destruct Ho as (_ & -> & _). }
  destruct (files_at_render_keeps cf cave lv (fs st) (d, n) Hq) as [Hd H1].
  destruct (cache_hit cf cave lv (fs st)).
  - by destruct Ho as (_ & -> & _).
  - destruct Ho as [(e & _ & -> & _)|(img & _ & -> & _)]; [done|].
    by rewrite lookup_write_other.
Qed.

(** ** One call after another *)

Lemma cache_entries_cons (cf : path) (cave : bool) (e : path * file)
    (fs0 : filesystem) :
  cache_entries cf cave (e :: fs0) =
  (if String.eqb (fst (fst e)) (fst cf) &&
      is_old_image (blockid_of (snd cf)) cave (snd (fst e))
   then [snd (fst e)] else []) ++ cache_entries cf cave fs0.
Proof.
  unfold cache_entries. rewrite listdir_cons.
  destruct (String.eqb (fst (fst e)) (fst cf)); [|done].
  rewrite filter_cons. cbn [andb].
  destruct (is_old_image (blockid_of (snd cf)) cave (snd (fst e))) eqn:E.
  - by rewrite decide_True.
  - by rewrite decide_False by (cbv beta; congruence).
Qed.

Lemma cache_entries_app (cf : path) (cave : bool) (fs1 fs2 : filesystem) :
  cache_entries cf cave (fs1 ++ fs2) =
  cache_entries cf cave fs1 ++ cache_entries cf cave fs2.
Proof.
  induction fs1 as [|e fs1 IH]; [done|].
  rewrite <- app_comm_cons, !cache_entries_cons, IH. by rewrite app_assoc.
Qed.

Lemma no_entry_test (cf : path) (cave : bool) (q : path) :
  no_entry cf cave q ->
  String.eqb (fst q) (fst cf) &&
    is_old_image (blockid_of (snd cf)) cave (snd q) = false.
Proof.
  intros [H|H].
  - apply String.eqb_neq in H. by rewrite H.
  - rewrite H. apply andb_false_r.
Qed.

Lemma cache_entries_unlink_other (cf : path) (cave : bool) (q : path)
    (fs0 : filesystem) :
  no_entry cf cave q ->
  cache_entries cf cave (os_unlink q fs0) = cache_entries cf cave fs0.
Proof.
  intros Hq. induction fs0 as [|[p f] fs0 IH]; [done|].
  rewrite unlink_cons. cbn [fst]. destruct (path_eqb p q) eqn:E.
  - apply path_eqb_eq in E as ->. rewrite cache_entries_cons. cbn [fst].
    by rewrite (no_entry_test cf cave q Hq).
  - by rewrite !cache_entries_cons, IH.
Qed.

Lemma cache_entries_write_other (cf : path) (cave : bool) (q : path)
    (f : file) (fs0 : filesystem) :
  no_entry cf cave q ->
  cache_entries cf cave (write_file q f fs0) = cache_entries cf cave fs0.
Proof.
  intros Hq. destruct (os_path_exists q fs0) eqn:E.
  - apply cache_entries_paths. by rewrite paths_write, E.
  - unfold write_file. rewrite E, cache_entries_app, cache_entries_cons.
    cbn [fst]. rewrite (no_entry_test cf cave q Hq). by rewrite !app_nil_r.
Qed.

(** A call for one chunk and mode leaves the entries of another as they
    were. *)
Lemma cache_entries_other_call (cf cf1 : path) (cave cave1 : bool)
    (st : state) :
  (forall n, is_old_image (blockid_of (snd cf1)) cave1 n = true ->
             no_entry cf cave (fst cf1, n)) ->
  cache_entries cf cave (fs (snd (render_and_save cf1 cave1 st))) =
  cache_entries cf cave (fs st).
Proof.
  intros Hd. pose proof (render_and_save_outcome cf1 cave1 st) as Ho.
  cbv zeta in Ho. destruct (get_lvldata cf1 (fs st)) as [lv|e] eqn:Hlv.
  2:{ by destruct Ho as (_ & -> & _). }
  assert (cache_entries cf cave (files_at_render cf1 cave1 lv (fs st)) =
          cache_entries cf cave (fs st)) as H1.
  { unfold files_at_render.
    destruct (lookup_file (dest_path_of cf1 cave1 lv) (fs st)); [done|].
    destruct (head (cache_entries cf1 cave1 (fs st))) as [n|] eqn:Hh; [|done].
    apply cache_entries_unlink_other, Hd.
    assert (n ∈ cache_entries cf1 cave1 (fs st)) as Hin.
    { destruct (cache_entries cf1 cave1 (fs st)); [done|].
      injection Hh as ->. left. }
    by apply list_elem_of_filter in Hin as [Hn _]. }
  destruct (cache_hit cf1 cave1 lv (fs st)).
  - by destruct Ho as (_ & -> & _).
  - destruct Ho as [(e & _ & -> & _)|(img & _ & -> & _)]; [done|].
    rewrite cache_entries_write_other; [done|].
    apply Hd, dest_filename_is_old_image.
Qed.

Lemma cache_entries_same_pair (cf cf1 : path) (cave : bool)
    (fs0 : filesystem) :
  fst cf = fst cf1 -> blockid_of (snd cf) = blockid_of (snd cf1) ->
  cache_entries cf cave fs0 = cache_entries cf1 cave fs0.
Proof. intros H1 H2. unfold cache_entries. by rewrite H1, H2. Qed.

Lemma cache_entries_length (cf : path) (cave : bool) (fs0 : filesystem) :
  (length (cache_entries cf cave fs0) <= length fs0)%nat.
Proof.
  unfold cache_entries, os_listdir.
  etrans; [apply length_filter|]. rewrite length_fmap. apply length_filter.
Qed.

(** X18. Over any sequence of calls of [render_and_save] for chunk files
    named like [c.x.z.dat], whatever the calls return: when the files
    start with no two of the same path and at most one cache entry for
    every chunk and mode, that is still so at the end. *)
Theorem cache_keeps_one_image_per_chunk_and_mode
    (calls : list (path * bool)) (st : state) :
  Forall (fun c => well_named (fst c) = true) calls ->
  NoDup (fst <$> fs st) ->
  (forall cf cave, well_named cf = true ->
     (length (cache_entries cf cave (fs st)) <= 1)%nat) ->
  NoDup (fst <$> fs (render_all calls st)) /\
  forall cf cave, well_named cf = true ->
    (length (cache_entries cf cave (fs (render_all calls st))) <= 1)%nat.
Proof.
  intros Hw. revert st.
  induction Hw as [|[cf1 cave1] calls Hw1 Hw IH]; intros st Hnd Hone; [done|].
  cbn [render_all fst] in *. apply IH; [by apply render_and_save_NoDup|].
  intros cf cave Hwf.
  destruct (decide (fst cf = fst cf1 /\
                    blockid_of (snd cf) = blockid_of (snd cf1) /\
                    cave = cave1)) as [(Hd & Hb & ->)|Hne].
  - rewrite (cache_entries_same_pair cf cf1 cave1 _ Hd Hb).
    specialize (Hone cf1 cave1 Hw1).
    destruct (get_lvldata cf1 (fs st)) as [lv|e] eqn:Hlv.
    + rewrite (cache_entries_after cf1 cave1 st lv Hnd Hlv).
      destruct (lookup_file _ _); [done|]. rewrite length_app.
      assert (length (tail (cache_entries cf1 cave1 (fs st))) = 0)%nat as ->.
      { destruct (cache_entries cf1 cave1 (fs st)) as [|? [|? ?]];
          cbn in *; lia. }
      destruct (fst (render_and_save cf1 cave1 st)); cbn; lia.
    + pose proof (render_and_save_outcome cf1 cave1 st) as Ho.
      cbv zeta in Ho. rewrite Hlv in Ho. by destruct Ho as (_ & -> & _).
  - rewrite cache_entries_other_call; [by apply Hone|].
    intros n Hn. unfold no_entry. cbn [fst snd].
    destruct (decide (fst cf1 = fst cf)) as [Hd|Hd]; [|by left]. right.
    destruct (is_old_image (blockid_of (snd cf)) cave n) eqn:E; [|done].
    destruct (well_named_blockid cf Hwf) as (x & z & Hx & Hz & Hb).
    destruct (well_named_blockid cf1 Hw1) as (x1 & z1 & Hx1 & Hz1 & Hb1).
    rewrite Hb in E. rewrite Hb1 in Hn.
    destruct (old_images_disjoint x z x1 z1 cave cave1 n) as (-> & -> & ->);
      try done.
    destruct Hne. by rewrite Hb, Hb1.
Qed.

(** ** What [render_and_save] returns *)

Lemma has_shape_shaped (d0 d1 d2 : nat) (a : Numpy.array3) :
  has_shape d0 d1 d2 a = true <-> shaped d0 d1 d2 a.
Proof.
  unfold has_shape, shaped.
  rewrite andb_true_iff, Nat.eqb_eq, forallb_forall, Forall_forall.
  apply and_iff_compat_l. split; intros H plane Hp.
  - apply list_elem_of_In, H in Hp.
    rewrite andb_true_iff, Nat.eqb_eq, forallb_forall in Hp.
    destruct Hp as [H1 H2]. split; [done|]. apply Forall_forall.
    intros row Hr. apply list_elem_of_In, H2 in Hr. by apply Nat.eqb_eq.
  - apply list_elem_of_In, H in Hp. destruct Hp as [H1 H2].
    rewrite andb_true_iff, Nat.eqb_eq, forallb_forall. split; [done|].
    rewrite Forall_forall in H2. intros row Hr.
    apply Nat.eqb_eq, H2. by apply list_elem_of_In.
Qed.

Lemma Forall_zip_with2 {A B C : Type} (P : A -> Prop) (Q : B -> Prop)
    (R : C -> Prop) (f : A -> B -> C) (l : list A) (k : list B) :
  Forall P l -> Forall Q k -> (forall x y, P x -> Q y -> R (f x y)) ->
  Forall R (zip_with f l k).
Proof.
  intros Hl. revert k. induction Hl as [|x l Hx Hl IH]; intros k Hk Hf.
  - constructor.
  - destruct Hk as [|y k Hy Hk]; [constructor|]. cbn.
    constructor; [by apply Hf|by apply IH].
Qed.

Lemma shaped_zip {A B : Type} (d0 d1 d2 e2 : nat)
    (g : list A -> list B -> list A) (a : list (list (list A)))
    (v : list (list (list B))) :
  shaped d0 d1 d2 a -> shaped d0 d1 e2 v ->
  (forall ra rv, length ra = d2 -> length rv = e2 -> length (g ra rv) = d2) ->
  shaped d0 d1 d2 (zip_with (zip_with g) a v).
Proof.
  intros [Ha0 Ha] [Hv0 Hv] Hg. split.
  - rewrite length_zip_with. lia.
  - apply (Forall_zip_with2 _ _ _ _ _ _ Ha Hv).
    intros pa pv [Hpa0 Hpa] [Hpv0 Hpv]. split.
    + rewrite length_zip_with. lia.
    + apply (Forall_zip_with2 _ _ _ _ _ _ Hpa Hpv). intros ra rv. apply Hg.
Qed.

Lemma shaped_map3 {A B : Type} (d0 d1 d2 : nat) (f : A -> B)
    (a : list (list (list A))) :
  shaped d0 d1 d2 a -> shaped d0 d1 d2 (Numpy.map3 f a).
Proof.
  intros [H0 H]. unfold Numpy.map3. split; [by rewrite length_fmap|].
  apply Forall_fmap. eapply Forall_impl; [exact H|].
  intros plane [H1 H2]. cbn. split; [by rewrite length_fmap|].
  apply Forall_fmap. eapply Forall_impl; [exact H2|].
  intros row Hr. cbn. by rewrite length_fmap.
Qed.

Lemma length_assign_stride2 (row : list Z) :
  forall (here : bool) (v : list Z),
    length (Numpy.assign_stride2 here row v) = length row.
Proof.
  induction row as [|r row IH]; intros here v; [done|].
  destruct here; [destruct v|]; cbn; by rewrite ?IH.
Qed.

Lemma has_shape_cave_grid (b s : Numpy.array3) :
  has_shape 16 16 128 b = true -> has_shape 16 16 64 s = true ->
  has_shape 16 16 128 (cave_grid b s) = true.
Proof.
  intros Hb Hs. apply has_shape_shaped in Hb, Hs. apply has_shape_shaped.
  assert (shaped 16 16 128 (skylight_expanded s)) as He.
  { unfold skylight_expanded, Numpy.assign_odd3, Numpy.assign_even3.
    apply (shaped_zip 16 16 128 64); [|by apply shaped_map3|];
      [|intros ra rv Hr _; by rewrite length_assign_stride2].
    apply (shaped_zip 16 16 128 64); [|by apply shaped_map3|];
      [|intros ra rv Hr _; by rewrite length_assign_stride2].
    apply has_shape_shaped, has_shape_numpy_empty. }
  unfold cave_grid, Numpy.assign_mask3, Numpy.zip3, Numpy.nonzero3.
  apply (shaped_zip 16 16 128 128); [done|by apply shaped_map3|].
  intros ra rv Hr Hv. rewrite length_zip_with. lia.
Qed.

(** Cave mode over a whole grid returns or raises by the cell at the top
    of the facing edge. *)
Lemma cave_loops_result (b : Numpy.array3) (xoff yoff : Z) (img : canvas)
    (id : Z) :
  has_shape 16 16 128 b = true -> Numpy.get3 b 0 15 127 = Ok id ->
  match blockmap id with
  | Some _ => snd (render_loops true b xoff yoff img) = Raise IndexError
  | None => exists img', snd (render_loops true b xoff yoff img) = Ok img'
  end.
Proof.
  intros Hs Hid. destruct traversal_front as (front & Hf & Hfront).
  rewrite render_loops_fold, Hf, rd_fold_snoc.
  destruct (rd_fold_ok (fun v => in_grid v /\ v <> (0, 15, 127))
              (render_at true b xoff yoff) front img Hfront) as [img1 H1].
  { intros [[x y] z] a [Hg Hne]. by apply render_block_cave_ok. }
  rewrite snd_rd_bind, H1. cbn [res_bind render_at].
  destruct (blockmap id) as [t|] eqn:Ht.
  - by rewrite (render_block_cave_edge_top b _ _ img1 id t Hs Hid Ht).
  - rewrite (render_block_no_sprite true b 0 15 127 _ _ img1 id Hid Ht).
    by eexists.
Qed.

Lemma reshape3_length (d0 d1 d2 : nat) (buf : list Z) :
  match Numpy.reshape3 d0 d1 d2 buf with
  | Ok a => length buf = (d0 * d1 * d2)%nat /\ has_shape d0 d1 d2 a = true
  | Raise e => length buf <> (d0 * d1 * d2)%nat /\ e = ValueError
  end.
Proof.
  destruct (Numpy.reshape3 d0 d1 d2 buf) as [a|e] eqn:E.
  - split; [|by eapply reshape3_has_shape].
    unfold Numpy.reshape3 in E.
    by destruct (Nat.eqb_spec (length buf) (d0 * d1 * d2)).
  - unfold Numpy.reshape3 in E.
    destruct (Nat.eqb_spec (length buf) (d0 * d1 * d2)); [done|].
    split; [done|congruence].
Qed.

(** What [chunk_render] returns for a new renderer, by the arrays of the
    level. *)
Lemma chunk_render_result (st : state) (img : option canvas) (xoff yoff : Z)
    (cave : bool) (lv : level) :
  current_level st = Ok lv -> _blocks (self st) = None ->
  fst (chunk_render img xoff yoff cave st) =
  let img0 := match img with Some i => i | None => [] end in
  match get_blockarray lv with
  | Raise e => Raise e
  | Ok b =>
      if cave then
        match get_skylight_array lv with
        | Raise e => Raise e
        | Ok s => snd (render_loops true (cave_grid b s) xoff yoff img0)
        end
      else snd (render_loops false b xoff yoff img0)
  end.
Proof.
  intros Hlv Hn. cbv zeta.
  destruct (get_blockarray lv) as [b|e] eqn:Hb.
  - destruct cave.
    + destruct (get_skylight_array lv) as [s|e] eqn:Hs.
      * by apply (chunk_render_cave_grid st img xoff yoff lv b s).
      * rewrite chunk_render_eq, load_blocks_eq. cbn [self]. rewrite Hn.
        set (st0 := {| self := self st; fs := fs st; heap := heap st;
                       events := events st ++ [Rendered true] |}).
        destruct (load_level_current st0 lv Hlv)
          as (st1 & -> & Hl1 & Hb1 & Hh1 & _). rewrite Hb.
        unfold draw_chunk, cave_mask. unfold bind at 1. unfold bind at 1.
        rewrite load_level_eq. cbn [self _level]. rewrite Hl1.
        unfold bind at 1. unfold lift at 1. by rewrite Hs.
    + by apply (chunk_render_normal_grid st img xoff yoff lv b).
  - rewrite chunk_render_eq, load_blocks_eq. cbn [self]. rewrite Hn.
    set (st0 := {| self := self st; fs := fs st; heap := heap st;
                   events := events st ++ [Rendered cave] |}).
    destruct (load_level_current st0 lv Hlv) as (st1 & -> & _).
    by rewrite Hb.
Qed.

(** The result of [render_and_save] on a miss is that of [chunk_render]
    on the arrays of the level. *)
Lemma render_and_save_miss (cf : path) (cave : bool) (st : state) (lv : level) :
  get_lvldata cf (fs st) = Ok lv -> cache_hit cf cave lv (fs st) = false ->
  fst (render_and_save cf cave st) =
  match get_blockarray lv with
  | Raise e => Raise e
  | Ok b =>
      match (if cave then
               match get_skylight_array lv with
               | Raise e => Raise e
               | Ok s => snd (render_loops true (cave_grid b s) 0 0 [])
               end
             else snd (render_loops false b 0 0 [])) with
      | Ok _ => Ok (dest_path_of cf cave lv)
      | Raise e => Raise e
      end
  end.
Proof.
  intros Hlv Hmiss.
  assert (forall stx, current_level stx = Ok lv -> _blocks (self stx) = None ->
            fst (save_image (dest_path_of cf cave lv)
                   (chunk_render None 0 0 cave stx)) =
            match get_blockarray lv with
            | Raise e => Raise e
            | Ok b =>
                match (if cave then
                         match get_skylight_array lv with
                         | Raise e => Raise e
                         | Ok s => snd (render_loops true (cave_grid b s) 0 0 [])
                         end
                       else snd (render_loops false b 0 0 [])) with
                | Ok _ => Ok (dest_path_of cf cave lv)
                | Raise e => Raise e
                end
            end) as Hrun.
  { intros stx H1 H2.
    pose proof (chunk_render_result stx None 0 0 cave lv H1 H2) as E.
    cbv zeta in E. revert E.
    generalize (render_loops true). generalize (render_loops false).
    intros loopsn loopsc E.
    destruct (chunk_render None 0 0 cave stx) as [r st2].
    cbn [fst] in E. subst r.
    destruct (get_blockarray lv) as [b|e]; [|done].
    destruct cave.
    - destruct (get_skylight_array lv) as [s|e]; [|done].
      by destruct (snd (loopsc (cave_grid b s) 0 0 [])).
    - by destruct (snd (loopsn b 0 0 [])). }
  rewrite render_and_save_eq. unfold os_path_exists.
  rewrite (proj1 (get_lvldata_Ok _ _ _) Hlv), Hlv. cbv zeta.
  unfold cache_hit in Hmiss.
  destruct (lookup_file (dest_path_of cf cave lv) (fs st)) as [[lv'|c|]|];
    try done; try (by apply Hrun).
  rewrite remove_old_image_eq.
  destruct (List.find _ _); by apply Hrun.
Qed.

Lemma blocks_sized (lv : level) :
  match get_blockarray lv with
  | Ok b => Z.of_nat (length (Blocks lv)) = 32768 /\
            has_shape 16 16 128 b = true
  | Raise e => Z.of_nat (length (Blocks lv)) <> 32768 /\ e = ValueError
  end.
Proof.
  pose proof (reshape3_length 16 16 128 (Blocks lv)) as H.
  unfold get_blockarray. destruct (Numpy.reshape3 16 16 128 (Blocks lv));
    (split; [lia|tauto]).
Qed.

Lemma skylight_sized (lv : level) :
  match get_skylight_array lv with
  | Ok s => Z.of_nat (length (SkyLight lv)) = 16384 /\
            has_shape 16 16 64 s = true
  | Raise e => Z.of_nat (length (SkyLight lv)) <> 16384 /\ e = ValueError
  end.
Proof.
  pose proof (reshape3_length 16 16 64 (SkyLight lv)) as H.
  unfold get_skylight_array.
  destruct (Numpy.reshape3 16 16 64 (SkyLight lv)); (split; [lia|tauto]).
Qed.

(** X19. Normal mode, a chunk file that parses: [render_and_save] returns
    the cache path when the cached image is there and decodes, whatever
    the level holds, and otherwise exactly when [Blocks] has 16*16*128
    bytes; with any other length it raises [ValueError]. *)
Theorem normal_mode_returns_unless_blocks_missized (cf : path) (st : state)
    (lv : level) :
  get_lvldata cf (fs st) = Ok lv ->
  fst (render_and_save cf false st) =
  if cache_hit cf false lv (fs st) ||
     (Z.of_nat (length (Blocks lv)) =? 32768)
  then Ok (dest_path_of cf false lv) else Raise ValueError.
Proof.
  intros Hlv. destruct (cache_hit cf false lv (fs st)) eqn:Hh.
  - pose proof (render_and_save_outcome cf false st) as Ho.
    cbv zeta in Ho. rewrite Hlv, Hh in Ho. by destruct Ho as (-> & _).
  - rewrite (render_and_save_miss cf false st lv Hlv Hh). cbn [orb].
    pose proof (blocks_sized lv) as Hb.
    destruct (get_blockarray lv) as [b|e].
    + destruct Hb as [Hlen Hs]. rewrite (proj2 (Z.eqb_eq _ _) Hlen).
      by destruct (render_loops_normal_ok b 0 0 [] Hs) as [img' ->].
    + destruct Hb as [Hlen ->]. by rewrite (proj2 (Z.eqb_neq _ _) Hlen).
Qed.

(** X20. Cave mode, a chunk file whose arrays have the right sizes: unless
    the cached image is there and decodes, [render_and_save] raises
    [IndexError] exactly when the cell at the top of the facing edge,
    [(0,15,127)], has a sprite in the grid cave mode draws from: the
    hidden identifier when the high nibble of the skylight byte of that
    cell is not zero, the block of the chunk when it is.  Otherwise it
    returns the cache path. *)
Theorem cave_mode_returns_unless_sprite_on_edge_top (cf : path) (st : state)
    (lv : level) (b s : Numpy.array3) :
  get_lvldata cf (fs st) = Ok lv ->
  get_blockarray lv = Ok b -> get_skylight_array lv = Ok s ->
  exists v byte,
    Numpy.get3 b 0 15 127 = Ok v /\ Numpy.get3 s 0 15 63 = Ok byte /\
    fst (render_and_save cf true st) =
    if cache_hit cf true lv (fs st) then Ok (dest_path_of cf true lv)
    else match blockmap (if Z.shiftr byte 4 =? 0 then v else hidden_id) with
         | Some _ => Raise IndexError
         | None => Ok (dest_path_of cf true lv)
         end.
Proof.
  intros Hlv Hb Hs.
  pose proof (blocks_sized lv) as Hbs. rewrite Hb in Hbs.
  pose proof (skylight_sized lv) as Hss. rewrite Hs in Hss.
  destruct Hbs as [_ Hbs]. destruct Hss as [_ Hss].
  destruct (get3_cave_grid b s 0 15 127 Hbs Hss) as (v & byte & Hv & Hby & _ & Hc).
  { unfold in_grid. lia. }
  exists v, byte. split; [done|]. split; [done|].
  destruct (cache_hit cf true lv (fs st)) eqn:Hh.
  - pose proof (render_and_save_outcome cf true st) as Ho.
    cbv zeta in Ho. rewrite Hlv, Hh in Ho. by destruct Ho as (-> & _).
  - rewrite (render_and_save_miss cf true st lv Hlv Hh), Hb, Hs.
    change (skylight_nibble byte 127) with (Z.shiftr byte 4) in Hc.
    pose proof (cave_loops_result (cave_grid b s) 0 0 [] _
                  (has_shape_cave_grid b s Hbs Hss) Hc) as Hr.
    destruct (blockmap _) as [t|].
    + by rewrite Hr.
    + by destruct Hr as [img' ->].
Qed.

(** X21. A chunk file that parses but whose [Blocks], or in cave mode
    whose [SkyLight], has the wrong number of bytes: unless the cached
    image is there and decodes, [render_and_save] raises [ValueError] and
    writes nothing, after the clean-up has run: the first old image of the
    chunk and mode is gone when the expected file did not exist. *)
Theorem missized_level_raises_after_cleanup (cf : path) (cave : bool)
    (st : state) (lv : level) :
  get_lvldata cf (fs st) = Ok lv ->
  cache_hit cf cave lv (fs st) = false ->
  Z.of_nat (length (Blocks lv)) <> 32768 \/
  cave = true /\ Z.of_nat (length (SkyLight lv)) <> 16384 ->
  let r := render_and_save cf cave st in
  fst r = Raise ValueError /\
  fs (snd r) = files_at_render cf cave lv (fs st) /\
  events (snd r) =
    events st ++ cleanup_events cf cave lv (fs st) ++ [Rendered cave] /\
  forall n,
    lookup_file (dest_path_of cf cave lv) (fs st) = None ->
    head (cache_entries cf cave (fs st)) = Some n ->
    lookup_file (fst cf, n) (fs (snd r)) = None.
Proof.
  intros Hlv Hh Hbad r. subst r.
  assert (fst (render_and_save cf cave st) = Raise ValueError) as Hr.
  { rewrite (render_and_save_miss cf cave st lv Hlv Hh).
    pose proof (blocks_sized lv) as Hb. pose proof (skylight_sized lv) as Hs.
    destruct (get_blockarray lv) as [b|e]; [|by destruct Hb as [_ ->]].
    destruct Hbad as [Hbad|[-> Hbad]]; [by destruct Hb|].
    destruct (get_skylight_array lv) as [s|e]; [by destruct Hs|].
    by destruct Hs as [_ ->]. }
  pose proof (render_and_save_outcome cf cave st) as Ho.
  cbv zeta in Ho. rewrite Hlv, Hh in Ho.
  destruct Ho as [(e & _ & Hf & He)|(img & Hp & _)]; [|congruence].
  split; [done|]. split; [done|]. split; [done|].
  intros n Hn Hhead. rewrite Hf. unfold files_at_render.
  rewrite Hn, Hhead. apply lookup_unlink_same.
Qed.

(** X22. A chunk file that is not there makes the constructor raise
    [ValueError] and nothing changes at all; a file that is there but does
    not parse as a chunk makes [render_and_save] raise the error of the
    parser, with the files and the events as they were. *)
Theorem unreadable_chunk_file_changes_nothing (cf : path) (cave : bool)
    (st : state) :
  (lookup_file cf (fs st) = None ->
   render_and_save cf cave st = (Raise ValueError, st)) /\
  (forall f, lookup_file cf (fs st) = Some f ->
     (forall lv, f <> ChunkData lv) ->
     let r := render_and_save cf cave st in
     fst r = Raise IOError /\ fs (snd r) = fs st /\
     heap (snd r) = heap st /\ events (snd r) = events st).
Proof.
  split.
  - intros H. rewrite render_and_save_eq. unfold os_path_exists. by rewrite H.
  - intros f H Hf r. subst r. rewrite render_and_save_eq.
    unfold os_path_exists, get_lvldata. rewrite H.
    destruct f as [lv|c|]; [by destruct (Hf lv)|done..].
Qed.

(** ** Nothing is carried from call to call *)

(** On a miss the files end up as the clean-up left them, with the image
    of the level written when the render returned. *)
Lemma render_and_save_miss_files (cf : path) (cave : bool) (st : state)
    (lv : level) :
  get_lvldata cf (fs st) = Ok lv -> cache_hit cf cave lv (fs st) = false ->
  fs (snd (render_and_save cf cave st)) =
  match rendered_image cave lv with
  | Ok img =>
      write_file (dest_path_of cf cave lv) (ImageFile img)
        (files_at_render cf cave lv (fs st))
  | Raise _ => files_at_render cf cave lv (fs st)
  end.
Proof.
  intros Hlv Hmiss.
  assert (forall stx, current_level stx = Ok lv -> _blocks (self stx) = None ->
            fs (snd (save_image (dest_path_of cf cave lv)
                       (chunk_render None 0 0 cave stx))) =
            match rendered_image cave lv with
            | Ok img =>
                write_file (dest_path_of cf cave lv) (ImageFile img) (fs stx)
            | Raise _ => fs stx
            end) as Hrun.
  { intros stx H1 H2.
    assert (fst (chunk_render None 0 0 cave stx) = rendered_image cave lv)
      as E by exact (chunk_render_result stx None 0 0 cave lv H1 H2).
    pose proof (frame_chunk_render None 0 0 cave stx) as ([F _] & _).
    cbn [fs] in F. revert E. generalize (rendered_image cave lv). intros ri E.
    destruct (chunk_render None 0 0 cave stx) as [r st2].
    cbn [fst snd] in E, F. subst r.
    destruct ri as [img|e]; cbn [save_image snd fs]; by rewrite F. }
  rewrite render_and_save_eq. unfold os_path_exists.
  rewrite (proj1 (get_lvldata_Ok _ _ _) Hlv), Hlv. cbv zeta.
  unfold cache_hit in Hmiss. unfold files_at_render.
  destruct (lookup_file (dest_path_of cf cave lv) (fs st)) as [[lv'|c|]|];
    try done; try (by apply (Hrun (renderer_with cf (Some lv) st))).
  rewrite remove_old_image_eq, find_head_filter.
  cbn [renderer_with fs]. fold (cache_entries cf cave (fs st)).
  destruct (head (cache_entries cf cave (fs st))); by rewrite Hrun.
Qed.

(** X23. A call of [render_and_save] starts from a new [ChunkRenderer]:
    what it returns and the files it leaves depend on the files it finds
    and on nothing else, neither on the renderer of an earlier call, its
    cached level and block array, nor on the arrays still in memory. *)
Theorem result_depends_on_the_files_alone (cf : path) (cave : bool)
    (st st' : state) :
  fs st = fs st' ->
  fst (render_and_save cf cave st) = fst (render_and_save cf cave st') /\
  fs (snd (render_and_save cf cave st)) =
  fs (snd (render_and_save cf cave st')).
Proof.
  intros Hfs.
  destruct (get_lvldata cf (fs st)) as [lv|e] eqn:Hlv.
  - assert (get_lvldata cf (fs st') = Ok lv) as Hlv' by (by rewrite <- Hfs).
    destruct (cache_hit cf cave lv (fs st)) eqn:Hh.
    + assert (cache_hit cf cave lv (fs st') = true) as Hh' by (by rewrite <- Hfs).
      pose proof (render_and_save_outcome cf cave st) as Ho.
      pose proof (render_and_save_outcome cf cave st') as Ho'.
      cbv zeta in Ho, Ho'. rewrite Hlv, Hh in Ho. rewrite Hlv', Hh' in Ho'.
      destruct Ho as (-> & -> & _). destruct Ho' as (-> & -> & _). done.
    + assert (cache_hit cf cave lv (fs st') = false) as Hh'
        by (by rewrite <- Hfs).
      rewrite (render_and_save_miss cf cave st lv Hlv Hh).
      rewrite (render_and_save_miss cf cave st' lv Hlv' Hh').
      rewrite (render_and_save_miss_files cf cave st lv Hlv Hh).
      rewrite (render_and_save_miss_files cf cave st' lv Hlv' Hh').
      by rewrite Hfs.
  - assert (get_lvldata cf (fs st') = Raise e) as Hlv' by (by rewrite <- Hfs).
    rewrite !render_and_save_eq. rewrite <- Hfs, Hlv.
    by destruct (os_path_exists cf (fs st)).
Qed.

End Chunk.

(** ** A sample chunk

    A chunk of air with one block of stone at the top of the facing edge,
    [(0,15,127)]; the same chunk with skylight in no cell, in the cells at
    odd heights, and in every cell; a texture table that has no sprite for
    air and for the hidden identifier; and the digest [hashlib.md5] gives
    for the bytes of these blocks followed by ["1"]. *)

Definition sample_blockmap (b : Z) : option (Z * Z) :=
  if (b =? 0) || (b =? 21) then None else Some (b, b).

Definition sample_md5 (bytes : list Z) : string :=
  "ce12201208857fd2757c71a14d36f7d1".

Definition sample_memory (n : nat) : Z := 255.

(** The block at [(0,15,127)] is byte [(0*16+15)*128+127 = 2047]. *)
Definition tower_blocks : list Z :=
  replicate (Z.to_nat 2047) 0 ++ [1] ++ replicate (Z.to_nat 30720) 0.

Definition dark_level : level :=
  {| Blocks := tower_blocks; SkyLight := replicate (Z.to_nat 16384) 0 |}.

Definition lit_level : level :=
  {| Blocks := tower_blocks; SkyLight := replicate (Z.to_nat 16384) 240 |}.

Definition noon_level : level :=
  {| Blocks := tower_blocks; SkyLight := replicate (Z.to_nat 16384) 255 |}.

(** The arrays of [lit_level]. *)
Definition tower_grid : list (list (list Z)) :=
  [replicate 15 (replicate 128 0) ++ [replicate 127 0 ++ [1]]] ++
  replicate 15 (replicate 16 (replicate 128 0)).

Definition lit_skylight : list (list (list Z)) :=
  replicate 16 (replicate 16 (replicate 64 240)).

Definition chunk_path : string * string := ("/world", "c.a.-3.dat").

Definition new_renderer : ChunkRenderer :=
  {| chunkfile := chunk_path; _level := None; _blocks := None |}.

(** A directory holding the chunk file alone. *)
Definition cold_state (lv : level) : state Z :=
  {| self := new_renderer;
     fs := [(chunk_path, ChunkData Z lv)];
     heap := [];
     events := [] |}.

(** The chunk file and the image cached for it in normal mode. *)
Definition warm_state : state Z :=
  {| self := new_renderer;
     fs := [(chunk_path, ChunkData Z dark_level);
            (("/world", "img.a.-3.nocave.ce1220.png"), ImageFile Z [])];
     heap := [];
     events := [] |}.

(** The chunk file and one image left from earlier contents of the chunk. *)
Definition one_stale_state : state Z :=
  {| self := new_renderer;
     fs := [(chunk_path, ChunkData Z dark_level);
            (("/world", "img.a.-3.nocave.5f2c1a.png"), ImageFile Z [])];
     heap := [];
     events := [] |}.

(** The chunk file and two images left from earlier contents of the chunk. *)
Definition stale_state : state Z :=
  {| self := new_renderer;
     fs := [(chunk_path, ChunkData Z dark_level);
            (("/world", "img.a.-3.nocave.5f2c1a.png"), ImageFile Z []);
            (("/world", "img.a.-3.nocave.c09e44.png"), ImageFile Z [])];
     heap := [];
     events := [] |}.

(** The chunk file, lit everywhere now, next to the cave image cached when
    only the cells at odd heights were lit; the blocks are the same. *)
Definition relit_state : state Z :=
  {| self := new_renderer;
     fs := [(chunk_path, ChunkData Z noon_level);
            (("/world", "img.a.-3.cave.ce1220.png"), ImageFile Z [])];
     heap := [];
     events := [] |}.

(** A chunk of air: no block of it has a sprite. *)
Definition air_grid : list (list (list Z)) := filled 0.

(** Another chunk of the same directory. *)
Definition other_chunk_path : string * string := ("/world", "c.a.-4.dat").

(** A level whose arrays are too short. *)
Definition short_level : level := {| Blocks := [1; 2; 3]; SkyLight := [] |}.

(** The chunk file next to a cache file of the expected name that does
    not decode. *)
Definition damaged_state : state Z :=
  {| self := new_renderer;
     fs := [(chunk_path, ChunkData Z dark_level);
            (("/world", "img.a.-3.nocave.ce1220.png"), Damaged Z)];
     heap := [];
     events := [] |}.


(** The chunk file among images of its own in both modes and an image
    of the chunk next door. *)
Definition shared_state : state Z :=
  {| self := new_renderer;
     fs := [(("/world", "img.a.-4.nocave.77aa01.png"), ImageFile Z []);
            (chunk_path, ChunkData Z dark_level);
            (("/world", "img.a.-3.nocave.5f2c1a.png"), ImageFile Z []);
            (("/world", "img.a.-3.cave.ce1220.png"), ImageFile Z [])];
     heap := [];
     events := [] |}.

(** A directory the chunk file is not in. *)
Definition bare_state : state Z :=
  {| self := new_renderer; fs := []; heap := []; events := [] |}.

(** The files of [cold_state dark_level] after other work: the renderer of
    another chunk with its level and block array cached, an array in
    memory, an event on record. *)
Definition used_state : state Z :=
  {| self := {| chunkfile := other_chunk_path; _level := Some short_level;
                _blocks := Some 0%nat |};
     fs := [(chunk_path, ChunkData Z dark_level)];
     heap := [{| data := air_grid; writeable := true |}];
     events := [Rendered true] |}.


(** ** The theorems at the sample chunk *)

Lemma cave_edge_top_reads_outside_witness :
  has_shape 16 16 128 tower_grid = true /\
  Numpy.get3 tower_grid 0 15 127 = Ok 1 /\
  sample_blockmap 1 = Some (1, 1) /\
  render_block Z sample_blockmap true tower_grid 0 15 127 0 0 [] =
    ([(0, 15, 127); (0, 15, 128)], Raise IndexError).
Proof.
  assert (has_shape 16 16 128 tower_grid = true) as H1
    by (vm_compute; reflexivity).
  assert (Numpy.get3 tower_grid 0 15 127 = Ok 1) as H2
    by (vm_compute; reflexivity).
  assert (sample_blockmap 1 = Some (1, 1)) as H3 by reflexivity.
  split; [exact H1|]. split; [exact H2|]. split; [exact H3|].
  exact (proj1 (cave_edge_top_reads_outside Z sample_blockmap tower_grid 0 0 []
                  1 (1, 1) H1 H2 H3)).
Defined.

(** The whole render of the dark tower chunk in cave mode ends in this
    [IndexError], at the last voxel of the traversal; nothing is written. *)
Lemma cave_render_of_tower_raises :
  get_blockarray dark_level = Ok tower_grid /\
  last traversal = Some (0, 15, 127) /\
  (let r := render_and_save Z sample_blockmap sample_md5 sample_memory
              chunk_path true (cold_state dark_level) in
   (fst r, fst <$> fs Z (snd r), events Z (snd r))) =
  (Raise IndexError, [chunk_path], [Rendered true]).
Proof.
  split; [vm_compute; reflexivity|]. split; vm_compute; reflexivity.
Qed.

Lemma normal_mode_draws_unless_enclosed_witness :
  has_shape 16 16 128 (filled 1) = true /\ in_grid (3, 4, 5) /\
  Numpy.get3 (filled 1) 3 4 5 = Ok 1 /\ sample_blockmap 1 = Some (1, 1) /\
  (skipped_by Z (render_block Z sample_blockmap false (filled 1) 3 4 5 0 0 []) []
   <-> 3 <> 0 /\ 4 <> 15 /\ 5 <> 127).
Proof.
  assert (has_shape 16 16 128 (filled 1) = true) as Hs by (vm_compute; reflexivity).
  assert (in_grid (3, 4, 5)) as Hg by (simpl; lia).
  assert (Numpy.get3 (filled 1) 3 4 5 = Ok 1) as Hv by (vm_compute; reflexivity).
  assert (sample_blockmap 1 = Some (1, 1)) as Ht by reflexivity.
  assert (transparent 1 = false) as Hop by (vm_compute; reflexivity).
  split; [exact Hs|]. split; [exact Hg|]. split; [exact Hv|].
  split; [exact Ht|].
  exact (proj2 (proj2 (proj2 (normal_mode_draws_unless_enclosed Z
                                sample_blockmap (filled 1) 3 4 5 0 0 [] 1
                                (1, 1) Hs Hg Hv Ht)) eq_refl Hop)).
Defined.

Lemma sprite_pasted_at_projection_witness :
  snd (render_at Z sample_blockmap false (filled 1) 0 0 (0, 0, 0) []) =
    Ok [Paste Z (Plain Z 1) (0, 1632) 1] /\
  ([Paste Z (Plain Z 1) (0, 1632) 1] = [] \/
   exists pic mask edges,
     [Paste Z (Plain Z 1) (0, 1632) 1] =
       [] ++ Paste Z pic (0 + 0 * 12 + 0 * 12,
                          0 - 0 * 6 + 0 * 6 + 128 * 12 + 16 * 12 / 2 - 0 * 12)
               mask :: edges /\
     forallb (is_line Z) edges = true).
Proof.
  assert (snd (render_at Z sample_blockmap false (filled 1) 0 0 (0, 0, 0) []) =
            Ok [Paste Z (Plain Z 1) (0, 1632) 1]) as H
    by (vm_compute; reflexivity).
  split; [exact H|].
  exact (proj1 (proj2 (sprite_pasted_at_projection Z sample_blockmap))
           false (filled 1) 0 0 0 0 0 [] _ H).
Defined.

Lemma cave_grid_hides_lit_cells_witness :
  current_level Z (cold_state lit_level) = Ok lit_level /\
  _blocks (self Z (cold_state lit_level)) = None /\
  get_blockarray lit_level = Ok tower_grid /\
  get_skylight_array lit_level = Ok lit_skylight /\
  fst (chunk_render Z sample_blockmap sample_memory None 0 0 true
         (cold_state lit_level)) =
  snd (render_loops Z sample_blockmap true
         (cave_grid sample_memory tower_grid lit_skylight) 0 0 []).
Proof.
  assert (current_level Z (cold_state lit_level) = Ok lit_level) as H1
    by reflexivity.
  assert (_blocks (self Z (cold_state lit_level)) = None) as H2 by reflexivity.
  assert (get_blockarray lit_level = Ok tower_grid) as H3
    by (vm_compute; reflexivity).
  assert (get_skylight_array lit_level = Ok lit_skylight) as H4
    by (vm_compute; reflexivity).
  split; [exact H1|]. split; [exact H2|]. split; [exact H3|].
  split; [exact H4|].
  exact (proj1 (cave_grid_hides_lit_cells Z sample_blockmap sample_memory
                  (cold_state lit_level) None 0 0 lit_level tower_grid
                  lit_skylight H1 H2 H3 H4)).
Defined.

(** In the lit chunk the block of the tower, at the odd height 127, is
    hidden, as is the air at height 5; the air at height 4 stays. *)
Lemma cave_grid_of_lit_chunk :
  Numpy.get3 (cave_grid sample_memory tower_grid lit_skylight) 0 15 127 = Ok 21 /\
  Numpy.get3 (cave_grid sample_memory tower_grid lit_skylight) 2 3 5 = Ok 21 /\
  Numpy.get3 (cave_grid sample_memory tower_grid lit_skylight) 2 3 4 = Ok 0.
Proof. repeat split; vm_compute; reflexivity. Qed.

Lemma hidden_marker_is_opaque_witness :
  has_shape 16 16 128 (filled 1) = true /\
  has_shape 16 16 64 lit_skylight = true /\
  in_grid (2, 3, 5) /\
  Numpy.get3 lit_skylight 2 3 (5 / 2) = Ok 240 /\
  skylight_nibble 240 5 <> 0 /\
  Numpy.get3 (cave_grid sample_memory (filled 1) lit_skylight) 2 3 5 =
    Ok hidden_id /\
  snd (not_transparent_at (cave_grid sample_memory (filled 1) lit_skylight)
         2 3 5) = Ok true.
Proof.
  assert (has_shape 16 16 128 (filled 1) = true) as H1 by (vm_compute; reflexivity).
  assert (has_shape 16 16 64 lit_skylight = true) as H2 by (vm_compute; reflexivity).
  assert (in_grid (2, 3, 5)) as H3 by (simpl; lia).
  assert (Numpy.get3 lit_skylight 2 3 (5 / 2) = Ok 240) as H4
    by (vm_compute; reflexivity).
  assert (skylight_nibble 240 5 <> 0) as H5 by (vm_compute; discriminate).
  split; [exact H1|]. split; [exact H2|]. split; [exact H3|].
  split; [exact H4|]. split; [exact H5|].
  exact (proj2 (proj2 (proj2 (proj2 (proj2
           (hidden_marker_is_opaque sample_memory)))))
           (filled 1) lit_skylight 2 3 5 240 H1 H2 H3 H4 H5).
Defined.

(** Two images of earlier contents and no file of the expected name: the
    first of the listing goes, the second is still there after the call,
    next to the new one. *)
Lemma cleanup_stops_after_first_old_image_witness :
  NoDup (fst <$> fs Z stale_state) /\
  get_lvldata Z chunk_path (fs Z stale_state) = Ok dark_level /\
  lookup_file Z (dest_path_of sample_md5 chunk_path false dark_level)
    (fs Z stale_state) = None /\
  cache_entries Z chunk_path false (fs Z stale_state) =
    ["img.a.-3.nocave.5f2c1a.png"; "img.a.-3.nocave.c09e44.png"] /\
  (let r := render_and_save Z sample_blockmap sample_md5 sample_memory
              chunk_path false stale_state in
   fst r = Ok (dest_path_of sample_md5 chunk_path false dark_level) /\
   lookup_file Z ("/world", "img.a.-3.nocave.5f2c1a.png") (fs Z (snd r)) =
     None /\
   (exists f,
      lookup_file Z ("/world", "img.a.-3.nocave.c09e44.png")
        (fs Z stale_state) = Some f /\
      lookup_file Z ("/world", "img.a.-3.nocave.c09e44.png") (fs Z (snd r)) =
        Some f) /\
   ~ (length (cache_entries Z chunk_path false (fs Z (snd r))) <= 1)%nat).
Proof.
  assert (NoDup (fst <$> fs Z stale_state)) as H1
    by (apply (bool_decide_unpack _); vm_compute; exact I).
  assert (get_lvldata Z chunk_path (fs Z stale_state) = Ok dark_level) as H2
    by reflexivity.
  assert (lookup_file Z (dest_path_of sample_md5 chunk_path false dark_level)
            (fs Z stale_state) = None) as H3 by (vm_compute; reflexivity).
  assert (cache_entries Z chunk_path false (fs Z stale_state) =
          ["img.a.-3.nocave.5f2c1a.png"; "img.a.-3.nocave.c09e44.png"]) as H4
    by (vm_compute; reflexivity).
  assert (fst (render_and_save Z sample_blockmap sample_md5 sample_memory
                 chunk_path false stale_state) =
          Ok (dest_path_of sample_md5 chunk_path false dark_level)) as H5
    by (vm_compute; reflexivity).
  pose proof (cleanup_stops_after_first_old_image Z sample_blockmap sample_md5
                sample_memory chunk_path false stale_state dark_level H1 H2 H3)
    as (Hfirst & Hrest & _ & _ & Htwo & _).
  split; [exact H1|]. split; [exact H2|]. split; [exact H3|].
  split; [exact H4|]. cbv zeta. split; [exact H5|]. split; [|split].
  - apply Hfirst. rewrite H4. reflexivity.
  - apply Hrest. rewrite H4. cbn [tail]. apply list_elem_of_singleton.
    reflexivity.
  - intros Hle.
    assert (2 <= length (cache_entries Z chunk_path false (fs Z stale_state)))%nat
      as Hlen by (rewrite H4; cbn [length]; lia).
    pose proof (Htwo Hlen H5). lia.
Defined.

Lemma second_call_is_cache_hit_witness :
  let st0 := cold_state dark_level in
  let st1 := snd (render_and_save Z sample_blockmap sample_md5 sample_memory
                    chunk_path false st0) in
  let p := ("/world", "img.a.-3.nocave.ce1220.png") in
  render_and_save Z sample_blockmap sample_md5 sample_memory chunk_path false
    st0 = (Ok p, st1) /\
  get_lvldata Z chunk_path (fs Z st1) = get_lvldata Z chunk_path (fs Z st0) /\
  exists st2,
    render_and_save Z sample_blockmap sample_md5 sample_memory chunk_path
      false st1 = (Ok p, st2) /\
    fs Z st2 = fs Z st1 /\ events Z st2 = events Z st1.
Proof.
  intros st0 st1 p.
  assert ((let r := render_and_save Z sample_blockmap sample_md5 sample_memory
                      chunk_path false (cold_state dark_level) in
           (fst r,
            bool_decide (get_lvldata Z chunk_path (fs Z (snd r)) =
                         get_lvldata Z chunk_path
                           (fs Z (cold_state dark_level))))) =
          (Ok ("/world", "img.a.-3.nocave.ce1220.png"), true)) as E
    by (vm_compute; reflexivity).
  cbv zeta in E. apply pair_equal_spec in E as [E1 E2].
  assert (render_and_save Z sample_blockmap sample_md5 sample_memory
            chunk_path false st0 = (Ok p, st1)) as H1.
  { rewrite (surjective_pairing (render_and_save Z sample_blockmap sample_md5
                                   sample_memory chunk_path false st0)).
    subst st0 p. rewrite E1. reflexivity. }
  assert (get_lvldata Z chunk_path (fs Z st1) =
          get_lvldata Z chunk_path (fs Z st0)) as H2
    by (exact (bool_decide_eq_true_1 _ E2)).
  split; [exact H1|]. split; [exact H2|].
  exact (proj1 (second_call_is_cache_hit Z sample_blockmap sample_md5
                  sample_memory chunk_path false st0 st1 p H1 H2)).
Defined.

(** The image is already cached: two calls in a row, and nothing is
    rendered and nothing written at all. *)
Lemma warm_cache_renders_nothing :
  let r1 := render_and_save Z sample_blockmap sample_md5 sample_memory
              chunk_path false warm_state in
  let r2 := render_and_save Z sample_blockmap sample_md5 sample_memory
              chunk_path false (snd r1) in
  fst r1 = Ok ("/world", "img.a.-3.nocave.ce1220.png") /\
  fst r2 = Ok ("/world", "img.a.-3.nocave.ce1220.png") /\
  events Z (snd r2) = [] /\
  renders (events Z (snd r2)) = 0%nat /\ writes (events Z (snd r2)) = 0%nat /\
  ~ (renders (events Z (snd r2)) = 1%nat /\ writes (events Z (snd r2)) = 1%nat).
Proof.
  intros r1 r2.
  assert (events Z (snd r2) = []) as H by (vm_compute; reflexivity).
  split; [vm_compute; reflexivity|]. split; [vm_compute; reflexivity|].
  split; [exact H|]. rewrite H. split; [reflexivity|]. split; [reflexivity|].
  intros [E _]. discriminate E.
Qed.

(** Cave mode on the lit chunk: [self._blocks] refers to the array at
    reference 0, loaded and read-only, with its air at [(2,3,5)]; the
    hidden identifier went into the copy, at reference 1. *)
Lemma cave_render_leaves_blocks_alone_witness :
  let st := cold_state lit_level in
  let st' := snd (chunk_render Z sample_blockmap sample_memory None 0 0 true st) in
  _blocks (self Z st) = None /\
  _blocks (self Z st') = Some 0%nat /\
  (a ← heap Z st' !! 0%nat; Some (Numpy.get3 (data a) 2 3 5, writeable a)) =
    Some (Ok 0, false) /\
  (a ← heap Z st' !! 1%nat; Some (Numpy.get3 (data a) 2 3 5, writeable a)) =
    Some (Ok 21, true) /\
  blocks_loaded Z st'.
Proof.
  intros st st'.
  assert ((let s' := snd (chunk_render Z sample_blockmap sample_memory None 0 0
                            true (cold_state lit_level)) in
           (_blocks (self Z s'),
            a ← heap Z s' !! 0%nat;
              Some (Numpy.get3 (data a) 2 3 5, writeable a),
            a ← heap Z s' !! 1%nat;
              Some (Numpy.get3 (data a) 2 3 5, writeable a))) =
          (Some 0%nat, Some (Ok 0, false), Some (Ok 21, true))) as E
    by (vm_compute; reflexivity).
  cbv zeta in E. apply pair_equal_spec in E as [E E3].
  apply pair_equal_spec in E as [E1 E2].
  assert (_blocks (self Z st) = None) as H1 by reflexivity.
  split; [exact H1|]. split; [exact E1|]. split; [exact E2|].
  split; [exact E3|].
  exact (proj2 (proj2 (proj2 (cave_render_leaves_blocks_alone Z sample_blockmap
                                sample_memory st None 0 0)))
           (or_introl H1) 0%nat E1).
Defined.

Lemma hash_ignores_skylight_witness :
  get_lvldata Z chunk_path (fs Z relit_state) = Ok noon_level /\
  Blocks lit_level = Blocks noon_level /\
  SkyLight lit_level <> SkyLight noon_level /\
  lookup_file Z (dest_path_of sample_md5 chunk_path true lit_level)
    (fs Z relit_state) = Some (ImageFile Z []) /\
  exists st',
    render_and_save Z sample_blockmap sample_md5 sample_memory chunk_path true
      relit_state =
    (Ok (dest_path_of sample_md5 chunk_path true lit_level), st') /\
    fs Z st' = fs Z relit_state /\ events Z st' = events Z relit_state.
Proof.
  assert (get_lvldata Z chunk_path (fs Z relit_state) = Ok noon_level) as H1
    by reflexivity.
  assert (Blocks lit_level = Blocks noon_level) as H2 by reflexivity.
  assert (lookup_file Z (dest_path_of sample_md5 chunk_path true lit_level)
            (fs Z relit_state) = Some (ImageFile Z [])) as H3
    by (vm_compute; reflexivity).
  split; [exact H1|]. split; [exact H2|].
  split; [intros E; apply (f_equal head) in E; vm_compute in E; discriminate E|].
  split; [exact H3|].
  exact (proj2 (proj2 (hash_ignores_skylight Z sample_blockmap sample_md5
                         sample_memory))
           chunk_path relit_state lit_level noon_level [] H1 H2 H3).
Defined.

(** ** The further properties at the sample chunk *)

(** A block of stone inside a chunk of stone is enclosed: cave mode skips
    it. *)
Lemma cave_mode_visibility_witness :
  has_shape 16 16 128 (filled 1) = true /\ in_grid (3, 4, 5) /\
  (3, 4, 5) <> (0, 15, 127) /\
  Numpy.get3 (filled 1) 3 4 5 = Ok 1 /\ sample_blockmap 1 = Some (1, 1) /\
  skipped_by Z (render_block Z sample_blockmap true (filled 1) 3 4 5 0 0 []) [].
Proof.
  assert (has_shape 16 16 128 (filled 1) = true) as Hs by (vm_compute; reflexivity).
  assert (in_grid (3, 4, 5)) as Hg by (simpl; lia).
  assert ((3, 4, 5) <> (0, 15, 127)) as Hne by discriminate.
  assert (Numpy.get3 (filled 1) 3 4 5 = Ok 1) as Hv by (vm_compute; reflexivity).
  assert (sample_blockmap 1 = Some (1, 1)) as Ht by reflexivity.
  assert (opaque_at (filled 1) 3 4 (5 + 1) = true) as H1 by (vm_compute; reflexivity).
  assert (opaque_at (filled 1) (3 - 1) 4 5 = true) as H2 by (vm_compute; reflexivity).
  assert (opaque_at (filled 1) 3 (4 + 1) 5 = true) as H3 by (vm_compute; reflexivity).
  split; [exact Hs|]. split; [exact Hg|]. split; [exact Hne|].
  split; [exact Hv|]. split; [exact Ht|].
  apply (proj1 (cave_mode_visibility Z sample_blockmap (filled 1) 3 4 5 0 0 []
                  1 (1, 1) Hs Hg Hne Hv Ht)).
  split; [discriminate|]. split; [exact H1|]. right. right. right.
  split; [discriminate|]. split; [discriminate|]. split; [exact H2|exact H3].
Defined.

Lemma normal_render_returns_and_stays_in_grid_witness :
  has_shape 16 16 128 tower_grid = true /\
  (exists img', snd (render_loops Z sample_blockmap false tower_grid 0 0 []) =
                Ok img') /\
  Forall in_grid (fst (render_loops Z sample_blockmap false tower_grid 0 0 [])).
Proof.
  assert (has_shape 16 16 128 tower_grid = true) as Hs by (vm_compute; reflexivity).
  split; [exact Hs|].
  exact (normal_render_returns_and_stays_in_grid Z sample_blockmap tower_grid
           0 0 [] Hs).
Defined.

(** The tower chunk has stone at the top of the facing edge: cave mode
    raises, and the last index it asked for is one above the grid. *)
Lemma cave_render_raises_iff_sprite_on_edge_top_witness :
  has_shape 16 16 128 tower_grid = true /\
  exists id,
    Numpy.get3 tower_grid 0 15 127 = Ok id /\
    match sample_blockmap id with
    | Some _ =>
        snd (render_loops Z sample_blockmap true tower_grid 0 0 []) =
          Raise IndexError /\
        last (fst (render_loops Z sample_blockmap true tower_grid 0 0 [])) =
          Some (0, 15, 128)
    | None =>
        (exists img',
           snd (render_loops Z sample_blockmap true tower_grid 0 0 []) =
             Ok img') /\
        Forall in_grid
          (fst (render_loops Z sample_blockmap true tower_grid 0 0 []))
    end.
Proof.
  assert (has_shape 16 16 128 tower_grid = true) as Hs by (vm_compute; reflexivity).
  split; [exact Hs|].
  exact (cave_render_raises_iff_sprite_on_edge_top Z sample_blockmap tower_grid
           0 0 [] Hs).
Defined.

Lemma air_has_no_sprite (x y z : Z) :
  in_grid (x, y, z) ->
  exists id, Numpy.get3 air_grid x y z = Ok id /\ sample_blockmap id = None.
Proof.
  intros Hg. exists 0. split; [exact (get3_filled 0 x y z Hg)|reflexivity].
Qed.

Lemma nothing_drawn_without_sprites_witness :
  (forall x y z, in_grid (x, y, z) ->
     exists id, Numpy.get3 air_grid x y z = Ok id /\
                sample_blockmap id = None) /\
  snd (render_loops Z sample_blockmap true air_grid 0 0 []) = Ok [].
Proof.
  split; [exact air_has_no_sprite|].
  exact (nothing_drawn_without_sprites Z sample_blockmap true air_grid 0 0 []
           air_has_no_sprite).
Defined.

(** A block of stone on top of a chunk of stone, in normal mode: the
    sprite, and no edge line since no neighbour is air. *)
Lemma drawn_block_paste_and_edges_witness :
  has_shape 16 16 128 (filled 1) = true /\ in_grid (3, 4, 127) /\
  Numpy.get3 (filled 1) 3 4 127 = Ok 1 /\ sample_blockmap 1 = Some (1, 1) /\
  drawn_by Z (render_block Z sample_blockmap false (filled 1) 3 4 127 0 0 []) [] /\
  exists pic,
    pic = Plain Z 1 /\
    snd (render_block Z sample_blockmap false (filled 1) 3 4 127 0 0 []) =
    Ok ([] ++ [Paste Z pic (0, 0) 1] ++
        (if negb (transparent 1) &&
            (negb (3 =? 15) && is_air_at (filled 1) (3 + 1) 4 127)
         then [Line Z (0 + 12, 0) (0 + 24, 0 + 6)] else []) ++
        (if negb (transparent 1) &&
            (negb (4 =? 0) && is_air_at (filled 1) 3 (4 - 1) 127)
         then [Line Z (0, 0 + 6) (0 + 12, 0)] else [])).
Proof.
  assert (has_shape 16 16 128 (filled 1) = true) as Hs by (vm_compute; reflexivity).
  assert (in_grid (3, 4, 127)) as Hg by (simpl; lia).
  assert (Numpy.get3 (filled 1) 3 4 127 = Ok 1) as Hv by (vm_compute; reflexivity).
  assert (sample_blockmap 1 = Some (1, 1)) as Ht by reflexivity.
  assert (drawn_by Z (render_block Z sample_blockmap false (filled 1) 3 4 127
                        0 0 []) []) as Hd.
  { exists (Plain Z 1), (0, 0), 1, []. split; vm_compute; reflexivity. }
  split; [exact Hs|]. split; [exact Hg|]. split; [exact Hv|].
  split; [exact Ht|]. split; [exact Hd|].
  exact (drawn_block_paste_and_edges Z sample_blockmap false (filled 1) 3 4 127
           0 0 [] 1 (1, 1) Hs Hg Hv Ht Hd).
Defined.

(** The tower chunk in normal mode: one block is drawn, at the bottom of
    the span. *)
Lemma pastes_land_in_span_witness :
  snd (render_loops Z sample_blockmap false tower_grid 5 7 []) =
    Ok [Paste Z (Plain Z 1) (185, 205) 1;
        Line Z (197, 205) (209, 211); Line Z (185, 211) (197, 205)] /\
  (exists new,
     [Paste Z (Plain Z 1) (185, 205) 1;
      Line Z (197, 205) (209, 211); Line Z (185, 211) (197, 205)] =
       [] ++ new /\
     Forall (paste_in_span Z 5 7) new) /\
  projector 5 7 0 15 0 = (5 + 180, 7 + 1722).
Proof.
  assert (snd (render_loops Z sample_blockmap false tower_grid 5 7 []) =
          Ok [Paste Z (Plain Z 1) (185, 205) 1;
              Line Z (197, 205) (209, 211); Line Z (185, 211) (197, 205)])
    as H by (vm_compute; reflexivity).
  split; [exact H|].
  pose proof (pastes_land_in_span Z sample_blockmap false tower_grid 5 7 [] _ H)
    as H'.
  split; [exact (proj1 H')|exact (proj1 (proj2 H'))].
Defined.

Lemma blockid_of_chunk_file_name_witness :
  no_dot "c" = true /\ no_dot "a" = true /\ no_dot "-3" = true /\
  blockid_of "c.a.-3.dat" = "a.-3".
Proof.
  split; [reflexivity|]. split; [reflexivity|]. split; [reflexivity|].
  exact (proj1 (blockid_of_chunk_file_name "c" "a" "-3" "dat"
                  eq_refl eq_refl eq_refl)).
Defined.

Lemma one_call_keeps_at_most_one_entry_witness :
  NoDup (fst <$> fs Z one_stale_state) /\
  (length (cache_entries Z chunk_path false (fs Z one_stale_state)) <= 1)%nat /\
  NoDup (fst <$> fs Z (snd (render_and_save Z sample_blockmap sample_md5
                              sample_memory chunk_path false one_stale_state))) /\
  (length (cache_entries Z chunk_path false
             (fs Z (snd (render_and_save Z sample_blockmap sample_md5
                           sample_memory chunk_path false one_stale_state))))
   <= 1)%nat.
Proof.
  assert (NoDup (fst <$> fs Z one_stale_state)) as H1
    by (apply (bool_decide_unpack _); vm_compute; exact I).
  assert (length (cache_entries Z chunk_path false (fs Z one_stale_state)) <= 1)%nat
    as H2 by (vm_compute; lia).
  pose proof (one_call_keeps_at_most_one_entry Z sample_blockmap sample_md5
                sample_memory chunk_path false one_stale_state H1) as H.
  split; [exact H1|]. split; [exact H2|].
  split; [exact (proj1 H)|exact (proj2 H H2)].
Defined.

Lemma damaged_cache_file_is_rewritten_witness :
  get_lvldata Z chunk_path (fs Z damaged_state) = Ok dark_level /\
  lookup_file Z (dest_path_of sample_md5 chunk_path false dark_level)
    (fs Z damaged_state) = Some (Damaged Z) /\
  (forall c, Damaged Z <> ImageFile Z c) /\
  fst <$> fs Z (snd (render_and_save Z sample_blockmap sample_md5 sample_memory
                       chunk_path false damaged_state)) =
  fst <$> fs Z damaged_state.
Proof.
  assert (get_lvldata Z chunk_path (fs Z damaged_state) = Ok dark_level) as H1
    by reflexivity.
  assert (lookup_file Z (dest_path_of sample_md5 chunk_path false dark_level)
            (fs Z damaged_state) = Some (Damaged Z)) as H2
    by (vm_compute; reflexivity).
  assert (forall c, Damaged Z <> ImageFile Z c) as H3 by discriminate.
  split; [exact H1|]. split; [exact H2|]. split; [exact H3|].
  exact (proj1 (damaged_cache_file_is_rewritten Z sample_blockmap sample_md5
                  sample_memory chunk_path false damaged_state dark_level
                  (Damaged Z) H1 H2 H3)).
Defined.

Lemma returned_path_holds_an_image_witness :
  fst (render_and_save Z sample_blockmap sample_md5 sample_memory chunk_path
         false warm_state) = Ok ("/world", "img.a.-3.nocave.ce1220.png") /\
  exists lv img,
    lookup_file Z chunk_path (fs Z warm_state) = Some (ChunkData Z lv) /\
    ("/world", "img.a.-3.nocave.ce1220.png") =
      dest_path_of sample_md5 chunk_path false lv /\
    fst ("/world", "img.a.-3.nocave.ce1220.png") = fst chunk_path /\
    lookup_file Z ("/world", "img.a.-3.nocave.ce1220.png")
      (fs Z (snd (render_and_save Z sample_blockmap sample_md5 sample_memory
                    chunk_path false warm_state))) =
      Some (ImageFile Z img).
Proof.
  assert (fst (render_and_save Z sample_blockmap sample_md5 sample_memory
                 chunk_path false warm_state) =
          Ok ("/world", "img.a.-3.nocave.ce1220.png")) as H
    by (vm_compute; reflexivity).
  split; [exact H|].
  exact (returned_path_holds_an_image Z sample_blockmap sample_md5 sample_memory
           chunk_path false warm_state _ H).
Defined.

(** The chunk file itself is no cache entry: it is kept. *)
Lemma files_outside_the_cache_are_kept_witness :
  (fst chunk_path <> fst chunk_path \/
   is_old_image (blockid_of (snd chunk_path)) false (snd chunk_path) = false) /\
  lookup_file Z chunk_path
    (fs Z (snd (render_and_save Z sample_blockmap sample_md5 sample_memory
                  chunk_path false stale_state))) =
  lookup_file Z chunk_path (fs Z stale_state).
Proof.
  assert (fst chunk_path <> fst chunk_path \/
          is_old_image (blockid_of (snd chunk_path)) false (snd chunk_path)
            = false) as H by (right; vm_compute; reflexivity).
  split; [exact H|].
  exact (files_outside_the_cache_are_kept Z sample_blockmap sample_md5
           sample_memory chunk_path false stale_state chunk_path H).
Defined.

(** A miss for the chunk in normal mode, which removes its old image,
    renders and writes: the image of the chunk next door is kept, and so
    is the image of the chunk itself in cave mode. *)
Lemma images_of_other_chunks_and_modes_are_kept_witness :
  well_named chunk_path = true /\ well_named other_chunk_path = true /\
  (blockid_of (snd other_chunk_path), false) <>
    (blockid_of (snd chunk_path), false) /\
  is_old_image (blockid_of (snd other_chunk_path)) false
    "img.a.-4.nocave.77aa01.png" = true /\
  (let r := render_and_save Z sample_blockmap sample_md5 sample_memory
              chunk_path false shared_state in
   (fst r, events Z (snd r)) =
   (Ok ("/world", "img.a.-3.nocave.ce1220.png"),
    [Unlinked ("/world", "img.a.-3.nocave.5f2c1a.png"); Rendered false;
     Written ("/world", "img.a.-3.nocave.ce1220.png")]) /\
   lookup_file Z ("/world", "img.a.-4.nocave.77aa01.png") (fs Z (snd r)) =
   lookup_file Z ("/world", "img.a.-4.nocave.77aa01.png") (fs Z shared_state) /\
   lookup_file Z ("/world", "img.a.-3.cave.ce1220.png") (fs Z (snd r)) =
   lookup_file Z ("/world", "img.a.-3.cave.ce1220.png") (fs Z shared_state)).
Proof.
  assert (well_named chunk_path = true) as H1 by (vm_compute; reflexivity).
  assert (well_named other_chunk_path = true) as H2 by (vm_compute; reflexivity).
  assert ((blockid_of (snd other_chunk_path), false) <>
          (blockid_of (snd chunk_path), false)) as H3
    by (vm_compute; discriminate).
  assert (is_old_image (blockid_of (snd other_chunk_path)) false
            "img.a.-4.nocave.77aa01.png" = true) as H4
    by (vm_compute; reflexivity).
  assert ((blockid_of (snd chunk_path), true) <>
          (blockid_of (snd chunk_path), false)) as H5 by discriminate.
  assert (is_old_image (blockid_of (snd chunk_path)) true
            "img.a.-3.cave.ce1220.png" = true) as H6
    by (vm_compute; reflexivity).
  split; [exact H1|]. split; [exact H2|]. split; [exact H3|].
  split; [exact H4|]. cbv zeta.
  split; [vm_compute; reflexivity|]. split.
  - exact (images_of_other_chunks_and_modes_are_kept Z sample_blockmap
             sample_md5 sample_memory chunk_path other_chunk_path false false
             shared_state "/world" "img.a.-4.nocave.77aa01.png" H1 H2 H3 H4).
  - exact (images_of_other_chunks_and_modes_are_kept Z sample_blockmap
             sample_md5 sample_memory chunk_path chunk_path false true
             shared_state "/world" "img.a.-3.cave.ce1220.png" H1 H1 H5 H6).
Defined.

Lemma cold_directory_has_no_two_entries (cf : string * string) (cave : bool) :
  well_named cf = true ->
  (length (cache_entries Z cf cave (fs Z (cold_state dark_level))) <= 1)%nat.
Proof. intros _. exact (cache_entries_length Z cf cave _). Qed.

(** Normal mode, cave mode, normal mode again, from the chunk file alone. *)
Lemma cache_keeps_one_image_per_chunk_and_mode_witness :
  let calls := [(chunk_path, false); (chunk_path, true); (chunk_path, false)] in
  Forall (fun c => well_named (fst c) = true) calls /\
  NoDup (fst <$> fs Z (cold_state dark_level)) /\
  (forall cf cave, well_named cf = true ->
     (length (cache_entries Z cf cave (fs Z (cold_state dark_level))) <= 1)%nat) /\
  (length (cache_entries Z chunk_path false
             (fs Z (render_all Z sample_blockmap sample_md5 sample_memory calls
                      (cold_state dark_level)))) <= 1)%nat.
Proof.
  intros calls.
  assert (Forall (fun c => well_named (fst c) = true) calls) as H1
    by (repeat constructor).
  assert (NoDup (fst <$> fs Z (cold_state dark_level))) as H2
    by (apply (bool_decide_unpack _); vm_compute; exact I).
  split; [exact H1|]. split; [exact H2|].
  split; [exact cold_directory_has_no_two_entries|].
  exact (proj2 (cache_keeps_one_image_per_chunk_and_mode Z sample_blockmap
                  sample_md5 sample_memory calls (cold_state dark_level) H1 H2
                  cold_directory_has_no_two_entries)
           chunk_path false eq_refl).
Defined.

Lemma normal_mode_returns_unless_blocks_missized_witness :
  get_lvldata Z chunk_path (fs Z (cold_state short_level)) = Ok short_level /\
  fst (render_and_save Z sample_blockmap sample_md5 sample_memory chunk_path
         false (cold_state short_level)) = Raise ValueError.
Proof.
  assert (get_lvldata Z chunk_path (fs Z (cold_state short_level)) =
          Ok short_level) as H by reflexivity.
  split; [exact H|].
  exact (normal_mode_returns_unless_blocks_missized Z sample_blockmap sample_md5
           sample_memory chunk_path (cold_state short_level) short_level H).
Defined.

(** The lit tower chunk: the stone at the top of the facing edge is lit,
    so the cell holds the hidden identifier, which has no sprite, and cave
    mode returns; in the dark chunk the stone stays and cave mode raises. *)
Lemma cave_mode_returns_unless_sprite_on_edge_top_witness :
  get_lvldata Z chunk_path (fs Z (cold_state lit_level)) = Ok lit_level /\
  get_blockarray lit_level = Ok tower_grid /\
  get_skylight_array lit_level = Ok lit_skylight /\
  exists v byte,
    Numpy.get3 tower_grid 0 15 127 = Ok v /\
    Numpy.get3 lit_skylight 0 15 63 = Ok byte /\
    fst (render_and_save Z sample_blockmap sample_md5 sample_memory chunk_path
           true (cold_state lit_level)) =
    if cache_hit Z sample_md5 chunk_path true lit_level
         (fs Z (cold_state lit_level))
    then Ok (dest_path_of sample_md5 chunk_path true lit_level)
    else match sample_blockmap (if Z.shiftr byte 4 =? 0 then v else hidden_id) with
         | Some _ => Raise IndexError
         | None => Ok (dest_path_of sample_md5 chunk_path true lit_level)
         end.
Proof.
  assert (get_lvldata Z chunk_path (fs Z (cold_state lit_level)) = Ok lit_level)
    as H1 by reflexivity.
  assert (get_blockarray lit_level = Ok tower_grid) as H2
    by (vm_compute; reflexivity).
  assert (get_skylight_array lit_level = Ok lit_skylight) as H3
    by (vm_compute; reflexivity).
  split; [exact H1|]. split; [exact H2|]. split; [exact H3|].
  exact (cave_mode_returns_unless_sprite_on_edge_top Z sample_blockmap
           sample_md5 sample_memory chunk_path (cold_state lit_level) lit_level
           tower_grid lit_skylight H1 H2 H3).
Defined.

Lemma missized_level_raises_after_cleanup_witness :
  get_lvldata Z chunk_path (fs Z (cold_state short_level)) = Ok short_level /\
  cache_hit Z sample_md5 chunk_path true short_level
    (fs Z (cold_state short_level)) = false /\
  (Z.of_nat (length (Blocks short_level)) <> 32768 \/
   true = true /\ Z.of_nat (length (SkyLight short_level)) <> 16384) /\
  fst (render_and_save Z sample_blockmap sample_md5 sample_memory chunk_path
         true (cold_state short_level)) = Raise ValueError.
Proof.
  assert (get_lvldata Z chunk_path (fs Z (cold_state short_level)) =
          Ok short_level) as H1 by reflexivity.
  assert (cache_hit Z sample_md5 chunk_path true short_level
            (fs Z (cold_state short_level)) = false) as H2
    by (vm_compute; reflexivity).
  assert (Z.of_nat (length (Blocks short_level)) <> 32768 \/
          true = true /\ Z.of_nat (length (SkyLight short_level)) <> 16384)
    as H3 by (left; vm_compute; discriminate).
  split; [exact H1|]. split; [exact H2|]. split; [exact H3|].
  exact (proj1 (missized_level_raises_after_cleanup Z sample_blockmap sample_md5
                  sample_memory chunk_path true (cold_state short_level)
                  short_level H1 H2 H3)).
Defined.

(** The stone of the tower is byte 2047 of [Blocks]. *)
Lemma block_of_voxel_is_byte_of_Blocks_witness :
  get_blockarray lit_level = Ok tower_grid /\ in_grid (0, 15, 127) /\
  exists v,
    Blocks lit_level !! Z.to_nat (0 * 2048 + 15 * 128 + 127) = Some v /\
    Numpy.get3 tower_grid 0 15 127 = Ok v.
Proof.
  assert (get_blockarray lit_level = Ok tower_grid) as H1
    by (vm_compute; reflexivity).
  assert (in_grid (0, 15, 127)) as H2 by (simpl; lia).
  split; [exact H1|]. split; [exact H2|].
  exact (proj2 (proj2 block_of_voxel_is_byte_of_Blocks) lit_level tower_grid
           0 15 127 H1 H2).
Defined.

Lemma skylight_of_voxel_is_nibble_of_SkyLight_witness :
  get_skylight_array lit_level = Ok lit_skylight /\ in_grid (0, 15, 127) /\
  exists byte,
    SkyLight lit_level !! Z.to_nat (0 * 1024 + 15 * 64 + 127 / 2) = Some byte /\
    Numpy.get3 (skylight_expanded sample_memory lit_skylight) 0 15 127 =
      Ok (if Z.even 127 then Z.land byte 15 else Z.shiftr byte 4).
Proof.
  assert (get_skylight_array lit_level = Ok lit_skylight) as H1
    by (vm_compute; reflexivity).
  assert (in_grid (0, 15, 127)) as H2 by (simpl; lia).
  split; [exact H1|]. split; [exact H2|].
  exact (proj2 (skylight_of_voxel_is_nibble_of_SkyLight sample_memory)
           lit_level lit_skylight 0 15 127 H1 H2).
Defined.

Lemma unreadable_chunk_file_changes_nothing_witness :
  lookup_file Z chunk_path (fs Z bare_state) = None /\
  render_and_save Z sample_blockmap sample_md5 sample_memory chunk_path true
    bare_state = (Raise ValueError, bare_state).
Proof.
  assert (lookup_file Z chunk_path (fs Z bare_state) = None) as H by reflexivity.
  split; [exact H|].
  exact (proj1 (unreadable_chunk_file_changes_nothing Z sample_blockmap
                  sample_md5 sample_memory chunk_path true bare_state) H).
Defined.

Lemma result_depends_on_the_files_alone_witness :
  fs Z (cold_state dark_level) = fs Z used_state /\
  fst (render_and_save Z sample_blockmap sample_md5 sample_memory chunk_path
         true (cold_state dark_level)) =
  fst (render_and_save Z sample_blockmap sample_md5 sample_memory chunk_path
         true used_state).
Proof.
  assert (fs Z (cold_state dark_level) = fs Z used_state) as H by reflexivity.
  split; [exact H|].
  exact (proj1 (result_depends_on_the_files_alone Z sample_blockmap sample_md5
                  sample_memory chunk_path true (cold_state dark_level)
                  used_state H)).
Defined.

(** On the chunk of air the indices the loops hand to [blocks] are the
    traversal. *)
Lemma loops_visit_each_voxel_once_in_order_witness :
  (forall x y z, in_grid (x, y, z) ->
     exists id, Numpy.get3 air_grid x y z = Ok id /\
                sample_blockmap id = None) /\
  fst (render_loops Z sample_blockmap true air_grid 0 0 []) = traversal.
Proof.
  split; [exact air_has_no_sprite|].
  exact (proj1 (proj2 (proj2 (loops_visit_each_voxel_once_in_order Z
                                sample_blockmap)))
           true air_grid 0 0 [] air_has_no_sprite).
Defined.
